(** * figma-ppt: the slide builder and the preview-server helper

    A shallow embedding of [scripts/build-slides.py] and
    [scripts/serve-and-capture.py].

    Python values that the scripts handle are the values [json.load] returns
    (None, bool, int, float, str, list, dict with string keys).  Strings are
    kept as their UTF-8 bytes, a lone surrogate (which [json.load] gives for
    an escape such as \ud800) as the three bytes ED A0..BF 80..BF.  A Python
    call that may raise is a function into [result]; the scripts' writes to
    files and to the two output streams are collected in an explicit
    [world].

    What is taken from the surroundings: the file system takes every
    directory and file the scripts make, so a write fails only when its text
    cannot be encoded as UTF-8, with UnicodeEncodeError; the standard output
    takes every line printed (it is a UTF-8 stream, the error stream
    replaces what it cannot encode); localhost resolves, so a port probe
    raises only for a port outside 0..65535, with OverflowError. *)

From Stdlib Require Import ZArith List String Ascii Bool Lia.
From Stdlib Require Import DecimalString Permutation Sorted.
From Stdlib Require Import OrdersEx RelationClasses.
From Stdlib Require DecimalPos DecimalZ.
From Stdlib Require Import Floats.PrimFloat.
Import ListNotations.

Set Warnings "-register-all".

Local Open Scope list_scope.
Local Open Scope string_scope.

(* ------------------------------------------------------------------ *)
(** ** Python values, exceptions and the builtins the scripts call     *)
(* ------------------------------------------------------------------ *)

Module Py.

Inductive pyval : Type :=
| PNone
| PBool (b : bool)
| PInt (z : Z)
| PFloat (f : float)
| PStr (s : string)
| PList (l : list pyval)
| PDict (kvs : list (string * pyval)).

Inductive exn : Type :=
| AttributeError
| TypeError
| ValueError
| KeyError
| IndexError
| UnicodeEncodeError
| OverflowError.

Inductive result (A : Type) : Type :=
| Ok (a : A)
| Raise (e : exn).

Arguments Ok {A} a.
Arguments Raise {A} e.

Definition bind {A B : Type} (r : result A) (k : A -> result B) : result B :=
  match r with
  | Ok a => k a
  | Raise e => Raise e
  end.

Definition is_ok {A : Type} (r : result A) : bool :=
  match r with Ok _ => true | Raise _ => false end.

(** The double quote character, which the templates use around attribute
    values. *)
Definition dq : string := String (ascii_of_nat 34) EmptyString.

(** [bool(v)]: Python truthiness. *)
Definition truthy (v : pyval) : bool :=
  match v with
  | PNone => false
  | PBool b => b
  | PInt z => negb (Z.eqb z 0)
  | PFloat f => negb (PrimFloat.eqb f PrimFloat.zero)
  | PStr s => negb (String.eqb s "")
  | PList l => match l with [] => false | _ => true end
  | PDict kvs => match kvs with [] => false | _ => true end
  end.

(** Lookup in a dict, kept as its items in insertion order. *)
Fixpoint assoc (k : string) (kvs : list (string * pyval)) : option pyval :=
  match kvs with
  | [] => None
  | (k', v) :: rest => if String.eqb k k' then Some v else assoc k rest
  end.

(** [c.get(k, d)]: only a dict has the method. *)
Definition get (c : pyval) (k : string) (d : pyval) : result pyval :=
  match c with
  | PDict kvs => Ok (match assoc k kvs with Some v => v | None => d end)
  | _ => Raise AttributeError
  end.

(** [c.get(k)], whose default is None. *)
Definition get1 (c : pyval) (k : string) : result pyval := get c k PNone.

(** [c[k]] for a string key [k]. *)
Definition subscript (c : pyval) (k : string) : result pyval :=
  match c with
  | PDict kvs => match assoc k kvs with Some v => Ok v | None => Raise KeyError end
  | _ => Raise TypeError
  end.

(** [d[k] = v]: an existing key keeps its place, a new key goes last. *)
Fixpoint dict_set (k : string) (v : pyval) (kvs : list (string * pyval))
  : list (string * pyval) :=
  match kvs with
  | [] => [(k, v)]
  | (k', v') :: rest =>
      if String.eqb k k' then (k', v) :: rest else (k', v') :: dict_set k v rest
  end.

(** The code points of a string, each as the string of its UTF-8 bytes: a
    lead byte [110xxxxx], [1110xxxx] or [11110xxx] takes one, two or three
    continuation bytes with it. *)
Definition utf8_more (a : ascii) : nat :=
  let n := nat_of_ascii a in
  if Nat.ltb n 192 then 0
  else if Nat.ltb n 224 then 1
  else if Nat.ltb n 240 then 2
  else 3.

Fixpoint take_bytes (n : nat) (s : string) : string * string :=
  match n, s with
  | S n', String a s' => let (h, t) := take_bytes n' s' in (String a h, t)
  | _, _ => (EmptyString, s)
  end.

Fixpoint code_points_fuel (fuel : nat) (s : string) : list string :=
  match fuel, s with
  | S fuel', String a s' =>
      let (h, t) := take_bytes (utf8_more a) s' in
      String a h :: code_points_fuel fuel' t
  | _, _ => []
  end.

Definition code_points (s : string) : list string :=
  code_points_fuel (String.length s) s.

(** [iter(v)], as a [for] loop or a generator runs it: a list gives its
    elements, a str its characters, a dict its keys; nothing else is
    iterable. *)
Definition iter (v : pyval) : result (list pyval) :=
  match v with
  | PList l => Ok l
  | PStr s => Ok (map PStr (code_points s))
  | PDict kvs => Ok (map (fun kv => PStr (fst kv)) kvs)
  | PNone | PBool _ | PInt _ | PFloat _ => Raise TypeError
  end.

(** [str(z)] of an int. *)
Definition str_int (z : Z) : string := NilZero.string_of_int (Z.to_int z).

(** [format(z, "02d")] of an int: the sign counts in the width of two. *)
Definition pad2 (z : Z) : string :=
  if Z.ltb z 0 then str_int z
  else if Z.ltb z 10 then "0" ++ str_int z
  else str_int z.

(** [format(v, "02d")]: bool is an int; str and float reject the code [d],
    the other types reject any format string. *)
Definition format_02d (v : pyval) : result string :=
  match v with
  | PInt z => Ok (pad2 z)
  | PBool b => Ok (pad2 (if b then 1 else 0))
  | PStr _ | PFloat _ => Raise ValueError
  | PNone | PList _ | PDict _ => Raise TypeError
  end.

(** [s.replace(a, b)] for one-character [a] and [b]. *)
Fixpoint replace_char (a b : ascii) (s : string) : string :=
  match s with
  | EmptyString => EmptyString
  | String c s' => String (if Ascii.eqb c a then b else c) (replace_char a b s')
  end.

(** [s.lower()] on the letters A-Z. *)
Definition lower_ascii (c : ascii) : ascii :=
  let n := nat_of_ascii c in
  if andb (Nat.leb 65 n) (Nat.leb n 90) then ascii_of_nat (n + 32) else c.

Fixpoint lower (s : string) : string :=
  match s with
  | EmptyString => EmptyString
  | String c s' => String (lower_ascii c) (lower s')
  end.

(** [s.upper()] on the letters a-z. *)
Definition upper_ascii (c : ascii) : ascii :=
  let n := nat_of_ascii c in
  if andb (Nat.leb 97 n) (Nat.leb n 122) then ascii_of_nat (n - 32) else c.

Fixpoint ascii_upper (s : string) : string :=
  match s with
  | EmptyString => EmptyString
  | String c s' => String (upper_ascii c) (ascii_upper s')
  end.

Fixpoint all_ascii (s : string) : bool :=
  match s with
  | EmptyString => true
  | String c s' => andb (Nat.ltb (nat_of_ascii c) 128) (all_ascii s')
  end.

(** [format(s, "10s")]: left-justified in a field of ten. *)
Fixpoint spaces (n : nat) : string :=
  match n with O => EmptyString | S n' => String " " (spaces n') end.

Definition ljust10 (s : string) : string :=
  s ++ spaces (10 - String.length s).

(** [len(v)]. *)
Definition len (v : pyval) : result Z :=
  match v with
  | PList l => Ok (Z.of_nat (List.length l))
  | PStr s => Ok (Z.of_nat (List.length (code_points s)))
  | PDict kvs => Ok (Z.of_nat (List.length kvs))
  | PNone | PBool _ | PInt _ | PFloat _ => Raise TypeError
  end.

(** [l[0]] of a list of strings. *)
Definition first (l : list string) : result string :=
  match l with
  | [] => Raise IndexError
  | x :: _ => Ok x
  end.

(** [d.values()]. *)
Definition values (d : pyval) : result (list pyval) :=
  match d with
  | PDict kvs => Ok (map snd kvs)
  | _ => Raise AttributeError
  end.

(** [v.replace(a, b)]: a method of str. *)
Definition replace (v : pyval) (a b : ascii) : result string :=
  match v with
  | PStr s => Ok (replace_char a b s)
  | _ => Raise AttributeError
  end.

(** A set of strings, kept as a list without repetition; [s.add(x)]. *)
Fixpoint mem (x : string) (l : list string) : bool :=
  match l with
  | [] => false
  | y :: rest => if String.eqb x y then true else mem x rest
  end.

Definition set_add (x : string) (l : list string) : list string :=
  if mem x l then l else l ++ [x].

(** The order of str: code point by code point, which on UTF-8 text is byte
    by byte. *)
Definition str_leb (a b : string) : bool :=
  match String_as_OT.compare a b with
  | Gt => false
  | _ => true
  end.

(** [sorted(l)]. *)
Fixpoint insert_sorted (x : string) (l : list string) : list string :=
  match l with
  | [] => [x]
  | y :: rest => if str_leb x y then x :: l else y :: insert_sorted x rest
  end.

Definition sorted (l : list string) : list string :=
  fold_right insert_sorted [] l.

(** The newline character. *)
Definition nl : string := String (ascii_of_nat 10) EmptyString.

(** A str that [json.load] read can hold a lone surrogate: the escape
    \ud800 gives one.  Such a code point is kept here as the three bytes it
    would have in UTF-8 if it had an encoding, a lead byte ED (237) and a
    byte from A0 (160) on after it; it has none, so writing the str to a
    file opened with encoding utf-8 raises UnicodeEncodeError.
    [encodable s]: no code point of [s] is a surrogate.  The scan keeps
    whether the byte before was ED. *)
Fixpoint no_surrogate (after_ed : bool) (s : string) : bool :=
  match s with
  | EmptyString => negb after_ed
  | String b rest =>
      if andb after_ed (Nat.leb 160 (nat_of_ascii b)) then false
      else no_surrogate (Nat.eqb (nat_of_ascii b) 237) rest
  end.

Definition encodable (s : string) : bool := no_surrogate false s.

(** [json.dump(v, f, ensure_ascii=False)] writes every str of [v], keys
    and values, as it is: it gets through when all of them can be
    encoded. *)
Fixpoint json_encodable (v : pyval) : bool :=
  match v with
  | PStr s => encodable s
  | PList l => forallb json_encodable l
  | PDict kvs =>
      forallb (fun kv => match kv with
                         | (k, v') => andb (encodable k) (json_encodable v')
                         end) kvs
  | PNone | PBool _ | PInt _ | PFloat _ => true
  end.

End Py.

Import Py.

Notation "x <- e ;; k" := (bind e (fun x => k))
  (at level 61, e at next level, right associativity).

(** [for x in l: s = body(s, x)], where the body may raise. *)
Fixpoint for_each {A S : Type} (body : S -> A -> result S) (l : list A) (s : S)
  : result S :=
  match l with
  | [] => Ok s
  | x :: rest => s' <- body s x ;; for_each body rest s'
  end.

(** [enumerate(l, start)]. *)
Fixpoint enumerate {A : Type} (start : Z) (l : list A) : list (Z * A) :=
  match l with
  | [] => []
  | x :: rest => (start, x) :: enumerate (start + 1) rest
  end.

(* ------------------------------------------------------------------ *)
(** ** The style sheets: the fixed text of each template's style block  *)
(* ------------------------------------------------------------------ *)

Module Css.

Definition hero_style : string :=
"<style>
.slide-hero {
  display: flex;
}
.hero-panel-left {
  width: 55%;
  height: 100%;
  background: var(--primary);
  display: flex;
  flex-direction: column;
  justify-content: center;
  padding: 96px;
  position: relative;
}
.hero-tagline {
  font-family: var(--font-body);
  font-size: 13px;
  font-weight: 600;
  letter-spacing: 0.2em;
  text-transform: uppercase;
  color: rgba(255,255,255,0.65);
  margin-bottom: 32px;
}
.hero-title {
  font-family: var(--font-display);
  font-size: 80px;
  font-weight: 800;
  line-height: 1.05;
  letter-spacing: -2px;
  color: #ffffff;
  margin-bottom: 48px;
}
.hero-rule {
  width: 64px;
  height: 3px;
  background: rgba(255,255,255,0.4);
  margin-bottom: 32px;
}
.hero-meta {
  display: flex;
  align-items: center;
  gap: 12px;
  font-size: 16px;
  color: rgba(255,255,255,0.75);
  font-weight: 400;
}
.hero-sep { opacity: 0.4; }
.hero-panel-right {
  flex: 1;
  background: var(--surface);
  display: flex;
  flex-direction: column;
  justify-content: center;
  padding: 96px 80px;
  position: relative;
}
.hero-subtitle {
  font-family: var(--font-display);
  font-size: 36px;
  font-weight: 300;
  line-height: 1.4;
  color: var(--text-primary);
  max-width: 520px;
}
.hero-deco-num {
  position: absolute;
  right: 64px;
  bottom: 64px;
  font-size: 160px;
  font-weight: 800;
  color: var(--primary);
  opacity: 0.06;
  line-height: 1;
  font-family: var(--font-display);
}
.hero-corner-accent {
  position: absolute;
  bottom: 0;
  left: 55%;
  transform: translateX(-50%);
  width: 2px;
  height: 80px;
  background: var(--primary);
  opacity: 0.3;
}
</style>".

Definition agenda_style : string :=
"<style>
.slide-agenda {
  display: flex;
  align-items: center;
  padding-left: 120px;
}
.agenda-content {
  width: 100%;
  max-width: 1400px;
}
.agenda-heading {
  font-family: var(--font-display);
  font-size: 56px;
  font-weight: 700;
  letter-spacing: -1.5px;
  color: var(--text-primary);
  margin-bottom: 64px;
  line-height: 1.1;
}
.agenda-items {
  display: flex;
  flex-direction: column;
  gap: 0;
}
.agenda-item {
  display: flex;
  align-items: center;
  gap: 32px;
  padding: 24px 0;
  border-bottom: 1px solid rgba(255,255,255,0.07);
}
.agenda-item:first-child {
  border-top: 1px solid rgba(255,255,255,0.07);
}
.agenda-num {
  font-family: var(--font-display);
  font-size: 20px;
  font-weight: 700;
  color: var(--primary);
  min-width: 36px;
  letter-spacing: 0.05em;
}
.agenda-divider {
  width: 1px;
  height: 24px;
  background: rgba(255,255,255,0.15);
}
.agenda-text {
  font-family: var(--font-display);
  font-size: 28px;
  font-weight: 500;
  color: var(--text-primary);
  letter-spacing: -0.3px;
}
</style>".

Definition content_style : string :=
"<style>
.slide-content {
  display: flex;
  flex-direction: column;
}
.content-header {
  padding: 64px 96px 48px;
  border-bottom: 1px solid rgba(255,255,255,0.08);
  background: var(--surface);
}
.content-heading {
  font-family: var(--font-display);
  font-size: 52px;
  font-weight: 700;
  letter-spacing: -1.5px;
  line-height: 1.1;
  color: var(--text-primary);
}
.content-body {
  flex: 1;
  padding: 56px 96px;
  display: flex;
  gap: 80px;
}
.content-layout-full .content-text { max-width: 1100px; }
.content-layout-split .content-text { width: 55%; }
.content-body-text {
  font-size: 22px;
  line-height: 1.65;
  color: var(--text-secondary);
  margin-bottom: 36px;
  font-weight: 400;
}
.content-bullets {
  list-style: none;
  display: flex;
  flex-direction: column;
  gap: 20px;
}
.content-bullet {
  font-size: 24px;
  line-height: 1.5;
  color: var(--text-primary);
  font-weight: 400;
  padding-left: 28px;
  position: relative;
}
.content-bullet::before {
  content: '';
  position: absolute;
  left: 0;
  top: 13px;
  width: 8px;
  height: 8px;
  border-radius: 50%;
  background: var(--primary);
}
.content-image-placeholder {
  flex: 1;
  background: var(--surface);
  border: 1px solid rgba(255,255,255,0.08);
  border-radius: 12px;
  display: flex;
  align-items: center;
  justify-content: center;
  min-height: 400px;
}
.content-image-hint {
  font-size: 14px;
  color: var(--text-secondary);
  text-align: center;
  max-width: 240px;
  opacity: 0.5;
}
</style>".

Definition twocol_style : string :=
"<style>
.slide-twocol {
  display: flex;
  flex-direction: column;
}
.twocol-body {
  flex: 1;
  display: flex;
  gap: 32px;
  padding: 48px 96px;
  align-items: stretch;
}
.twocol-card {
  flex: 1;
  background: var(--surface);
  border-radius: 12px;
  border: 1px solid rgba(255,255,255,0.07);
  border-left: 4px solid var(--primary);
  padding: 48px 52px;
  display: flex;
  flex-direction: column;
  gap: 24px;
}
.col-heading {
  font-family: var(--font-display);
  font-size: 32px;
  font-weight: 700;
  letter-spacing: -0.5px;
  color: var(--text-primary);
}
.col-body {
  font-size: 18px;
  line-height: 1.6;
  color: var(--text-secondary);
}
.col-bullets {
  list-style: none;
  display: flex;
  flex-direction: column;
  gap: 16px;
}
.col-bullet {
  font-size: 20px;
  color: var(--text-primary);
  padding-left: 24px;
  position: relative;
  line-height: 1.4;
}
.col-bullet::before {
  content: '';
  position: absolute;
  left: 0;
  top: 10px;
  width: 6px;
  height: 6px;
  border-radius: 50%;
  background: var(--primary);
}
</style>".

Definition stats_style : string :=
"<style>
.slide-stats {
  display: flex;
  flex-direction: column;
}
.stats-body {
  flex: 1;
  display: flex;
  gap: 24px;
  padding: 48px 96px;
  align-items: stretch;
}
.stat-card {
  flex: 1;
  background: var(--surface);
  border-radius: 12px;
  border: 1px solid rgba(255,255,255,0.07);
  padding: 52px 48px;
  display: flex;
  flex-direction: column;
  justify-content: center;
  gap: 12px;
}
.stat-number {
  font-family: var(--font-display);
  font-size: 80px;
  font-weight: 800;
  letter-spacing: -3px;
  line-height: 1;
  color: var(--primary);
}
.stat-label {
  font-size: 16px;
  font-weight: 600;
  letter-spacing: 0.1em;
  text-transform: uppercase;
  color: var(--text-secondary);
}
.stat-trend {
  font-size: 18px;
  font-weight: 600;
  color: #4ade80;
}
.stat-desc {
  font-size: 15px;
  color: var(--text-secondary);
  line-height: 1.5;
  margin-top: 4px;
  opacity: 0.7;
}
</style>".

Definition quote_style : string :=
"<style>
.slide-quote {
  display: flex;
  align-items: center;
  justify-content: center;
  background: var(--primary) !important;
}
.quote-bg {
  position: absolute;
  inset: 0;
  background: var(--primary);
}
.quote-deco {
  position: absolute;
  top: 60px;
  left: 80px;
  font-family: var(--font-display);
  font-size: 240px;
  font-weight: 800;
  color: rgba(255,255,255,0.08);
  line-height: 1;
  pointer-events: none;
}
.quote-content {
  position: relative;
  max-width: 1200px;
  text-align: center;
  padding: 0 96px;
}
.quote-text {
  font-family: var(--font-display);
  font-size: 48px;
  font-weight: 400;
  line-height: 1.4;
  color: #ffffff;
  letter-spacing: -0.5px;
  margin-bottom: 56px;
  font-style: italic;
}
.quote-rule {
  width: 64px;
  height: 2px;
  background: rgba(255,255,255,0.35);
  margin: 0 auto 32px;
}
.quote-attribution {
  display: flex;
  flex-direction: column;
  align-items: center;
  gap: 6px;
}
.quote-name {
  font-size: 20px;
  font-weight: 600;
  color: #ffffff;
  letter-spacing: 0.03em;
}
.quote-role {
  font-size: 15px;
  color: rgba(255,255,255,0.6);
  letter-spacing: 0.05em;
}
</style>".

Definition divider_style : string :=
"<style>
.slide-divider {
  display: flex;
}
.div-left {
  width: 45%;
  height: 100%;
  background: var(--primary);
  display: flex;
  align-items: center;
  justify-content: center;
  position: relative;
}
.div-big-num {
  font-family: var(--font-display);
  font-size: 320px;
  font-weight: 900;
  color: rgba(0,0,0,0.15);
  line-height: 1;
  user-select: none;
}
.div-right {
  flex: 1;
  display: flex;
  flex-direction: column;
  justify-content: center;
  padding: 96px 96px 96px 80px;
}
.div-title {
  font-family: var(--font-display);
  font-size: 64px;
  font-weight: 700;
  letter-spacing: -2px;
  line-height: 1.05;
  color: var(--text-primary);
  margin: 20px 0 32px;
}
.div-desc {
  font-size: 22px;
  line-height: 1.6;
  color: var(--text-secondary);
  max-width: 560px;
}
</style>".

Definition closing_style : string :=
"<style>
.slide-closing {
  background: var(--primary) !important;
  display: flex;
  align-items: stretch;
  position: relative;
  overflow: hidden;
}
.closing-circle {
  position: absolute;
  border-radius: 50%;
  background: rgba(255,255,255,0.04);
  pointer-events: none;
}
.c1 {
  width: 800px; height: 800px;
  right: -200px; bottom: -200px;
}
.c2 {
  width: 500px; height: 500px;
  right: 200px; top: -150px;
}
.closing-left {
  flex: 1;
  display: flex;
  flex-direction: column;
  justify-content: center;
  padding: 96px;
}
.closing-tagline {
  font-size: 13px;
  font-weight: 700;
  letter-spacing: 0.25em;
  text-transform: uppercase;
  color: rgba(255,255,255,0.6);
  margin-bottom: 24px;
}
.closing-heading {
  font-family: var(--font-display);
  font-size: 80px;
  font-weight: 800;
  letter-spacing: -2.5px;
  line-height: 1.05;
  color: #ffffff;
  margin-bottom: 28px;
}
.closing-subheading {
  font-size: 24px;
  line-height: 1.5;
  color: rgba(255,255,255,0.75);
  margin-bottom: 48px;
  max-width: 560px;
}
.closing-cta {
  font-size: 20px;
  font-weight: 600;
  color: rgba(255,255,255,0.9);
  padding: 16px 0;
  border-top: 1px solid rgba(255,255,255,0.2);
  display: inline-block;
}
.closing-right {
  width: 560px;
  background: rgba(0,0,0,0.15);
  display: flex;
  flex-direction: column;
  justify-content: center;
  padding: 80px 64px;
  gap: 32px;
}
.closing-takeaways-label {
  font-size: 12px;
  font-weight: 700;
  letter-spacing: 0.15em;
  text-transform: uppercase;
  color: rgba(255,255,255,0.5);
}
.closing-takeaways {
  list-style: none;
  display: flex;
  flex-direction: column;
  gap: 20px;
}
.closing-takeaway {
  display: flex;
  align-items: flex-start;
  gap: 16px;
  font-size: 18px;
  line-height: 1.5;
  color: rgba(255,255,255,0.9);
}
.takeaway-check {
  color: rgba(255,255,255,0.5);
  flex-shrink: 0;
  font-size: 14px;
  margin-top: 3px;
}
.closing-contact {
  position: absolute;
  bottom: 48px;
  left: 96px;
  font-size: 15px;
  color: rgba(255,255,255,0.45);
  letter-spacing: 0.05em;
}
</style>".


End Css.

Import Css.

(* ------------------------------------------------------------------ *)
(** ** build-slides.py: the slide builders                             *)
(* ------------------------------------------------------------------ *)

Section Build.

(** [repr] of Python, which [str] falls back on for every value that is not
    a str, an int, a bool or None. *)
Variable py_repr : pyval -> string.

(** [str(v)], which is what an f-string field [{v}] and [%(k)s] insert. *)
Definition py_str (v : pyval) : string :=
  match v with
  | PStr s => s
  | PInt z => str_int z
  | PBool true => "True"
  | PBool false => "False"
  | PNone => "None"
  | PFloat _ | PList _ | PDict _ => py_repr v
  end.

Definition slide_hero (c : pyval) (idx : Z) (palette fonts : pyval)
  : result string :=
  title <- get c "title" (PStr "") ;;
  subtitle <- get c "subtitle" (PStr "") ;;
  tagline <- get c "tagline" (PStr "") ;;
  author <- get c "author" (PStr "") ;;
  date <- get c "date" (PStr "") ;;
  Ok ("
<div class=" ++ dq ++ "slide slide-hero" ++ dq ++ ">
  <!-- Left color panel -->
  <div class=" ++ dq ++ "hero-panel-left" ++ dq ++ ">
    " ++ (if truthy tagline then "<div class=" ++ dq ++ "hero-tagline" ++ dq ++ ">" ++ py_str tagline ++ "</div>" else "") ++ "
    <h1 class=" ++ dq ++ "hero-title" ++ dq ++ ">" ++ py_str title ++ "</h1>
    <div class=" ++ dq ++ "hero-rule" ++ dq ++ "></div>
    <div class=" ++ dq ++ "hero-meta" ++ dq ++ ">
      " ++ (if truthy author then "<span class=" ++ dq ++ "hero-author" ++ dq ++ ">" ++ py_str author ++ "</span>" else "") ++ "
      " ++ (if (truthy date && truthy author) then "<span class=" ++ dq ++ "hero-sep" ++ dq ++ ">·</span><span class=" ++ dq ++ "hero-date" ++ dq ++ ">" ++ py_str date ++ "</span>" else if truthy date then "<span class=" ++ dq ++ "hero-date" ++ dq ++ ">" ++ py_str date ++ "</span>" else "") ++ "
    </div>
  </div>

  <!-- Right content panel -->
  <div class=" ++ dq ++ "hero-panel-right" ++ dq ++ ">
    " ++ (if truthy subtitle then "<p class=" ++ dq ++ "hero-subtitle" ++ dq ++ ">" ++ py_str subtitle ++ "</p>" else "") ++ "
    <div class=" ++ dq ++ "hero-deco-num" ++ dq ++ ">01</div>
  </div>

  <!-- Corner accent -->
  <div class=" ++ dq ++ "hero-corner-accent" ++ dq ++ "></div>
</div>

" ++ hero_style ++ "
").

Definition agenda_item (i : Z) (item : pyval) : string :=
  let num_s := pad2 (i + 1) in
  "
        <div class=" ++ dq ++ "agenda-item" ++ dq ++ ">
          <span class=" ++ dq ++ "agenda-num" ++ dq ++ ">" ++ num_s ++ "</span>
          <span class=" ++ dq ++ "agenda-divider" ++ dq ++ "></span>
          <span class=" ++ dq ++ "agenda-text" ++ dq ++ ">" ++ py_str item ++ "</span>
        </div>".

Definition slide_agenda (c : pyval) (idx : Z) (palette fonts : pyval)
  : result string :=
  heading <- get c "heading" (PStr "Agenda") ;;
  section_label <- get c "sectionLabel" (PStr "OVERVIEW") ;;
  items <- get c "items" (PList []) ;;
  items_l <- iter items ;;
  let items_html :=
    fold_left (fun acc ix => acc ++ agenda_item (fst ix) (snd ix))
              (enumerate 0 items_l) "" in
  Ok ("
<div class=" ++ dq ++ "slide slide-agenda" ++ dq ++ ">
  <div class=" ++ dq ++ "accent-stripe" ++ dq ++ "></div>

  <div class=" ++ dq ++ "agenda-content" ++ dq ++ ">
    <div class=" ++ dq ++ "section-label" ++ dq ++ ">" ++ py_str section_label ++ "</div>
    <h2 class=" ++ dq ++ "agenda-heading" ++ dq ++ ">" ++ py_str heading ++ "</h2>
    <div class=" ++ dq ++ "agenda-items" ++ dq ++ ">
      " ++ items_html ++ "
    </div>
  </div>

  <div class=" ++ dq ++ "slide-num" ++ dq ++ ">" ++ pad2 idx ++ "</div>
</div>

" ++ agenda_style ++ "
").

Definition content_bullet (b : pyval) : string :=
  "<li class=" ++ dq ++ "content-bullet" ++ dq ++ ">" ++ py_str b ++ "</li>".

Definition slide_content (c : pyval) (idx : Z) (palette fonts : pyval)
  : result string :=
  heading <- get c "heading" (PStr "") ;;
  section_label <- get c "sectionLabel" (PStr "") ;;
  body <- get c "body" (PStr "") ;;
  bullets <- get c "bullets" (PList []) ;;
  image_hint <- get1 c "imageHint" ;;
  let has_image := truthy image_hint in
  bullets_l <- iter bullets ;;
  let bullets_html :=
    fold_left (fun acc b => acc ++ content_bullet b) bullets_l "" in
  image_html <-
    (if has_image
     then hint <- get c "imageHint" (PStr "") ;;
          Ok ("
        <div class=" ++ dq ++ "content-image-placeholder" ++ dq ++ ">
          <span class=" ++ dq ++ "content-image-hint" ++ dq ++ ">" ++ py_str hint ++ "</span>
        </div>")
     else Ok "") ;;
  let layout_class :=
    if has_image then "content-layout-split" else "content-layout-full" in
  Ok ("
<div class=" ++ dq ++ "slide slide-content" ++ dq ++ ">
  <!-- Header bar -->
  <div class=" ++ dq ++ "content-header" ++ dq ++ ">
    " ++ (if truthy section_label then "<div class=" ++ dq ++ "section-label" ++ dq ++ ">" ++ py_str section_label ++ "</div>" else "") ++ "
    <h2 class=" ++ dq ++ "content-heading" ++ dq ++ ">" ++ py_str heading ++ "</h2>
  </div>

  <!-- Body area -->
  <div class=" ++ dq ++ "content-body " ++ layout_class ++ dq ++ ">
    <div class=" ++ dq ++ "content-text" ++ dq ++ ">
      " ++ (if truthy body then "<p class=" ++ dq ++ "content-body-text" ++ dq ++ ">" ++ py_str body ++ "</p>" else "") ++ "
      " ++ (if truthy bullets then "<ul class=" ++ dq ++ "content-bullets" ++ dq ++ ">" ++ bullets_html ++ "</ul>" else "") ++ "
    </div>
    " ++ image_html ++ "
  </div>

  <div class=" ++ dq ++ "slide-num" ++ dq ++ ">" ++ pad2 idx ++ "</div>
</div>

" ++ content_style ++ "
").

Definition col_bullet (b : pyval) : string :=
  "<li class=" ++ dq ++ "col-bullet" ++ dq ++ ">" ++ py_str b ++ "</li>".

Definition col_html (col : pyval) : result string :=
  h <- get col "heading" (PStr "") ;;
  body <- get col "body" (PStr "") ;;
  items <- get col "bullets" (PList []) ;;
  items_l <- iter items ;;
  let bullets_html := String.concat "" (map col_bullet items_l) in
  Ok ("
        <div class=" ++ dq ++ "twocol-card" ++ dq ++ ">
          <h3 class=" ++ dq ++ "col-heading" ++ dq ++ ">" ++ py_str h ++ "</h3>
          " ++ (if truthy body then "<p class=" ++ dq ++ "col-body" ++ dq ++ ">" ++ py_str body ++ "</p>" else "") ++ "
          " ++ (if truthy items then "<ul class=" ++ dq ++ "col-bullets" ++ dq ++ ">" ++ bullets_html ++ "</ul>" else "") ++ "
        </div>").

Definition slide_two_col (c : pyval) (idx : Z) (palette fonts : pyval)
  : result string :=
  heading <- get c "heading" (PStr "") ;;
  section_label <- get c "sectionLabel" (PStr "") ;;
  left <- get c "leftCol" (PDict []) ;;
  right <- get c "rightCol" (PDict []) ;;
  left_html <- col_html left ;;
  right_html <- col_html right ;;
  Ok ("
<div class=" ++ dq ++ "slide slide-twocol" ++ dq ++ ">
  <div class=" ++ dq ++ "content-header" ++ dq ++ ">
    " ++ (if truthy section_label then "<div class=" ++ dq ++ "section-label" ++ dq ++ ">" ++ py_str section_label ++ "</div>" else "") ++ "
    <h2 class=" ++ dq ++ "content-heading" ++ dq ++ ">" ++ py_str heading ++ "</h2>
  </div>

  <div class=" ++ dq ++ "twocol-body" ++ dq ++ ">
    " ++ left_html ++ "
    " ++ right_html ++ "
  </div>

  <div class=" ++ dq ++ "slide-num" ++ dq ++ ">" ++ pad2 idx ++ "</div>
</div>

" ++ twocol_style ++ "
").

Definition stat_card (cards_html : string) (s : pyval) : result string :=
  trend_html <-
    (t <- get1 s "trend" ;;
     if truthy t
     then trend <- subscript s "trend" ;;
          Ok ("<div class=" ++ dq ++ "stat-trend" ++ dq ++ ">" ++ py_str trend ++ "</div>")
     else Ok "") ;;
  desc_html <-
    (d <- get1 s "description" ;;
     if truthy d
     then description <- subscript s "description" ;;
          Ok ("<div class=" ++ dq ++ "stat-desc" ++ dq ++ ">" ++ py_str description ++ "</div>")
     else Ok "") ;;
  number <- get s "number" (PStr "") ;;
  label <- get s "label" (PStr "") ;;
  Ok (cards_html ++ "
        <div class=" ++ dq ++ "stat-card" ++ dq ++ ">
          <div class=" ++ dq ++ "stat-number" ++ dq ++ ">" ++ py_str number ++ "</div>
          <div class=" ++ dq ++ "stat-label" ++ dq ++ ">" ++ py_str label ++ "</div>
          " ++ trend_html ++ "
          " ++ desc_html ++ "
        </div>").

Definition slide_stats (c : pyval) (idx : Z) (palette fonts : pyval)
  : result string :=
  heading <- get c "heading" (PStr "") ;;
  section_label <- get c "sectionLabel" (PStr "") ;;
  stats <- get c "stats" (PList []) ;;
  stats_l <- iter stats ;;
  cards_html <- for_each stat_card stats_l "" ;;
  Ok ("
<div class=" ++ dq ++ "slide slide-stats" ++ dq ++ ">
  <div class=" ++ dq ++ "content-header" ++ dq ++ ">
    " ++ (if truthy section_label then "<div class=" ++ dq ++ "section-label" ++ dq ++ ">" ++ py_str section_label ++ "</div>" else "") ++ "
    <h2 class=" ++ dq ++ "content-heading" ++ dq ++ ">" ++ py_str heading ++ "</h2>
  </div>

  <div class=" ++ dq ++ "stats-body" ++ dq ++ ">
    " ++ cards_html ++ "
  </div>

  <div class=" ++ dq ++ "slide-num" ++ dq ++ ">" ++ pad2 idx ++ "</div>
</div>

" ++ stats_style ++ "
").

Definition slide_quote (c : pyval) (idx : Z) (palette fonts : pyval)
  : result string :=
  quote <- get c "quote" (PStr "") ;;
  attribution <- get c "attribution" (PStr "") ;;
  role <- get c "role" (PStr "") ;;
  Ok ("
<div class=" ++ dq ++ "slide slide-quote" ++ dq ++ ">
  <!-- Full-bleed primary background -->
  <div class=" ++ dq ++ "quote-bg" ++ dq ++ "></div>

  <!-- Giant decorative quote mark -->
  <div class=" ++ dq ++ "quote-deco" ++ dq ++ ">" ++ dq ++ "</div>

  <div class=" ++ dq ++ "quote-content" ++ dq ++ ">
    <blockquote class=" ++ dq ++ "quote-text" ++ dq ++ ">" ++ py_str quote ++ "</blockquote>
    <div class=" ++ dq ++ "quote-rule" ++ dq ++ "></div>
    <div class=" ++ dq ++ "quote-attribution" ++ dq ++ ">
      " ++ (if truthy attribution then "<span class=" ++ dq ++ "quote-name" ++ dq ++ ">" ++ py_str attribution ++ "</span>" else "") ++ "
      " ++ (if truthy role then "<span class=" ++ dq ++ "quote-role" ++ dq ++ ">" ++ py_str role ++ "</span>" else "") ++ "
    </div>
  </div>

  <div class=" ++ dq ++ "slide-num" ++ dq ++ " style=" ++ dq ++ "color: rgba(255,255,255,0.3);" ++ dq ++ ">" ++ pad2 idx ++ "</div>
</div>

" ++ quote_style ++ "
").

Definition slide_divider (c : pyval) (idx : Z) (palette fonts : pyval)
  : result string :=
  num <- get c "sectionNumber" (PInt idx) ;;
  title <- get c "sectionTitle" (PStr "") ;;
  desc <- get c "description" (PStr "") ;;
  num_02d <- format_02d num ;;
  Ok ("
<div class=" ++ dq ++ "slide slide-divider" ++ dq ++ ">
  <!-- Left panel -->
  <div class=" ++ dq ++ "div-left" ++ dq ++ ">
    <div class=" ++ dq ++ "div-big-num" ++ dq ++ ">" ++ num_02d ++ "</div>
  </div>

  <!-- Right panel -->
  <div class=" ++ dq ++ "div-right" ++ dq ++ ">
    <div class=" ++ dq ++ "section-label" ++ dq ++ " style=" ++ dq ++ "color: var(--primary);" ++ dq ++ ">SECTION " ++ num_02d ++ "</div>
    <h2 class=" ++ dq ++ "div-title" ++ dq ++ ">" ++ py_str title ++ "</h2>
    " ++ (if truthy desc then "<p class=" ++ dq ++ "div-desc" ++ dq ++ ">" ++ py_str desc ++ "</p>" else "") ++ "
  </div>
</div>

" ++ divider_style ++ "
").

Definition closing_takeaway (t : pyval) : string :=
  "<li class=" ++ dq ++ "closing-takeaway" ++ dq ++ "><span class=" ++ dq ++ "takeaway-check" ++ dq ++ ">✓</span>" ++ py_str t ++ "</li>".

Definition slide_closing (c : pyval) (idx : Z) (palette fonts : pyval)
  : result string :=
  tagline <- get c "tagline" (PStr "THANK YOU") ;;
  heading <- get c "heading" (PStr "Let's Build Together") ;;
  subheading <- get c "subheading" (PStr "") ;;
  takeaways <- get c "keyTakeaways" (PList []) ;;
  cta <- get c "cta" (PStr "") ;;
  contact <- get c "contactInfo" (PStr "") ;;
  takeaways_l <- iter takeaways ;;
  let takeaway_html :=
    fold_left (fun acc t => acc ++ closing_takeaway t) takeaways_l "" in
  Ok ("
<div class=" ++ dq ++ "slide slide-closing" ++ dq ++ ">
  <!-- Full-bleed background -->
  <!-- Decorative circles -->
  <div class=" ++ dq ++ "closing-circle c1" ++ dq ++ "></div>
  <div class=" ++ dq ++ "closing-circle c2" ++ dq ++ "></div>

  <div class=" ++ dq ++ "closing-left" ++ dq ++ ">
    <div class=" ++ dq ++ "closing-tagline" ++ dq ++ ">" ++ py_str tagline ++ "</div>
    <h1 class=" ++ dq ++ "closing-heading" ++ dq ++ ">" ++ py_str heading ++ "</h1>
    " ++ (if truthy subheading then "<p class=" ++ dq ++ "closing-subheading" ++ dq ++ ">" ++ py_str subheading ++ "</p>" else "") ++ "
    " ++ (if truthy cta then "<div class=" ++ dq ++ "closing-cta" ++ dq ++ ">" ++ py_str cta ++ "</div>" else "") ++ "
  </div>

  " ++ (if truthy takeaways then "<div class=" ++ dq ++ "closing-right" ++ dq ++ ">
    <div class=" ++ dq ++ "closing-takeaways-label" ++ dq ++ ">Key Takeaways</div>
    <ul class=" ++ dq ++ "closing-takeaways" ++ dq ++ ">" ++ takeaway_html ++ "</ul>
  </div>" else "") ++ "

  " ++ (if truthy contact then "<div class=" ++ dq ++ "closing-contact" ++ dq ++ ">" ++ py_str contact ++ "</div>" else "") ++ "
</div>

" ++ closing_style ++ "
").

(** The dispatch table, and [BUILDERS.get(stype)]. *)
Definition builder : Type := pyval -> Z -> pyval -> pyval -> result string.

Definition BUILDERS : list (string * builder) :=
  [ ("HERO", slide_hero);
    ("AGENDA", slide_agenda);
    ("CONTENT", slide_content);
    ("TWO_COL", slide_two_col);
    ("STATS", slide_stats);
    ("QUOTE", slide_quote);
    ("DIVIDER", slide_divider);
    ("CLOSING", slide_closing) ].

Fixpoint builders_get (stype : string) (table : list (string * builder))
  : option builder :=
  match table with
  | [] => None
  | (k, f) :: rest => if String.eqb stype k then Some f else builders_get stype rest
  end.

(* ------------------------------------------------------------------ *)
(** ** build-slides.py: page template, theme variables, font URL, index *)
(* ------------------------------------------------------------------ *)

Definition make_page (slide_html css_vars google_fonts_url : string)
  (title : pyval) (slide_num total : Z) : string :=
  "<!DOCTYPE html>
<html lang=" ++ dq ++ "en" ++ dq ++ ">
<head>
  <meta charset=" ++ dq ++ "UTF-8" ++ dq ++ ">
  <meta name=" ++ dq ++ "viewport" ++ dq ++ " content=" ++ dq ++ "width=1920" ++ dq ++ ">
  <title>Slide " ++ str_int slide_num ++ " — " ++ py_str title ++ "</title>
  <link rel=" ++ dq ++ "preconnect" ++ dq ++ " href=" ++ dq ++ "https://fonts.googleapis.com" ++ dq ++ ">
  <link rel=" ++ dq ++ "preconnect" ++ dq ++ " href=" ++ dq ++ "https://fonts.gstatic.com" ++ dq ++ " crossorigin>
  <link href=" ++ dq ++ google_fonts_url ++ dq ++ " rel=" ++ dq ++ "stylesheet" ++ dq ++ ">
  <style>
" ++ css_vars ++ "
  </style>
</head>
<body>
" ++ slide_html ++ "
</body>
</html>".

Definition build_css_vars (palette fonts : pyval) : result string :=
  primary <- get palette "primary" (PStr "#2D3FE0") ;;
  background <- get palette "background" (PStr "#0A0A0A") ;;
  surface <- get palette "surface" (PStr "#111111") ;;
  accent <- get palette "accent" (PStr "#FF3B00") ;;
  textPrimary <- get palette "textPrimary" (PStr "#FFFFFF") ;;
  textSecondary <- get palette "textSecondary" (PStr "#888888") ;;
  fontDisplay <- get fonts "display" (PStr "Inter") ;;
  fontBody <- get fonts "body" (PStr "Inter") ;;
  Ok ("
@import url('https://fonts.googleapis.com/css2?family=Inter:wght@300;400;500;600;700;800;900&family=Space+Grotesk:wght@300;400;500;600;700&family=DM+Sans:ital,wght@0,300;0,400;0,500;0,700;1,400&family=Playfair+Display:ital,wght@0,400;0,700;1,400&family=JetBrains+Mono:wght@400;500;700&family=Cormorant+Garamond:ital,wght@0,300;0,600;1,300&family=Plus+Jakarta+Sans:wght@400;500;600;700;800&display=swap');

*, *::before, *::after {
  box-sizing: border-box;
  margin: 0;
  padding: 0;
}

:root {
  --primary:       " ++ py_str primary ++ ";
  --background:    " ++ py_str background ++ ";
  --surface:       " ++ py_str surface ++ ";
  --accent:        " ++ py_str accent ++ ";
  --text-primary:  " ++ py_str textPrimary ++ ";
  --text-secondary:" ++ py_str textSecondary ++ ";
  --font-display:  '" ++ py_str fontDisplay ++ "', Inter, sans-serif;
  --font-body:     '" ++ py_str fontBody ++ "', Inter, sans-serif;
}

html, body {
  width:  1920px;
  height: 1080px;
  overflow: hidden;
  background: var(--background);
  color: var(--text-primary);
  font-family: var(--font-body);
  -webkit-font-smoothing: antialiased;
  text-rendering: optimizeLegibility;
}

/* ── Utility ── */
.slide {
  width: 1920px;
  height: 1080px;
  position: relative;
  overflow: hidden;
  background: var(--background);
}

/* accent stripe */
.accent-stripe {
  position: absolute;
  left: 0; top: 0;
  width: 6px; height: 100%;
  background: var(--primary);
}

/* section label */
.section-label {
  font-family: var(--font-body);
  font-size: 13px;
  font-weight: 600;
  letter-spacing: 0.15em;
  text-transform: uppercase;
  color: var(--primary);
  margin-bottom: 16px;
}

/* slide number watermark */
.slide-num {
  position: absolute;
  right: 64px;
  bottom: 48px;
  font-size: 13px;
  font-weight: 500;
  color: var(--text-secondary);
  letter-spacing: 0.08em;
  opacity: 0.5;
}
").

(** The order in which [sorted] meets the elements of a set: some
    permutation, since the hash of a str changes from one run of the
    interpreter to the next. *)
Variable set_order : list string -> list string.

Definition fallback_family : string :=
  "family=Inter:wght@300;400;500;600;700;800".

Definition family_term (name : string) : string :=
  "family=" ++ name ++ ":wght@300;400;500;600;700;800;900".

Definition add_family (families : list string) (v : pyval)
  : result (list string) :=
  name <- replace v " " "+" ;;
  Ok (set_add (family_term name) families).

Definition font_families (fonts : pyval) : result (list string) :=
  vs <- values fonts ;;
  families <- for_each add_family vs [] ;;
  Ok (set_add fallback_family families).

Definition build_google_fonts_url (fonts : pyval) : result string :=
  families <- font_families fonts ;;
  let query := String.concat "&" (sorted (set_order families)) in
  Ok ("https://fonts.googleapis.com/css2?" ++ query ++ "&display=swap").

Definition index_link (f : string) : string :=
  "    <li><a href=" ++ dq ++ "slides/" ++ f ++ dq ++ ">" ++ f ++ "</a></li>".

Definition make_index (title : pyval) (slide_files : list string) : string :=
  let links := String.concat nl (map index_link slide_files) in
  "<!DOCTYPE html>
<html lang=" ++ dq ++ "en" ++ dq ++ ">
<head>
  <meta charset=" ++ dq ++ "UTF-8" ++ dq ++ ">
  <title>" ++ py_str title ++ " — Slide Index</title>
  <style>
    body { font-family: sans-serif; background: #0a0a0a; color: #fff; padding: 48px; }
    h1 { font-size: 32px; margin-bottom: 32px; }
    ul { list-style: none; display: flex; flex-direction: column; gap: 12px; }
    a { color: #6b7fff; font-size: 18px; text-decoration: none; }
    a:hover { text-decoration: underline; }
  </style>
</head>
<body>
  <h1>" ++ py_str title ++ "</h1>
  <ul>
" ++ links ++ "
  </ul>
</body>
</html>".

(* ------------------------------------------------------------------ *)
(** ** build-slides.py: main                                           *)
(* ------------------------------------------------------------------ *)

(** What a run leaves behind, each in the order of the calls: the files
    written under the output directory (path relative to it), the
    directories made, and what was printed on the two streams.  A file
    holds a text, or the JSON text of a value, or ([Cut]) only a beginning
    of the JSON text of a value: what [json.dump] wrote before it raised. *)
Inductive data : Type :=
| Text (s : string)
| Json (v : pyval)
| Cut (v : pyval).

Record world : Type := World {
  files : list (string * data);
  dirs : list string;
  stdout : list string;
  stderr : list string
}.

Definition empty_world : world := World [] [] [] [].

(** How the process ends: [main] returns (exit status 0), [sys.exit(code)],
    or an exception nobody catches (traceback on the error stream, exit
    status 1). *)
Inductive status : Type :=
| Returned
| Exit (code : Z)
| Uncaught (e : exn).

Definition exit_status (st : status) : Z :=
  match st with
  | Returned => 0
  | Exit code => code
  | Uncaught _ => 1
  end.

Inductive step (A : Type) : Type :=
| Next (a : A)
| Stop (st : status).

Arguments Next {A} a.
Arguments Stop {A} st.

Definition M (A : Type) : Type := world -> world * step A.

Definition ret {A : Type} (a : A) : M A := fun w => (w, Next a).

Definition bindM {A B : Type} (m : M A) (k : A -> M B) : M B :=
  fun w =>
    match m w with
    | (w', Next a) => k a w'
    | (w', Stop st) => (w', Stop st)
    end.

Notation "x <~ e ;; k" := (bindM e (fun x => k))
  (at level 61, e at next level, right associativity).
Notation "e ;;; k" := (bindM e (fun _ => k))
  (at level 61, right associativity).

Definition lift {A : Type} (r : result A) : M A :=
  fun w =>
    match r with
    | Ok a => (w, Next a)
    | Raise e => (w, Stop (Uncaught e))
    end.

Definition sys_exit {A : Type} (code : Z) : M A :=
  fun w => (w, Stop (Exit code)).

Definition print_out (line : string) : M unit :=
  fun w => (World (files w) (dirs w) (stdout w ++ [line]) (stderr w), Next tt).

Definition print_err (line : string) : M unit :=
  fun w => (World (files w) (dirs w) (stdout w) (stderr w ++ [line]), Next tt).

(** [path.write_text(text, encoding="utf-8")]: the file is opened, and so
    made or emptied, before the text is encoded; a text that cannot be
    encoded leaves it empty. *)
Definition write_text (path text : string) : M unit :=
  fun w =>
    if encodable text
    then (World (files w ++ [(path, Text text)]) (dirs w) (stdout w) (stderr w),
          Next tt)
    else (World (files w ++ [(path, Text "")]) (dirs w) (stdout w) (stderr w),
          Stop (Uncaught UnicodeEncodeError)).

(** [with open(path, "w", encoding="utf-8") as f: json.dump(v, f, indent=2,
    ensure_ascii=False)]: the text goes to the file piece by piece, and the
    pieces before a str that cannot be encoded stay in it. *)
Definition json_dump (path : string) (v : pyval) : M unit :=
  fun w =>
    if json_encodable v
    then (World (files w ++ [(path, Json v)]) (dirs w) (stdout w) (stderr w),
          Next tt)
    else (World (files w ++ [(path, Cut v)]) (dirs w) (stdout w) (stderr w),
          Stop (Uncaught UnicodeEncodeError)).

Definition mkdir (path : string) : M unit :=
  fun w => (World (files w) (dirs w ++ [path]) (stdout w) (stderr w), Next tt).

Fixpoint for_eachM {A S : Type} (body : S -> A -> M S) (l : list A) (s : S)
  : M S :=
  match l with
  | [] => ret s
  | x :: rest => s' <~ body s x ;; for_eachM body rest s'
  end.

(** [str.upper] of Python, of which the theorems below assume only what it
    does on ASCII text. *)
Variable str_upper : string -> string.

(** [v.upper()]: a method of str. *)
Definition upper (v : pyval) : result string :=
  match v with
  | PStr s => Ok (str_upper s)
  | _ => Raise AttributeError
  end.

(** [Path.resolve], as text, of a path given relative to the output
    directory (the empty path is the directory itself). *)
Variable resolve : string -> string.

(** [slide.get("type", "CONTENT").upper()]. *)
Definition slide_type (slide : pyval) : result string :=
  t <- get slide "type" (PStr "CONTENT") ;;
  upper t.

Definition manifest_entry (i : Z) (stype fname : string) : pyval :=
  PDict [ ("index", PInt i);
          ("type", PStr stype);
          ("file", PStr fname);
          ("url", PStr ("http://localhost:7890/slides/" ++ fname)) ].

(** One turn of the loop over [enumerate(slides, start=1)]; the state is
    [(slide_files, results)]. *)
Definition loop_body (title palette fonts slides : pyval)
  (css_vars google_fonts_url : string)
  (acc : list string * list pyval) (ix : Z * pyval)
  : M (list string * list pyval) :=
  let i := fst ix in
  let slide := snd ix in
  stype <~ lift (slide_type slide) ;;
  content <~ lift (get slide "content" (PDict [])) ;;
  match builders_get stype BUILDERS with
  | None =>
      print_err ("WARNING: Unknown slide type '" ++ stype ++ "' at index "
                 ++ str_int i ++ ". Skipping.") ;;;
      ret acc
  | Some builder =>
      slide_html <~ lift (builder content i palette fonts) ;;
      total <~ lift (len slides) ;;
      let page_html :=
        make_page slide_html css_vars google_fonts_url title i total in
      let slug := replace_char "_" "-" (lower stype) in
      let fname := pad2 i ++ "-" ++ slug ++ ".html" in
      write_text ("slides/" ++ fname) page_html ;;;
      print_out ("  [" ++ pad2 i ++ "] " ++ ljust10 stype
                 ++ " → slides/" ++ fname) ;;;
      ret ((fst acc ++ [fname])%list,
           (snd acc ++ [manifest_entry i stype fname])%list)
  end.

Definition manifest (title : pyval) (results : list pyval) : pyval :=
  PDict [ ("title", title); ("slides", PList results) ].

(** [main], given the text of the plan's path and what [json.load] read
    from it, if the file is there. *)
Definition main (plan_path : string) (plan_file : option pyval) : M unit :=
  match plan_file with
  | None =>
      print_err ("ERROR: slides-plan.json not found at " ++ plan_path) ;;;
      sys_exit 1
  | Some plan =>
      title <~ lift (get plan "title" (PStr "Presentation")) ;;
      palette <~ lift (get plan "palette" (PDict [])) ;;
      fonts <~ lift (get plan "fonts"
                       (PDict [("display", PStr "Inter"); ("body", PStr "Inter")])) ;;
      slides <~ lift (get plan "slides" (PList [])) ;;
      if negb (truthy slides)
      then print_err "ERROR: No slides in plan." ;;; sys_exit 1
      else
        mkdir "slides" ;;;
        css_vars <~ lift (build_css_vars palette fonts) ;;
        google_fonts_url <~ lift (build_google_fonts_url fonts) ;;
        slides_l <~ lift (iter slides) ;;
        acc <~ for_eachM
                 (loop_body title palette fonts slides css_vars google_fonts_url)
                 (enumerate 1 slides_l) ([], []) ;;
        let slide_files := fst acc in
        let results := snd acc in
        write_text "index.html" (make_index title slide_files) ;;;
        json_dump "slide-urls.json" (manifest title results) ;;;
        print_out (nl ++ "[build-slides] SUCCESS") ;;;
        print_out ("  Slides:  " ++ str_int (Z.of_nat (List.length results))) ;;;
        print_out ("  Output:  " ++ resolve "") ;;;
        print_out ("  Index:   " ++ resolve "index.html") ;;;
        print_out ("  URLs:    " ++ resolve "slide-urls.json") ;;;
        print_out (nl ++ "To serve locally:") ;;;
        print_out ("  python -m http.server 7890 --directory " ++ resolve "") ;;;
        first_file <~ lift (first slide_files) ;;
        print_out (nl ++ "First slide: http://localhost:7890/slides/" ++ first_file)
  end.

Definition run_main (plan_path : string) (plan_file : option pyval)
  : world * step unit :=
  main plan_path plan_file empty_world.

End Build.

Arguments Next {A} a.
Arguments Stop {A} st.

(* ------------------------------------------------------------------ *)
(** ** serve-and-capture.py                                            *)
(* ------------------------------------------------------------------ *)

Module Serve.

(** What the script does to the world, in order. *)
Inductive event : Type :=
| Kill (port : Z)
| Sleep (milliseconds : Z)
| Spawn (port : Z) (directory : string)
| Terminate
| Err (line : string)
| Out (json : pyval).

(** What the script finds around it: whether the output directory is there,
    what the n-th call of [port_in_use] answers when it answers, what
    [json.load] reads from slide-urls.json if the file is there, and the pid
    of the server it spawns. *)
Record env : Type := Env {
  out_dir_exists : bool;
  port_in_use : nat -> bool;
  urls_file : option pyval;
  pid : Z
}.

(** [port_in_use(port)]: [connect_ex] raises OverflowError for a port that
    is not in 0..65535, before it looks at the network; for a port in the
    range the call gives the answer of the network. *)
Definition valid_port (port : Z) : bool :=
  andb (Z.leb 0 port) (Z.leb port 65535).

Definition probe (answer : bool) (port : Z) : result bool :=
  if valid_port port then Ok answer else Raise OverflowError.

(** The loop [for port in range(start, start + n)] of [find_free_port], from
    [port] on; [in_use port] is what the network answers the one time the
    loop asks about [port]. *)
Fixpoint first_free (in_use : Z -> bool) (port : Z) (n : nat)
  : result (option Z) :=
  match n with
  | O => Ok None
  | S n' =>
      busy <- probe (in_use port) port ;;
      if negb busy then Ok (Some port) else first_free in_use (port + 1) n'
  end.

Definition find_free_port (in_use : Z -> bool) (start : Z)
  : result (option Z) :=
  first_free in_use start 20.

Section Script.

Variable py_repr : pyval -> string.

(** The loop [for _ in range(tries)] that waits for the server; [k] counts
    the calls of [port_in_use] made so far, and [ask k] is the k-th call. *)
Fixpoint await (ask : nat -> result bool) (k tries : nat) (tr : list event)
  : result bool * list event :=
  match tries with
  | O => (Ok false, tr)
  | S tries' =>
      let tr' := (tr ++ [Sleep 300])%list in
      match ask k with
      | Raise ex => (Raise ex, tr')
      | Ok true => (Ok true, tr')
      | Ok false => await ask (S k) tries' tr'
      end
  end.

Definition live_url (port : Z) (fname : pyval) : string :=
  "http://localhost:" ++ str_int port ++ "/slides/" ++ py_str py_repr fname.

(** The body of [for slide in url_data["slides"]]. *)
Definition rewrite_slide (port : Z) (slide : pyval) : result pyval :=
  fname <- subscript slide "file" ;;
  match slide with
  | PDict kvs => Ok (PDict (dict_set "url" (PStr (live_url port fname)) kvs))
  | _ => Raise TypeError
  end.

Fixpoint rewrite_slides (port : Z) (l : list pyval) : result (list pyval) :=
  match l with
  | [] => Ok []
  | slide :: rest =>
      slide' <- rewrite_slide port slide ;;
      rest' <- rewrite_slides port rest ;;
      Ok (slide' :: rest')
  end.

(** From the manifest to the printed result.  The loop changes the dicts of
    the list in place; a value that is iterable but no list went through the
    loop without a turn and is as it was. *)
Definition ready (port server_pid : Z) (url_data : pyval) : result pyval :=
  slides <- subscript url_data "slides" ;;
  slides_l <- iter slides ;;
  slides_l' <- rewrite_slides port slides_l ;;
  let slides' := match slides with PList _ => PList slides_l' | _ => slides end in
  title <- subscript url_data "title" ;;
  count <- len slides' ;;
  Ok (PDict
        [ ("status", PStr "ready");
          ("pid", PInt server_pid);
          ("port", PInt port);
          ("base_url", PStr ("http://localhost:" ++ str_int port));
          ("title", title);
          ("slide_count", PInt count);
          ("slides", slides');
          ("kill_command",
           PStr ("python skills/figma-ppt/scripts/serve-and-capture.py --kill-only --port "
                 ++ str_int port));
          ("instructions",
           PStr ("Server is running. Call generate_figma_design for each slide URL in order. "
                 ++ "After all captures are done, run the kill_command to stop the server.")) ]).

Definition main (e : env) (out_dir resolved_out_dir : string) (port : Z)
  (kill_only : bool) : list event * status :=
  if kill_only
  then ([Kill port; Out (PDict [("status", PStr "killed"); ("port", PInt port)])],
        Returned)
  else
    match probe (port_in_use e 0) port with
    | Raise ex => ([], Uncaught ex)
    | Ok busy =>
        let tr0 :=
          if busy
          then [Err ("[serve] Port " ++ str_int port
                     ++ " in use. Killing existing process...");
                Kill port; Sleep 1000]
          else [] in
        if negb (out_dir_exists e)
        then ((tr0 ++ [Err ("ERROR: Output directory not found: " ++ out_dir)])%list,
              Exit 1)
        else
          match await (fun k => probe (port_in_use e k) port) 1 20
                  (tr0 ++ [Spawn port resolved_out_dir])%list with
          | (Raise ex, tr) => (tr, Uncaught ex)
          | (Ok false, tr) =>
              ((tr ++ [Err "ERROR: Server failed to start."; Terminate])%list,
               Exit 1)
          | (Ok true, tr) =>
              match urls_file e with
              | None =>
                  ((tr ++ [Err ("ERROR: slide-urls.json not found in " ++ out_dir);
                           Terminate])%list, Exit 1)
              | Some url_data =>
                  match ready port (pid e) url_data with
                  | Ok result => ((tr ++ [Out result])%list, Returned)
                  | Raise ex => (tr, Uncaught ex)
                  end
              end
          end
    end.

End Script.

End Serve.

(* ------------------------------------------------------------------ *)
(** ** Vocabulary of the statements                                    *)
(* ------------------------------------------------------------------ *)

(** The waiting loop when every call answers, and the run of the server
    helper on a port of the range 0..65535. *)
Fixpoint await_answer (answer : nat -> bool) (k tries : nat)
  (tr : list Serve.event) : bool * list Serve.event :=
  match tries with
  | O => (false, tr)
  | S tries' =>
      let tr' := (tr ++ [Serve.Sleep 300])%list in
      if answer k then (true, tr') else await_answer answer (S k) tries' tr'
  end.

Definition serve_on_valid_port (py_repr : pyval -> string) (e : Serve.env)
  (out_dir resolved_out_dir : string) (port : Z)
  : list Serve.event * status :=
  let tr0 :=
    if Serve.port_in_use e 0
    then [Serve.Err ("[serve] Port " ++ str_int port
                     ++ " in use. Killing existing process...");
          Serve.Kill port; Serve.Sleep 1000]
    else [] in
  if negb (Serve.out_dir_exists e)
  then ((tr0 ++ [Serve.Err ("ERROR: Output directory not found: " ++ out_dir)])%list,
        Exit 1)
  else
    match await_answer (Serve.port_in_use e) 1 20
            (tr0 ++ [Serve.Spawn port resolved_out_dir])%list with
    | (false, tr) =>
        ((tr ++ [Serve.Err "ERROR: Server failed to start."; Serve.Terminate])%list,
         Exit 1)
    | (true, tr) =>
        match Serve.urls_file e with
        | None =>
            ((tr ++ [Serve.Err ("ERROR: slide-urls.json not found in " ++ out_dir);
                     Serve.Terminate])%list, Exit 1)
        | Some url_data =>
            match Serve.ready py_repr port (Serve.pid e) url_data with
            | Ok result => ((tr ++ [Serve.Out result])%list, Returned)
            | Raise ex => (tr, Uncaught ex)
            end
        end
    end.

Lemma await_on_valid_port answer port :
  Serve.valid_port port = true ->
  forall tries k tr,
    Serve.await (fun k => Serve.probe (answer k) port) k tries tr
    = (Ok (fst (await_answer answer k tries tr)),
       snd (await_answer answer k tries tr)).
Proof.
  intros Hv. induction tries as [|tries IH]; intros k tr; [reflexivity|].
  cbn [Serve.await await_answer]. unfold Serve.probe at 1. rewrite Hv.
  destruct (answer k); [reflexivity|]. apply IH.
Qed.

(** A run of the server helper that is not kill-only, by its port. *)
Lemma serve_by_port py_repr e out_dir resolved port :
  Serve.main py_repr e out_dir resolved port false
  = if Serve.valid_port port
    then serve_on_valid_port py_repr e out_dir resolved port
    else ([], Uncaught OverflowError).
Proof.
  unfold Serve.main, serve_on_valid_port. unfold Serve.probe at 1.
  destruct (Serve.valid_port port) eqn:Hv; [|reflexivity].
  destruct (negb (Serve.out_dir_exists e)); [reflexivity|].
  rewrite (await_on_valid_port _ _ Hv).
  destruct (await_answer _ _ _ _) as [[|] tr]; reflexivity.
Qed.

(** [v] occurs in [s], character for character. *)
Definition occurs (v s : string) : Prop :=
  exists a b, s = a ++ v ++ b.

(** One interpreter to run the scripts on: its [repr] is left a stub, its
    sets are met in insertion order, its [upper] is the ASCII one and the
    output directory is /srv/deck. *)
Module Sample.

Definition repr (v : pyval) : string := "?".

Definition set_order (l : list string) : list string := l.

Definition resolve (path : string) : string := "/srv/deck/" ++ path.

Definition run (plan : pyval) : world * step unit :=
  run_main repr set_order ascii_upper resolve "slides-plan.json" (Some plan).

End Sample.

Local Open Scope Z_scope.

(** The file last written at [path], and the entries of the manifest a run
    wrote. *)
Fixpoint written (path : string) (fs : list (string * data)) : option data :=
  match fs with
  | [] => None
  | (p, d) :: rest =>
      match written path rest with
      | Some d' => Some d'
      | None => if String.eqb path p then Some d else None
      end
  end.

Definition manifest_slides (w : world) : list pyval :=
  match written "slide-urls.json" (files w) with
  | Some (Json (PDict kvs)) =>
      match assoc "slides" kvs with
      | Some (PList l) => l
      | _ => []
      end
  | _ => []
  end.

(** Numbering by rank among the rendered slides: the k-th entry of the
    manifest, counted from 1, carries index k. *)
Definition contiguous_numbering (results : list pyval) : Prop :=
  forall k e,
    nth_error results k = Some e ->
    get e "index" PNone = Ok (PInt (Z.of_nat k + 1)).

(** A plan whose first slide has an unknown type. *)
Definition plan_gap : pyval :=
  PDict [ ("title", PStr "Deck");
          ("slides",
           PList [ PDict [("type", PStr "BOGUS")];
                   PDict [("type", PStr "CONTENT");
                          ("content", PDict [("heading", PStr "A")])] ]) ].

Section LoopSpec.

Variable py_repr : pyval -> string.
Variable str_upper : string -> string.

(** The file name of slide [i] of type [stype]. *)
Definition slide_fname (i : Z) (stype : string) : string :=
  pad2 i ++ "-" ++ replace_char "_" "-" (lower stype) ++ ".html".

(** What a turn of the loop comes to for slide [i], short of its effects:
    the type tag, and the fragment unless the slide is skipped. *)
Definition slide_outcome (palette fonts : pyval) (i : Z) (slide : pyval)
  : result (string * option string) :=
  stype <- slide_type str_upper slide ;;
  content <- get slide "content" (PDict []) ;;
  match builders_get stype (BUILDERS py_repr) with
  | None => Ok (stype, None)
  | Some b => html <- b content i palette fonts ;; Ok (stype, Some html)
  end.

Fixpoint outcomes (palette fonts : pyval) (l : list (Z * pyval))
  : result (list (Z * (string * option string))) :=
  match l with
  | [] => Ok []
  | (i, slide) :: rest =>
      o <- slide_outcome palette fonts i slide ;;
      os <- outcomes palette fonts rest ;;
      Ok ((i, o) :: os)
  end.

Definition warning (i : Z) (stype : string) : string :=
  "WARNING: Unknown slide type '" ++ stype ++ "' at index "
  ++ str_int i ++ ". Skipping.".

Definition progress (i : Z) (stype : string) : string :=
  "  [" ++ pad2 i ++ "] " ++ ljust10 stype ++ " → slides/" ++ slide_fname i stype.

(** The rendered slides among the outcomes, and what each adds to the world
    and to the two lists of the loop. *)
Fixpoint rendered (os : list (Z * (string * option string)))
  : list (Z * string * string) :=
  match os with
  | [] => []
  | (i, (stype, Some html)) :: rest => (i, stype, html) :: rendered rest
  | (_, (_, None)) :: rest => rendered rest
  end.

Fixpoint skipped (os : list (Z * (string * option string)))
  : list (Z * string) :=
  match os with
  | [] => []
  | (i, (stype, None)) :: rest => (i, stype) :: skipped rest
  | (_, (_, Some _)) :: rest => skipped rest
  end.

Definition page_of (title : pyval) (css_vars url : string) (total : Z)
  (r : Z * string * string) : string * data :=
  let '(i, stype, html) := r in
  ("slides/" ++ slide_fname i stype,
   Text (make_page py_repr html css_vars url title i total)).

Definition fname_of (r : Z * string * string) : string :=
  let '(i, stype, _) := r in slide_fname i stype.

Definition entry_of (r : Z * string * string) : pyval :=
  let '(i, stype, _) := r in manifest_entry i stype (slide_fname i stype).

Definition progress_of (r : Z * string * string) : string :=
  let '(i, stype, _) := r in progress i stype.

Definition warning_of (s : Z * string) : string :=
  warning (fst s) (snd s).

(** The world after the loop went through slides with outcomes [os]. *)
Definition after_loop (title : pyval) (css_vars url : string) (total : Z)
  (os : list (Z * (string * option string))) (w : world) : world :=
  World (files w ++ map (page_of title css_vars url total) (rendered os))
        (dirs w)
        (stdout w ++ map progress_of (rendered os))
        (stderr w ++ map warning_of (skipped os)).

(** The lines [main] prints once the loop is over, up to the one that
    names the first slide. *)
Definition summary (resolve : string -> string) (n : nat) : list string :=
  [ nl ++ "[build-slides] SUCCESS";
    "  Slides:  " ++ str_int (Z.of_nat n);
    "  Output:  " ++ resolve "";
    "  Index:   " ++ resolve "index.html";
    "  URLs:    " ++ resolve "slide-urls.json";
    nl ++ "To serve locally:";
    "  python -m http.server 7890 --directory " ++ resolve "" ].

Definition first_slide_line (rs : list (Z * string * string)) : list string :=
  match rs with
  | [] => []
  | r :: _ => [nl ++ "First slide: http://localhost:7890/slides/" ++ fname_of r]
  end.

(** The world at the end of a run whose loop went through slides with
    outcomes [os]. *)
Definition final_world (resolve : string -> string) (title : pyval)
  (css_vars url : string) (total : Z)
  (os : list (Z * (string * option string))) : world :=
  let rs := rendered os in
  World (map (page_of title css_vars url total) rs
         ++ [ ("index.html", Text (make_index py_repr title (map fname_of rs)));
              ("slide-urls.json", Json (manifest title (map entry_of rs))) ])
        ["slides"]
        (map progress_of rs ++ summary resolve (List.length rs)
         ++ first_slide_line rs)
        (map warning_of (skipped os)).

Definition final_step (os : list (Z * (string * option string))) : step unit :=
  match rendered os with
  | [] => Stop (Uncaught IndexError)
  | _ :: _ => Next tt
  end.

(** The text of the page of a rendered slide, what is left of the page when
    this text cannot be encoded, and whether the pages of all rendered
    slides can be. *)
Definition page_text (title : pyval) (css_vars url : string) (total : Z)
  (r : Z * string * string) : string :=
  let '(i, stype, html) := r in
  make_page py_repr html css_vars url title i total.

Definition empty_page (r : Z * string * string) : string * data :=
  let '(i, stype, _) := r in ("slides/" ++ slide_fname i stype, Text "").

Definition pages_encodable (title : pyval) (css_vars url : string) (total : Z)
  (os : list (Z * (string * option string))) : bool :=
  forallb (fun r => encodable (page_text title css_vars url total r))
          (rendered os).

(** The index and the manifest of a run whose loop went through slides with
    outcomes [os]. *)
Definition index_text (title : pyval)
  (os : list (Z * (string * option string))) : string :=
  make_index py_repr title (map fname_of (rendered os)).

Definition manifest_of (title : pyval)
  (os : list (Z * (string * option string))) : pyval :=
  manifest title (map entry_of (rendered os)).

(** Every file of such a run can be written. *)
Definition writable (title : pyval) (css_vars url : string) (total : Z)
  (os : list (Z * (string * option string))) : bool :=
  pages_encodable title css_vars url total os
  && encodable (index_text title os)
  && json_encodable (manifest_of title os).

(** How a run ends once its loop went through and wrote its pages: at the
    index when its text cannot be encoded, at the manifest when a str of it
    cannot, and else as [final_world] and [final_step] say. *)
Definition finish (resolve : string -> string) (title : pyval)
  (css_vars url : string) (total : Z)
  (os : list (Z * (string * option string))) : world * step unit :=
  let rs := rendered os in
  let pages := map (page_of title css_vars url total) rs in
  if negb (encodable (index_text title os))
  then (World (pages ++ [("index.html", Text "")])
              ["slides"] (map progress_of rs) (map warning_of (skipped os)),
        Stop (Uncaught UnicodeEncodeError))
  else if negb (json_encodable (manifest_of title os))
  then (World (pages ++ [ ("index.html", Text (index_text title os));
                          ("slide-urls.json", Cut (manifest_of title os)) ])
              ["slides"] (map progress_of rs) (map warning_of (skipped os)),
        Stop (Uncaught UnicodeEncodeError))
  else (final_world resolve title css_vars url total os, final_step os).

End LoopSpec.

(* ------------------------------------------------------------------ *)
(** ** Facts about the loop of [main]                                  *)
(* ------------------------------------------------------------------ *)

Section MainFacts.

Variable py_repr : pyval -> string.
Variable set_order : list string -> list string.
Variable str_upper : string -> string.
Variable resolve : string -> string.

Local Abbreviation body := (loop_body py_repr str_upper).
Local Abbreviation outcome := (slide_outcome py_repr str_upper).

Lemma world_eta (w : world) :
  World (files w) (dirs w) (stdout w) (stderr w) = w.
Proof. destruct w; reflexivity. Qed.

Lemma after_loop_nil title css url total w :
  after_loop py_repr title css url total [] w = w.
Proof.
  unfold after_loop; simpl. rewrite !app_nil_r. apply world_eta.
Qed.

(** One turn of the loop, by the outcome of its slide. *)
Lemma loop_body_outcome title palette fonts slides css url total acc i slide w :
  len slides = Ok total ->
  body title palette fonts slides css url acc (i, slide) w =
  match outcome palette fonts i slide with
  | Raise e => (w, Stop (Uncaught e))
  | Ok (stype, None) =>
      (World (files w) (dirs w) (stdout w) (stderr w ++ [warning i stype]),
       Next acc)
  | Ok (stype, Some html) =>
      if encodable (page_text py_repr title css url total (i, stype, html))
      then
        (World (files w ++ [page_of py_repr title css url total (i, stype, html)])
               (dirs w)
               (stdout w ++ [progress i stype])
               (stderr w),
         Next ((fst acc ++ [slide_fname i stype])%list,
               (snd acc ++ [manifest_entry i stype (slide_fname i stype)])%list))
      else
        (World (files w ++ [empty_page (i, stype, html)])
               (dirs w) (stdout w) (stderr w),
         Stop (Uncaught UnicodeEncodeError))
  end.
Proof.
  intros Hlen.
  unfold loop_body, slide_outcome, bindM, lift; cbn [fst snd bind].
  destruct (slide_type str_upper slide) as [stype|e]; cbn [bind]; [|reflexivity].
  destruct (get slide "content" (PDict [])) as [content|e]; cbn [bind]; [|reflexivity].
  destruct (builders_get stype (BUILDERS py_repr)) as [b|]; cbn [bind].
  - destruct (b content i palette fonts) as [html|e]; cbn [bind]; [|reflexivity].
    rewrite Hlen. unfold write_text, page_text.
    destruct (encodable _); reflexivity.
  - reflexivity.
Qed.

Lemma pages_encodable_cons title css url total i stype o os :
  pages_encodable py_repr title css url total ((i, (stype, o)) :: os)
  = match o with
    | Some html =>
        encodable (page_text py_repr title css url total (i, stype, html))
        && pages_encodable py_repr title css url total os
    | None => pages_encodable py_repr title css url total os
    end.
Proof. destruct o; reflexivity. Qed.

(** The loop goes through when every slide has an outcome and every page
    can be written... *)
Lemma loop_runs title palette fonts slides css url total :
  len slides = Ok total ->
  forall l os acc w,
    outcomes py_repr str_upper palette fonts l = Ok os ->
    pages_encodable py_repr title css url total os = true ->
    for_eachM (body title palette fonts slides css url) l acc w =
    (after_loop py_repr title css url total os w,
     Next ((fst acc ++ map fname_of (rendered os))%list,
           (snd acc ++ map entry_of (rendered os))%list)).
Proof.
  intros Hlen l.
  induction l as [|[i slide] rest IH]; intros os acc w Hos Henc; simpl in Hos.
  - injection Hos as <-. simpl. rewrite after_loop_nil, !app_nil_r.
    destruct acc; reflexivity.
  - destruct (outcome palette fonts i slide) as [[stype o]|e] eqn:Ho;
      simpl in Hos; [|discriminate].
    destruct (outcomes py_repr str_upper palette fonts rest) as [os'|e] eqn:Hrest;
      simpl in Hos; [|discriminate].
    injection Hos as <-.
    rewrite pages_encodable_cons in Henc.
    simpl. unfold bindM at 1.
    rewrite (loop_body_outcome _ _ _ _ _ _ total) by exact Hlen.
    rewrite Ho.
    destruct o as [html|].
    + apply andb_true_iff in Henc. destruct Henc as [Hpage Henc].
      rewrite Hpage, (IH os') by (reflexivity || exact Henc).
      unfold after_loop; simpl; rewrite <- ?app_assoc; reflexivity.
    + rewrite (IH os') by (reflexivity || exact Henc).
      unfold after_loop; simpl; rewrite <- ?app_assoc; reflexivity.
Qed.

(** ... and only then. *)
Lemma loop_next_inv title palette fonts slides css url total :
  len slides = Ok total ->
  forall l acc w w' acc',
    for_eachM (body title palette fonts slides css url) l acc w = (w', Next acc') ->
    exists os,
      outcomes py_repr str_upper palette fonts l = Ok os /\
      pages_encodable py_repr title css url total os = true.
Proof.
  intros Hlen l.
  induction l as [|[i slide] rest IH]; intros acc w w' acc' H; simpl in *.
  - eexists; split; reflexivity.
  - unfold bindM at 1 in H.
    rewrite (loop_body_outcome _ _ _ _ _ _ total) in H by exact Hlen.
    destruct (outcome palette fonts i slide) as [[stype o]|e]; simpl.
    + destruct o as [html|].
      * destruct (encodable (page_text py_repr title css url total (i, stype, html)))
          eqn:Hpage; [|discriminate].
        apply IH in H. destruct H as (os & -> & Henc).
        simpl. eexists. split; [reflexivity|].
        rewrite pages_encodable_cons, Hpage, Henc. reflexivity.
      * apply IH in H. destruct H as (os & -> & Henc).
        simpl. eexists. split; [reflexivity|].
        rewrite pages_encodable_cons. exact Henc.
    + discriminate.
Qed.

Lemma get_dict kvs k d :
  get (PDict kvs) k d = Ok (match assoc k kvs with Some v => v | None => d end).
Proof. reflexivity. Qed.

Lemma get_ok_dict c k d v : get c k d = Ok v -> exists kvs, c = PDict kvs.
Proof. destruct c; try discriminate. eexists; reflexivity. Qed.

Lemma iter_len v l : iter v = Ok l -> len v = Ok (Z.of_nat (List.length l)).
Proof.
  destruct v; simpl; try discriminate; intros H; injection H as <-;
    rewrite ?length_map; reflexivity.
Qed.

(** A run of [main] whose plan has slides, whose theme gives the style
    variables and the font URL, whose slides all have outcomes and whose
    pages can all be written. *)
Lemma main_runs plan_path plan title palette fonts slides css url l os :
  get plan "title" (PStr "Presentation") = Ok title ->
  get plan "palette" (PDict []) = Ok palette ->
  get plan "fonts" (PDict [("display", PStr "Inter"); ("body", PStr "Inter")])
    = Ok fonts ->
  get plan "slides" (PList []) = Ok slides ->
  truthy slides = true ->
  build_css_vars py_repr palette fonts = Ok css ->
  build_google_fonts_url set_order fonts = Ok url ->
  iter slides = Ok l ->
  outcomes py_repr str_upper palette fonts (enumerate 1 l) = Ok os ->
  pages_encodable py_repr title css url (Z.of_nat (List.length l)) os = true ->
  run_main py_repr set_order str_upper resolve plan_path (Some plan) =
  finish py_repr resolve title css url (Z.of_nat (List.length l)) os.
Proof.
  intros Ht Hp Hf Hs Htruthy Hcss Hurl Hiter Hos Henc.
  unfold run_main, main, bindM at 1, lift.
  rewrite Ht. unfold bindM at 1. rewrite Hp.
  unfold bindM at 1. rewrite Hf. unfold bindM at 1. rewrite Hs.
  rewrite Htruthy. cbn [negb].
  unfold bindM at 1, mkdir. unfold bindM at 1. rewrite Hcss.
  unfold bindM at 1. rewrite Hurl. unfold bindM at 1. rewrite Hiter.
  unfold bindM at 1.
  rewrite (loop_runs _ _ _ _ _ _ _ (iter_len _ _ Hiter) _ _ _ _ Hos Henc).
  unfold after_loop, empty_world. cbn [files dirs stdout stderr fst snd app].
  unfold finish, index_text, manifest_of. cbv zeta.
  unfold bindM at 1, write_text at 1; cbn [files dirs stdout stderr].
  destruct (encodable (make_index py_repr title (map fname_of (rendered os))));
    cbn [negb]; [|reflexivity].
  unfold bindM at 1, json_dump at 1; cbn [files dirs stdout stderr].
  destruct (json_encodable (manifest title (map entry_of (rendered os))));
    cbn [negb]; [|rewrite <- app_assoc; reflexivity].
  do 7 (unfold bindM at 1, print_out at 1; cbn [files dirs stdout stderr]).
  unfold final_world, final_step, summary, first_slide_line.
  rewrite length_map.
  destruct (rendered os) as [|[[i stype] html] rs] eqn:Hr;
    unfold bindM, lift, first, print_out;
    cbn [map app fname_of files dirs stdout stderr];
    rewrite <- ?app_assoc; cbn [app]; reflexivity.
Qed.

(** ... and whose index and manifest can be written too. *)
Lemma main_runs_writable plan_path plan title palette fonts slides css url l os :
  get plan "title" (PStr "Presentation") = Ok title ->
  get plan "palette" (PDict []) = Ok palette ->
  get plan "fonts" (PDict [("display", PStr "Inter"); ("body", PStr "Inter")])
    = Ok fonts ->
  get plan "slides" (PList []) = Ok slides ->
  truthy slides = true ->
  build_css_vars py_repr palette fonts = Ok css ->
  build_google_fonts_url set_order fonts = Ok url ->
  iter slides = Ok l ->
  outcomes py_repr str_upper palette fonts (enumerate 1 l) = Ok os ->
  writable py_repr title css url (Z.of_nat (List.length l)) os = true ->
  run_main py_repr set_order str_upper resolve plan_path (Some plan) =
  (final_world py_repr resolve title css url (Z.of_nat (List.length l)) os,
   final_step os).
Proof.
  intros Ht Hp Hf Hs Htruthy Hcss Hurl Hiter Hos Hw.
  unfold writable in Hw. apply andb_true_iff in Hw. destruct Hw as [Hw Hm].
  apply andb_true_iff in Hw. destruct Hw as [Henc Hi].
  rewrite (main_runs plan_path plan _ _ _ _ _ _ _ _
             Ht Hp Hf Hs Htruthy Hcss Hurl Hiter Hos Henc).
  unfold finish. rewrite Hi, Hm. reflexivity.
Qed.

(** Only a list of slides gets through the loop: the characters of a str
    and the keys of a dict have no [get]. *)
Lemma outcomes_str_head palette fonts i s rest :
  outcomes py_repr str_upper palette fonts ((i, PStr s) :: rest)
  = Raise AttributeError.
Proof. reflexivity. Qed.

Lemma code_points_cons a s : exists h t, code_points (String a s) = h :: t.
Proof.
  unfold code_points; simpl.
  destruct (take_bytes (utf8_more a) s) as [h t]. eexists _, _; reflexivity.
Qed.

Lemma outcomes_list palette fonts slides l os :
  truthy slides = true ->
  iter slides = Ok l ->
  outcomes py_repr str_upper palette fonts (enumerate 1 l) = Ok os ->
  slides = PList l.
Proof.
  intros Htr Hiter Hos.
  destruct slides as [| | | |s|l'|kvs]; simpl in Hiter; try discriminate;
    injection Hiter as <-.
  - destruct s as [|a s]; [discriminate|].
    destruct (code_points_cons a s) as (h & t & E). rewrite E in Hos.
    simpl in Hos. discriminate.
  - reflexivity.
  - destruct kvs as [|[k v] kvs]; [discriminate|]. simpl in Hos. discriminate.
Qed.

(** What a run that returns went through, and that it could write all its
    files. *)
Lemma main_returns_spec plan_path plan w :
  run_main py_repr set_order str_upper resolve plan_path (Some plan)
  = (w, Next tt) ->
  exists title palette fonts l css url os,
    (get plan "title" (PStr "Presentation") = Ok title /\
     get plan "palette" (PDict []) = Ok palette /\
     get plan "fonts" (PDict [("display", PStr "Inter"); ("body", PStr "Inter")])
       = Ok fonts /\
     get plan "slides" (PList []) = Ok (PList l) /\
     build_css_vars py_repr palette fonts = Ok css /\
     build_google_fonts_url set_order fonts = Ok url /\
     outcomes py_repr str_upper palette fonts (enumerate 1 l) = Ok os /\
     rendered os <> [] /\
     w = final_world py_repr resolve title css url (Z.of_nat (List.length l)) os)
    /\ writable py_repr title css url (Z.of_nat (List.length l)) os = true.
Proof.
  intros H. pose proof H as H0.
  unfold run_main, main in H.
  unfold bindM at 1 in H; unfold lift at 1 in H.
  destruct (get plan "title" (PStr "Presentation")) as [title|e] eqn:Ht;
    [|discriminate].
  unfold bindM at 1 in H; unfold lift at 1 in H.
  destruct (get plan "palette" (PDict [])) as [palette|e] eqn:Hp; [|discriminate].
  unfold bindM at 1 in H; unfold lift at 1 in H.
  destruct (get plan "fonts" _) as [fonts|e] eqn:Hf; [|discriminate].
  unfold bindM at 1 in H; unfold lift at 1 in H.
  destruct (get plan "slides" (PList [])) as [slides|e] eqn:Hs; [|discriminate].
  destruct (truthy slides) eqn:Htr; cbn [negb] in H; [|discriminate].
  unfold bindM at 1 in H; unfold mkdir at 1 in H.
  unfold bindM at 1 in H; unfold lift at 1 in H.
  destruct (build_css_vars py_repr palette fonts) as [css|e] eqn:Hcss;
    [|discriminate].
  unfold bindM at 1 in H; unfold lift at 1 in H.
  destruct (build_google_fonts_url set_order fonts) as [url|e] eqn:Hurl;
    [|discriminate].
  unfold bindM at 1 in H; unfold lift at 1 in H.
  destruct (iter slides) as [l|e] eqn:Hiter; [|discriminate].
  unfold bindM at 1 in H.
  match type of H with
  | context [for_eachM ?b ?l ?a ?w0] =>
      destruct (for_eachM b l a w0) as [w1 [acc|st]] eqn:Hloop; [|discriminate]
  end.
  apply (loop_next_inv _ _ _ _ _ _ _ (iter_len _ _ Hiter)) in Hloop.
  destruct Hloop as (os & Hos & Henc).
  pose proof (outcomes_list _ _ _ _ _ Htr Hiter Hos) as ->.
  rewrite (main_runs plan_path plan _ _ _ _ _ _ _ _
             Ht Hp Hf Hs Htr Hcss Hurl Hiter Hos Henc) in H0.
  unfold finish in H0.
  destruct (encodable (index_text py_repr title os)) eqn:Hi; cbn [negb] in H0;
    [|discriminate].
  destruct (json_encodable (manifest_of title os)) eqn:Hm;
    cbn [negb] in H0; [|discriminate].
  injection H0 as Hw Hstep.
  exists title, palette, fonts, l, css, url, os.
  split; [|unfold writable; rewrite Henc, Hi, Hm; reflexivity].
  repeat split; try assumption; [|symmetry; exact Hw].
  intros E. unfold final_step in Hstep. rewrite E in Hstep. discriminate.
Qed.

Lemma main_returns_inv plan_path plan w :
  run_main py_repr set_order str_upper resolve plan_path (Some plan)
  = (w, Next tt) ->
  exists title palette fonts l css url os,
    get plan "title" (PStr "Presentation") = Ok title /\
    get plan "palette" (PDict []) = Ok palette /\
    get plan "fonts" (PDict [("display", PStr "Inter"); ("body", PStr "Inter")])
      = Ok fonts /\
    get plan "slides" (PList []) = Ok (PList l) /\
    build_css_vars py_repr palette fonts = Ok css /\
    build_google_fonts_url set_order fonts = Ok url /\
    outcomes py_repr str_upper palette fonts (enumerate 1 l) = Ok os /\
    rendered os <> [] /\
    w = final_world py_repr resolve title css url (Z.of_nat (List.length l)) os.
Proof.
  intros H. apply main_returns_spec in H.
  destruct H as (title & palette & fonts & l & css & url & os & H & _).
  exists title, palette, fonts, l, css, url, os. exact H.
Qed.

Lemma enumerate_nth {A : Type} (l : list A) : forall start k,
  nth_error (enumerate start l) k =
  option_map (fun x => (start + Z.of_nat k, x)) (nth_error l k).
Proof.
  induction l as [|x rest IH]; intros start k.
  - destruct k; reflexivity.
  - destruct k as [|k]; simpl.
    + rewrite Z.add_0_r. reflexivity.
    + rewrite IH. destruct (nth_error rest k); simpl; [|reflexivity].
      do 2 f_equal. lia.
Qed.

Lemma In_enumerate {A : Type} (l : list A) start i x :
  In (i, x) (enumerate start l) <->
  exists k, nth_error l k = Some x /\ i = start + Z.of_nat k.
Proof.
  split.
  - intros H. apply In_nth_error in H. destruct H as [k H].
    rewrite enumerate_nth in H.
    destruct (nth_error l k) as [y|] eqn:E; [|discriminate].
    simpl in H. injection H as <- <-. exists k. split; [exact E|reflexivity].
  - intros (k & E & ->). apply (nth_error_In _ k).
    rewrite enumerate_nth, E. reflexivity.
Qed.

(** The outcomes are those of the slides, one by one. *)
Lemma outcomes_In palette fonts l os :
  outcomes py_repr str_upper palette fonts l = Ok os ->
  forall i o,
    In (i, o) os <->
    exists slide, In (i, slide) l /\ outcome palette fonts i slide = Ok o.
Proof.
  revert os. induction l as [|[j slide] rest IH]; intros os H i o; simpl in H.
  - injection H as <-. simpl. split; [tauto|]. intros (x & [] & _).
  - destruct (outcome palette fonts j slide) as [oj|e] eqn:Ho; [|discriminate].
    cbn [bind] in H.
    destruct (outcomes py_repr str_upper palette fonts rest) as [os'|e] eqn:Hr;
      [|discriminate].
    cbn [bind] in H. injection H as <-.
    specialize (IH os' eq_refl i o). simpl. split.
    + intros [E|Hin].
      * injection E as <- <-. exists slide. split; [left; reflexivity|exact Ho].
      * apply IH in Hin. destruct Hin as (x & Hx & Hox).
        exists x. split; [right; exact Hx|exact Hox].
    + intros (x & [E|Hx] & Hox).
      * injection E as <- <-. left. congruence.
      * right. apply IH. exists x. split; assumption.
Qed.

Lemma In_rendered os i stype html :
  In (i, stype, html) (rendered os) <-> In (i, (stype, Some html)) os.
Proof.
  induction os as [|[j [st [h|]]] rest IH]; simpl.
  - tauto.
  - rewrite IH. split; intros [E|H]; auto; left; congruence.
  - rewrite IH. split; [auto|]. intros [E|H]; [discriminate|exact H].
Qed.

Lemma In_skipped os i stype :
  In (i, stype) (skipped os) <-> In (i, (stype, None)) os.
Proof.
  induction os as [|[j [st [h|]]] rest IH]; simpl.
  - tauto.
  - rewrite IH. split; [auto|]. intros [E|H]; [discriminate|exact H].
  - rewrite IH. split; intros [E|H]; auto; left; congruence.
Qed.

(** An outcome with a fragment, spelled out. *)
Lemma outcome_rendered palette fonts i slide stype html :
  outcome palette fonts i slide = Ok (stype, Some html) <->
  exists b content,
    slide_type str_upper slide = Ok stype /\
    get slide "content" (PDict []) = Ok content /\
    builders_get stype (BUILDERS py_repr) = Some b /\
    b content i palette fonts = Ok html.
Proof.
  unfold slide_outcome. split.
  - destruct (slide_type str_upper slide) as [st|e]; cbn [bind]; [|discriminate].
    destruct (get slide "content" (PDict [])) as [content|e]; cbn [bind];
      [|discriminate].
    destruct (builders_get st (BUILDERS py_repr)) as [b|] eqn:Hb; [|discriminate].
    destruct (b content i palette fonts) as [h|e] eqn:Hh; cbn [bind];
      [|discriminate].
    intros E. injection E as <- <-. exists b, content. repeat split; assumption.
  - intros (b & content & -> & -> & Hb & Hh). cbn [bind]. rewrite Hb, Hh.
    reflexivity.
Qed.

(** An outcome without one: the slide was skipped. *)
Lemma outcome_skipped palette fonts i slide stype :
  outcome palette fonts i slide = Ok (stype, None) <->
  exists content,
    slide_type str_upper slide = Ok stype /\
    get slide "content" (PDict []) = Ok content /\
    builders_get stype (BUILDERS py_repr) = None.
Proof.
  unfold slide_outcome. split.
  - destruct (slide_type str_upper slide) as [st|e]; cbn [bind]; [|discriminate].
    destruct (get slide "content" (PDict [])) as [content|e]; cbn [bind];
      [|discriminate].
    destruct (builders_get st (BUILDERS py_repr)) as [b|] eqn:Hb.
    + destruct (b content i palette fonts); cbn [bind]; discriminate.
    + intros E. injection E as <-. exists content. repeat split; assumption.
  - intros (content & -> & -> & Hb). cbn [bind]. rewrite Hb. reflexivity.
Qed.

Lemma written_last path d fs : written path (fs ++ [(path, d)]) = Some d.
Proof.
  induction fs as [|[p' d'] rest IH]; simpl.
  - rewrite String.eqb_refl. reflexivity.
  - rewrite IH. reflexivity.
Qed.

Lemma manifest_slides_final title css url total os :
  manifest_slides (final_world py_repr resolve title css url total os)
  = map entry_of (rendered os).
Proof.
  unfold manifest_slides, final_world. cbn [files].
  change (?a ++ [?x; ?y])%list with (a ++ ([x] ++ [y]))%list.
  rewrite app_assoc, written_last. reflexivity.
Qed.

(** The rendered slides of a plan, by position: the slide at position [k]
    (from 0) went to its builder with index [k + 1]. *)
Lemma rendered_by_position palette fonts slides os :
  outcomes py_repr str_upper palette fonts (enumerate 1 slides) = Ok os ->
  forall i stype html,
    In (i, stype, html) (rendered os) <->
    exists k slide b content,
      i = Z.of_nat k + 1 /\
      nth_error slides k = Some slide /\
      slide_type str_upper slide = Ok stype /\
      get slide "content" (PDict []) = Ok content /\
      builders_get stype (BUILDERS py_repr) = Some b /\
      b content i palette fonts = Ok html.
Proof.
  intros Hos i stype html.
  rewrite In_rendered, (outcomes_In _ _ _ _ Hos). split.
  - intros (slide & Hin & Ho).
    apply In_enumerate in Hin. destruct Hin as (k & Hk & ->).
    apply outcome_rendered in Ho. destruct Ho as (b & content & H1 & H2 & H3 & H4).
    exists k, slide, b, content. repeat split; try assumption; lia.
  - intros (k & slide & b & content & -> & Hk & H1 & H2 & H3 & H4).
    exists slide. split.
    + apply In_enumerate. exists k. split; [exact Hk|lia].
    + apply outcome_rendered. exists b, content. repeat split; assumption.
Qed.

(** C1 (amended).  In a run that returns, the manifest entries are those of
    the slides whose type is in the registry, and the entry of the slide at
    position [k] of the plan's list (counted from 0) carries the index
    [k + 1]: the slide's 1-based position in the plan, skipped slides
    counted.  The same number is the prefix of the file name, the index the
    builder displays and the slide number of the page. *)
Theorem slide_number_is_plan_position plan_path plan w :
  run_main py_repr set_order str_upper resolve plan_path (Some plan)
  = (w, Next tt) ->
  exists title palette fonts slides css url,
    get plan "title" (PStr "Presentation") = Ok title /\
    get plan "palette" (PDict []) = Ok palette /\
    get plan "fonts" (PDict [("display", PStr "Inter"); ("body", PStr "Inter")])
      = Ok fonts /\
    get plan "slides" (PList []) = Ok (PList slides) /\
    build_css_vars py_repr palette fonts = Ok css /\
    build_google_fonts_url set_order fonts = Ok url /\
    forall e,
      In e (manifest_slides w) <->
      exists k slide stype b content html,
        nth_error slides k = Some slide /\
        slide_type str_upper slide = Ok stype /\
        get slide "content" (PDict []) = Ok content /\
        builders_get stype (BUILDERS py_repr) = Some b /\
        b content (Z.of_nat k + 1) palette fonts = Ok html /\
        e = manifest_entry (Z.of_nat k + 1) stype
              (pad2 (Z.of_nat k + 1) ++ "-"
               ++ replace_char "_" "-" (lower stype) ++ ".html") /\
        In ("slides/" ++ pad2 (Z.of_nat k + 1) ++ "-"
            ++ replace_char "_" "-" (lower stype) ++ ".html",
            Text (make_page py_repr html css url title (Z.of_nat k + 1)
                    (Z.of_nat (List.length slides))))
           (files w).
Proof.
  intros H. apply main_returns_inv in H.
  destruct H as (title & palette & fonts & slides & css & url & os
                 & Ht & Hp & Hf & Hs & Hcss & Hurl & Hos & Hne & ->).
  exists title, palette, fonts, slides, css, url.
  repeat (split; [assumption|]).
  intros e. rewrite manifest_slides_final, in_map_iff. split.
  - intros ([[i stype] html] & <- & Hin).
    pose proof Hin as Hin'.
    apply (rendered_by_position _ _ _ _ Hos) in Hin.
    destruct Hin as (k & slide & b & content & -> & Hk & H1 & H2 & H3 & H4).
    exists k, slide, stype, b, content, html.
    repeat (split; [assumption|]). split; [reflexivity|].
    unfold final_world. cbn [files]. apply in_or_app. left.
    apply in_map_iff. exists (Z.of_nat k + 1, stype, html).
    split; [reflexivity|exact Hin'].
  - intros (k & slide & stype & b & content & html
            & Hk & H1 & H2 & H3 & H4 & -> & _).
    exists (Z.of_nat k + 1, stype, html). split; [reflexivity|].
    apply (rendered_by_position _ _ _ _ Hos).
    exists k, slide, b, content. repeat split; assumption.
Qed.

(** A slide the loop skips: its type tag, upper-cased, is no key of the
    registry. *)
Definition unregistered (slide : pyval) : Prop :=
  exists stype content,
    slide_type str_upper slide = Ok stype /\
    get slide "content" (PDict []) = Ok content /\
    builders_get stype (BUILDERS py_repr) = None.

Lemma outcomes_all_unregistered palette fonts l : forall start,
  Forall unregistered l ->
  exists os,
    outcomes py_repr str_upper palette fonts (enumerate start l) = Ok os /\
    rendered os = [] /\
    List.length (skipped os) = List.length l.
Proof.
  induction l as [|slide rest IH]; intros start Hall.
  - exists []. repeat split.
  - inversion Hall as [|s r (stype & content & H1 & H2 & H3) Hrest]; subst.
    destruct (IH (start + 1) Hrest) as (os & Hos & Hr & Hlen).
    exists ((start, (stype, None)) :: os). simpl.
    assert (Ho : outcome palette fonts start slide = Ok (stype, None))
      by (apply outcome_skipped; exists content; auto).
    rewrite Ho. cbn [bind]. rewrite Hos. cbn [bind].
    repeat split; [exact Hr|]. simpl. rewrite Hlen. reflexivity.
Qed.

Lemma manifest_encodable_nil title :
  json_encodable (manifest title []) = json_encodable title.
Proof.
  unfold manifest. cbn [json_encodable forallb].
  change (encodable "title") with true. change (encodable "slides") with true.
  cbn [andb]. rewrite andb_true_r. reflexivity.
Qed.

(** C4.  A plan whose slide list is empty (or otherwise falsy) makes the
    build print its error on the error stream and exit with status 1 before
    it made a directory or wrote a file.  A plan whose slides are all
    skipped ends the build in an error as well, with status 1: the loop
    renders nothing, and the last statement of [main], which names
    [slide_files[0]], raises IndexError; by then the warnings, the index
    and an empty manifest are out, but no page.  (When the title holds a
    lone surrogate the run ends before that, in the UnicodeEncodeError of
    the write of the index or of the manifest.) *)
Theorem empty_deck_is_fatal :
  (forall plan_path plan slides,
     get plan "slides" (PList []) = Ok slides ->
     truthy slides = false ->
     run_main py_repr set_order str_upper resolve plan_path (Some plan)
     = (World [] [] [] ["ERROR: No slides in plan."], Stop (Exit 1))
     /\ exit_status (Exit 1) <> 0)
  /\
  (forall plan_path plan title palette fonts slides css url,
     get plan "title" (PStr "Presentation") = Ok title ->
     get plan "palette" (PDict []) = Ok palette ->
     get plan "fonts" (PDict [("display", PStr "Inter"); ("body", PStr "Inter")])
       = Ok fonts ->
     get plan "slides" (PList []) = Ok (PList slides) ->
     slides <> [] ->
     build_css_vars py_repr palette fonts = Ok css ->
     build_google_fonts_url set_order fonts = Ok url ->
     Forall unregistered slides ->
     exists w e,
       run_main py_repr set_order str_upper resolve plan_path (Some plan)
       = (w, Stop (Uncaught e))
       /\ exit_status (Uncaught e) <> 0
       /\ e = (if encodable (make_index py_repr title []) && json_encodable title
               then IndexError else UnicodeEncodeError)
       /\ List.length (stderr w) = List.length slides
       /\ map fst (files w)
          = (if encodable (make_index py_repr title [])
             then ["index.html"; "slide-urls.json"] else ["index.html"])
       /\ manifest_slides w = []).
Proof.
  split.
  - intros plan_path plan slides Hs Hfalse.
    destruct (get_ok_dict _ _ _ _ Hs) as [kvs ->].
    split; [|discriminate].
    unfold run_main, main.
    unfold bindM at 1, lift at 1. rewrite get_dict.
    unfold bindM at 1, lift at 1. rewrite get_dict.
    unfold bindM at 1, lift at 1. rewrite get_dict.
    unfold bindM at 1, lift at 1. rewrite Hs.
    rewrite Hfalse. reflexivity.
  - intros plan_path plan title palette fonts slides css url
           Ht Hp Hf Hs Hne Hcss Hurl Hall.
    destruct (outcomes_all_unregistered palette fonts slides 1 Hall)
      as (os & Hos & Hr & Hlen).
    assert (Htr : truthy (PList slides) = true)
      by (destruct slides; [contradiction|reflexivity]).
    assert (Henc : pages_encodable py_repr title css url
                     (Z.of_nat (List.length slides)) os = true)
      by (unfold pages_encodable; rewrite Hr; reflexivity).
    rewrite (main_runs plan_path plan _ _ _ _ _ _ _ _
               Ht Hp Hf Hs Htr Hcss Hurl eq_refl Hos Henc).
    unfold finish, final_world, final_step, index_text, manifest_of,
      manifest_slides.
    rewrite Hr. cbn [map app]. rewrite manifest_encodable_nil.
    destruct (encodable (make_index py_repr title [])); cbn [negb andb].
    + destruct (json_encodable title); cbn [negb].
      * eexists _, _. split; [reflexivity|]. split; [discriminate|].
        split; [reflexivity|]. cbn [stderr files].
        rewrite length_map, Hlen. repeat split.
      * eexists _, _. split; [reflexivity|]. split; [discriminate|].
        split; [reflexivity|]. cbn [stderr files].
        rewrite length_map, Hlen. repeat split.
    + eexists _, _. split; [reflexivity|]. split; [discriminate|].
      split; [reflexivity|]. cbn [stderr files].
      rewrite length_map, Hlen. repeat split.
Qed.

Hypothesis str_upper_ascii :
  forall s, all_ascii s = true -> str_upper s = ascii_upper s.

Lemma slide_type_absent kvs :
  assoc "type" kvs = None -> slide_type str_upper (PDict kvs) = Ok "CONTENT".
Proof.
  intros H. unfold slide_type. rewrite get_dict, H. cbn [bind upper].
  rewrite str_upper_ascii by reflexivity. reflexivity.
Qed.

Lemma slide_type_inv slide stype :
  slide_type str_upper slide = Ok stype ->
  exists kvs,
    slide = PDict kvs /\
    ((assoc "type" kvs = None /\ stype = "CONTENT") \/
     (exists t, assoc "type" kvs = Some (PStr t) /\ stype = str_upper t)).
Proof.
  unfold slide_type. intros H.
  destruct slide as [| | | | | |kvs]; try discriminate.
  exists kvs. split; [reflexivity|].
  rewrite get_dict in H. cbn [bind] in H.
  destruct (assoc "type" kvs) as [v|] eqn:E.
  - destruct v; try discriminate. injection H as <-.
    right. eexists; split; reflexivity.
  - left. split; [reflexivity|].
    cbn [upper] in H. rewrite str_upper_ascii in H by reflexivity.
    injection H as <-. reflexivity.
Qed.

Lemma app_cons_neq {A : Type} (l : list A) x : (l ++ [x])%list <> l.
Proof.
  intros H. apply (f_equal (@List.length A)) in H.
  rewrite length_app in H. simpl in H. lia.
Qed.

(** C10.  A slide record without a type field is taken for a CONTENT slide:
    the loop looks up CONTENT, finds [slide_content], and with its fragment
    writes the page NN-content.html, adds the manifest entry of type CONTENT
    and prints no warning (a page whose text cannot be encoded is left
    empty, and the run stops there).  A turn of the loop that leaves the two lists as
    they were (a skip) had a slide whose type field was present, a str, and
    upper-cased to no key of the registry. *)
Theorem absent_type_is_content title palette fonts slides css url total acc i w :
  len slides = Ok total ->
  (forall kvs html,
     assoc "type" kvs = None ->
     slide_type str_upper (PDict kvs) = Ok "CONTENT" /\
     builders_get "CONTENT" (BUILDERS py_repr) = Some (slide_content py_repr) /\
     (slide_content py_repr
        (match assoc "content" kvs with Some c => c | None => PDict [] end)
        i palette fonts = Ok html ->
      body title palette fonts slides css url acc (i, PDict kvs) w =
      if encodable (make_page py_repr html css url title i total)
      then
        (World (files w
                ++ [("slides/" ++ pad2 i ++ "-content.html",
                     Text (make_page py_repr html css url title i total))])
               (dirs w)
               (stdout w ++ [progress i "CONTENT"])
               (stderr w),
         Next ((fst acc ++ [(pad2 i ++ "-content.html")%string])%list,
               (snd acc
                ++ [manifest_entry i "CONTENT"
                      (pad2 i ++ "-content.html")%string])%list))
      else
        (World (files w ++ [("slides/" ++ pad2 i ++ "-content.html", Text "")])
               (dirs w) (stdout w) (stderr w),
         Stop (Uncaught UnicodeEncodeError))))
  /\
  (forall slide w',
     body title palette fonts slides css url acc (i, slide) w = (w', Next acc) ->
     exists kvs t,
       slide = PDict kvs /\
       assoc "type" kvs = Some (PStr t) /\
       builders_get (str_upper t) (BUILDERS py_repr) = None).
Proof.
  intros Hlen. split.
  - intros kvs html Habs.
    split; [apply slide_type_absent; exact Habs|].
    split; [reflexivity|].
    intros Hhtml.
    rewrite (loop_body_outcome _ _ _ _ _ _ total) by exact Hlen.
    unfold slide_outcome.
    rewrite (slide_type_absent kvs Habs), get_dict. cbn [bind].
    change (builders_get "CONTENT" (BUILDERS py_repr))
      with (Some (slide_content py_repr)).
    cbv beta iota. rewrite Hhtml. cbn [bind]. unfold page_text.
    destruct (encodable _); reflexivity.
  - intros slide w' H.
    rewrite (loop_body_outcome _ _ _ _ _ _ total) in H by exact Hlen.
    destruct (outcome palette fonts i slide) as [[stype [html|]]|e] eqn:Ho.
    + destruct (encodable _) in H; [|discriminate].
      injection H as _ Hacc. apply (f_equal fst) in Hacc. cbn [fst] in Hacc.
      exfalso. exact (app_cons_neq _ _ Hacc).
    + apply outcome_skipped in Ho. destruct Ho as (content & H1 & H2 & H3).
      destruct (slide_type_inv _ _ H1) as (kvs & -> & [[_ ->]|(t & Ht & ->)]).
      * discriminate.
      * exists kvs, t. repeat split; assumption.
    + discriminate.
Qed.

Lemma outcomes_total palette fonts l :
  (forall i slide, In (i, slide) l ->
                   exists o, outcome palette fonts i slide = Ok o) ->
  exists os, outcomes py_repr str_upper palette fonts l = Ok os.
Proof.
  induction l as [|[i slide] rest IH]; intros H.
  - exists []. reflexivity.
  - destruct (H i slide (or_introl eq_refl)) as [o Ho].
    destruct IH as [os Hos]; [intros j s' Hin; apply H; right; exact Hin|].
    exists ((i, o) :: os). simpl. rewrite Ho. cbn [bind]. rewrite Hos.
    reflexivity.
Qed.

Lemma slide_type_content slide stype :
  slide_type str_upper slide = Ok stype ->
  exists content, get slide "content" (PDict []) = Ok content.
Proof.
  intros H. destruct (slide_type_inv _ _ H) as (kvs & -> & _).
  eexists. apply get_dict.
Qed.

(** C5 (amended).  Take a plan with a slide at position [k] whose type tag
    is in no key of the registry, whose other slides all go through a turn
    of the loop without raising, one of them at least rendered, and whose
    pages, index and manifest can all be encoded (no text of them holds a
    lone surrogate).  The build then returns (exit status 0); it has warned
    about slide [k + 1]; no manifest entry carries that index; every file
    written is the index, the manifest or the page of a slide at another
    position; and the index document lists only such pages.  For a plan of
    two slides, the first one rendered and the second of type BOGUS, whose
    files can be encoded, the manifest has the one entry of index 1 and the
    files are the page 01-..., the index and the manifest. *)
Theorem unknown_type_is_skipped :
  (forall plan_path plan title palette fonts slides css url k bad stype,
     get plan "title" (PStr "Presentation") = Ok title ->
     get plan "palette" (PDict []) = Ok palette ->
     get plan "fonts" (PDict [("display", PStr "Inter"); ("body", PStr "Inter")])
       = Ok fonts ->
     get plan "slides" (PList []) = Ok (PList slides) ->
     build_css_vars py_repr palette fonts = Ok css ->
     build_google_fonts_url set_order fonts = Ok url ->
     nth_error slides k = Some bad ->
     slide_type str_upper bad = Ok stype ->
     builders_get stype (BUILDERS py_repr) = None ->
     (forall j slide,
        nth_error slides j = Some slide -> j <> k ->
        exists o, outcome palette fonts (Z.of_nat j + 1) slide = Ok o) ->
     (exists j slide st html,
        nth_error slides j = Some slide /\
        outcome palette fonts (Z.of_nat j + 1) slide = Ok (st, Some html)) ->
     (forall os,
        outcomes py_repr str_upper palette fonts (enumerate 1 slides) = Ok os ->
        writable py_repr title css url (Z.of_nat (List.length slides)) os = true) ->
     exists w,
       run_main py_repr set_order str_upper resolve plan_path (Some plan)
       = (w, Next tt) /\
       exit_status Returned = 0 /\
       In (warning (Z.of_nat k + 1) stype) (stderr w) /\
       (forall e, In e (manifest_slides w) ->
                  get e "index" PNone <> Ok (PInt (Z.of_nat k + 1))) /\
       (forall path d,
          In (path, d) (files w) ->
          path = "index.html" \/ path = "slide-urls.json" \/
          exists j st, j <> k /\
                       path = "slides/" ++ slide_fname (Z.of_nat j + 1) st) /\
       (exists names,
          In ("index.html", Text (make_index py_repr title names)) (files w) /\
          forall n, In n names ->
                    exists j st, j <> k /\ n = slide_fname (Z.of_nat j + 1) st))
  /\
  (forall plan_path title first st html css url,
     outcome (PDict []) (PDict [("display", PStr "Inter"); ("body", PStr "Inter")])
       1 first = Ok (st, Some html) ->
     build_css_vars py_repr (PDict [])
       (PDict [("display", PStr "Inter"); ("body", PStr "Inter")]) = Ok css ->
     build_google_fonts_url set_order
       (PDict [("display", PStr "Inter"); ("body", PStr "Inter")]) = Ok url ->
     writable py_repr title css url 2
       [(1, (st, Some html)); (2, ("BOGUS", None))] = true ->
     exists w,
       run_main py_repr set_order str_upper resolve plan_path
         (Some (PDict [ ("title", title);
                        ("slides", PList [first; PDict [("type", PStr "BOGUS")]]) ]))
       = (w, Next tt) /\
       manifest_slides w
       = [manifest_entry 1 st ("01-" ++ replace_char "_" "-" (lower st) ++ ".html")] /\
       map fst (files w)
       = [ "slides/01-" ++ replace_char "_" "-" (lower st) ++ ".html";
           "index.html"; "slide-urls.json" ] /\
       stderr w = ["WARNING: Unknown slide type 'BOGUS' at index 2. Skipping."]).
Proof.
  split.
  - intros plan_path plan title palette fonts slides css url k bad stype
           Ht Hp Hf Hs Hcss Hurl Hk Hty Hnone Hothers Hsome Hwr.
    destruct (slide_type_content _ _ Hty) as [content Hcontent].
    assert (Hbad : outcome palette fonts (Z.of_nat k + 1) bad = Ok (stype, None))
      by (apply outcome_skipped; exists content; auto).
    destruct (outcomes_total palette fonts (enumerate 1 slides)) as [os Hos].
    { intros i slide Hin. apply In_enumerate in Hin.
      destruct Hin as (j & Hj & ->).
      destruct (Nat.eq_dec j k) as [->|Hne].
      - rewrite Hk in Hj. injection Hj as <-.
        eexists. rewrite <- Hbad. f_equal. lia.
      - destruct (Hothers j slide Hj Hne) as [o Ho].
        exists o. rewrite <- Ho. f_equal. lia. }
    specialize (Hwr os Hos).
    assert (Hat : forall i st html,
               In (i, st, html) (rendered os) ->
               exists j, j <> k /\ i = Z.of_nat j + 1).
    { intros i st html Hin.
      apply (rendered_by_position _ _ _ _ Hos) in Hin.
      destruct Hin as (j & slide & b & c & -> & Hj & H1 & H2 & H3 & H4).
      exists j. split; [|reflexivity]. intros ->.
      rewrite Hk in Hj. injection Hj as <-. congruence. }
    assert (Hne : rendered os <> []).
    { destruct Hsome as (j & slide & st & html & Hj & Ho).
      assert (Hin : In (Z.of_nat j + 1, st, html) (rendered os)).
      { apply In_rendered. apply (outcomes_In _ _ _ _ Hos).
        exists slide. split; [|exact Ho].
        apply In_enumerate. exists j. split; [exact Hj|lia]. }
      intros E. rewrite E in Hin. exact Hin. }
    assert (Htr : truthy (PList slides) = true).
    { destruct slides; [destruct k; discriminate|reflexivity]. }
    eexists. split.
    { rewrite (main_runs_writable plan_path plan _ _ _ _ _ _ _ _
                 Ht Hp Hf Hs Htr Hcss Hurl eq_refl Hos Hwr).
      unfold final_step. destruct (rendered os); [contradiction|reflexivity]. }
    split; [reflexivity|].
    split; [|split; [|split]].
    + unfold final_world; cbn [stderr].
      apply in_map_iff. exists (Z.of_nat k + 1, stype). split; [reflexivity|].
      apply In_skipped. apply (outcomes_In _ _ _ _ Hos).
      exists bad. split; [|exact Hbad].
      apply In_enumerate. exists k. split; [exact Hk|lia].
    + intros e He. rewrite manifest_slides_final in He.
      apply in_map_iff in He. destruct He as ([[i st] html] & <- & Hin).
      destruct (Hat _ _ _ Hin) as (j & Hj & ->).
      cbn. intros E. injection E as E. apply Hj. lia.
    + unfold final_world; cbn [files].
      intros path d Hin. apply in_app_or in Hin. destruct Hin as [Hin|Hin].
      * apply in_map_iff in Hin. destruct Hin as ([[i st] html] & E & Hin).
        destruct (Hat _ _ _ Hin) as (j & Hj & ->).
        injection E as <- _. right. right. exists j, st. split; [exact Hj|reflexivity].
      * destruct Hin as [E|[E|[]]]; injection E as <- _; auto.
    + unfold final_world; cbn [files].
      exists (map fname_of (rendered os)). split.
      * apply in_or_app. right. left. reflexivity.
      * intros n Hn. apply in_map_iff in Hn.
        destruct Hn as ([[i st] html] & <- & Hin).
        destruct (Hat _ _ _ Hin) as (j & Hj & ->).
        exists j, st. split; [exact Hj|reflexivity].
  - intros plan_path title first st html css url Hfirst Hcss Hurl Hwr.
    assert (Hup : str_upper "BOGUS" = "BOGUS")
      by (rewrite str_upper_ascii; reflexivity).
    assert (Hos : outcomes py_repr str_upper (PDict [])
                    (PDict [("display", PStr "Inter"); ("body", PStr "Inter")])
                    (enumerate 1 [first; PDict [("type", PStr "BOGUS")]])
                  = Ok [(1, (st, Some html)); (2, ("BOGUS", None))]).
    { cbn [enumerate outcomes]. rewrite Hfirst. cbn [bind].
      change (1 + 1) with 2.
      unfold slide_outcome at 1, slide_type.
      cbn [get assoc String.eqb Ascii.eqb Bool.eqb bind upper].
      rewrite Hup. reflexivity. }
    eexists. split.
    { exact (main_runs_writable plan_path
               (PDict [ ("title", title);
                        ("slides", PList [first; PDict [("type", PStr "BOGUS")]]) ])
               title (PDict [])
               (PDict [("display", PStr "Inter"); ("body", PStr "Inter")])
               (PList [first; PDict [("type", PStr "BOGUS")]])
               css url _ _ eq_refl eq_refl eq_refl eq_refl eq_refl
               Hcss Hurl eq_refl Hos Hwr). }
    repeat split.
Qed.

End MainFacts.

(** C1 as stated fails: in the run on [plan_gap], whose first slide is
    skipped, the one rendered slide is written as 02-content.html with
    index 2, and not renumbered to 1. *)
Lemma renumbering_counterexample :
  snd (Sample.run plan_gap) = Next tt /\
  manifest_slides (fst (Sample.run plan_gap))
  = [manifest_entry 2 "CONTENT" "02-content.html"] /\
  ~ contiguous_numbering (manifest_slides (fst (Sample.run plan_gap))).
Proof.
  assert (E : manifest_slides (fst (Sample.run plan_gap))
              = [manifest_entry 2 "CONTENT" "02-content.html"])
    by (vm_compute; reflexivity).
  split; [vm_compute; reflexivity|]. split; [exact E|].
  rewrite E. intros C. specialize (C 0%nat _ eq_refl). discriminate.
Qed.

(** C1 (amended) at [plan_gap]. *)
Lemma slide_number_is_plan_position_witness :
  exists w,
    Sample.run plan_gap = (w, Next tt) /\
    exists title palette fonts slides css url,
      get plan_gap "title" (PStr "Presentation") = Ok title /\
      get plan_gap "palette" (PDict []) = Ok palette /\
      get plan_gap "fonts"
        (PDict [("display", PStr "Inter"); ("body", PStr "Inter")]) = Ok fonts /\
      get plan_gap "slides" (PList []) = Ok (PList slides) /\
      build_css_vars Sample.repr palette fonts = Ok css /\
      build_google_fonts_url Sample.set_order fonts = Ok url /\
      forall e,
        In e (manifest_slides w) <->
        exists k slide stype b content html,
          nth_error slides k = Some slide /\
          slide_type ascii_upper slide = Ok stype /\
          get slide "content" (PDict []) = Ok content /\
          builders_get stype (BUILDERS Sample.repr) = Some b /\
          b content (Z.of_nat k + 1) palette fonts = Ok html /\
          e = manifest_entry (Z.of_nat k + 1) stype
                (pad2 (Z.of_nat k + 1) ++ "-"
                 ++ replace_char "_" "-" (lower stype) ++ ".html") /\
          In ("slides/" ++ pad2 (Z.of_nat k + 1) ++ "-"
              ++ replace_char "_" "-" (lower stype) ++ ".html",
              Text (make_page Sample.repr html css url title (Z.of_nat k + 1)
                      (Z.of_nat (List.length slides))))
             (files w).
Proof.
  eexists. split.
  - apply surjective_pairing.
  - apply (slide_number_is_plan_position Sample.repr Sample.set_order
             ascii_upper Sample.resolve "slides-plan.json" plan_gap).
    vm_compute. reflexivity.
Defined.

(** Two plans for the statements above: one whose only slide has an unknown
    type, and the scenario of the specification. *)
Definition plan_all_bogus : pyval :=
  PDict [("slides", PList [PDict [("type", PStr "BOGUS")]])].

Definition hero_launch : pyval :=
  PDict [("type", PStr "HERO"); ("content", PDict [("title", PStr "Launch")])].

Definition plan_hero_bogus : pyval :=
  PDict [ ("title", PStr "Deck");
          ("slides", PList [hero_launch; PDict [("type", PStr "BOGUS")]]) ].

Lemma ascii_upper_ascii :
  forall s, all_ascii s = true -> ascii_upper s = ascii_upper s.
Proof. reflexivity. Qed.

(** C4 at the empty plan and at [plan_all_bogus]. *)
Lemma empty_deck_is_fatal_witness :
  (Sample.run (PDict [("slides", PList [])])
   = (World [] [] [] ["ERROR: No slides in plan."], Stop (Exit 1))
   /\ exit_status (Exit 1) <> 0)
  /\
  (exists w e,
     Sample.run plan_all_bogus = (w, Stop (Uncaught e))
     /\ exit_status (Uncaught e) <> 0
     /\ e = IndexError
     /\ List.length (stderr w) = 1%nat
     /\ map fst (files w) = ["index.html"; "slide-urls.json"]
     /\ manifest_slides w = []).
Proof.
  destruct (empty_deck_is_fatal Sample.repr Sample.set_order ascii_upper
              Sample.resolve) as [Hempty Hnone].
  split.
  - apply (Hempty "slides-plan.json" (PDict [("slides", PList [])]) (PList []));
      reflexivity.
  - eapply (Hnone "slides-plan.json" plan_all_bogus
              (PStr "Presentation") (PDict [])
              (PDict [("display", PStr "Inter"); ("body", PStr "Inter")])
              [PDict [("type", PStr "BOGUS")]]
              _ _ eq_refl eq_refl eq_refl eq_refl).
    + discriminate.
    + reflexivity.
    + reflexivity.
    + constructor; [|constructor].
      exists "BOGUS", (PDict []). repeat split.
Defined.

(** C5 at [plan_hero_bogus], whose second slide is the unknown one. *)
Lemma unknown_type_is_skipped_witness :
  (exists w,
     Sample.run plan_hero_bogus = (w, Next tt) /\
     exit_status Returned = 0 /\
     In (warning 2 "BOGUS") (stderr w) /\
     (forall e, In e (manifest_slides w) -> get e "index" PNone <> Ok (PInt 2)) /\
     (forall path d,
        In (path, d) (files w) ->
        path = "index.html" \/ path = "slide-urls.json" \/
        exists j st, j <> 1%nat /\
                     path = "slides/" ++ slide_fname (Z.of_nat j + 1) st) /\
     (exists names,
        In ("index.html", Text (make_index Sample.repr (PStr "Deck") names))
           (files w) /\
        forall n, In n names ->
                  exists j st, j <> 1%nat /\ n = slide_fname (Z.of_nat j + 1) st))
  /\
  (exists w,
     Sample.run plan_hero_bogus = (w, Next tt) /\
     manifest_slides w = [manifest_entry 1 "HERO" "01-hero.html"] /\
     map fst (files w) = ["slides/01-hero.html"; "index.html"; "slide-urls.json"] /\
     stderr w = ["WARNING: Unknown slide type 'BOGUS' at index 2. Skipping."]).
Proof.
  destruct (unknown_type_is_skipped Sample.repr Sample.set_order ascii_upper
              Sample.resolve ascii_upper_ascii) as [Hgeneral Htwo].
  split.
  - eapply (Hgeneral "slides-plan.json" plan_hero_bogus (PStr "Deck") (PDict [])
              (PDict [("display", PStr "Inter"); ("body", PStr "Inter")])
              [hero_launch; PDict [("type", PStr "BOGUS")]] _ _ 1%nat
              (PDict [("type", PStr "BOGUS")]) "BOGUS"
              eq_refl eq_refl eq_refl eq_refl).
    + reflexivity.
    + reflexivity.
    + reflexivity.
    + reflexivity.
    + reflexivity.
    + intros j slide Hj Hne.
      destruct j as [|[|j]]; [|contradiction|destruct j; discriminate].
      injection Hj as <-. eexists. vm_compute. reflexivity.
    + exists 0%nat, hero_launch, "HERO". eexists. split; [reflexivity|].
      vm_compute. reflexivity.
    + intros os Hos. vm_compute in Hos. injection Hos as <-.
      vm_compute. reflexivity.
  - eapply (Htwo "slides-plan.json" (PStr "Deck") hero_launch "HERO").
    + vm_compute. reflexivity.
    + reflexivity.
    + reflexivity.
    + vm_compute. reflexivity.
Defined.

(** C5 as stated fails: one rendered slide beside the unknown one is not
    enough for the build to succeed.  In the plan below the first slide is
    rendered and the second has an unknown type, but the third, a divider
    whose section number is a text, raises ValueError in its builder: the
    run ends with status 1 after the page of the first slide and the
    warning, without index and without manifest. *)
Definition plan_hero_bogus_divider : pyval :=
  PDict [ ("title", PStr "Deck");
          ("slides",
           PList [ hero_launch;
                   PDict [("type", PStr "BOGUS")];
                   PDict [("type", PStr "DIVIDER");
                          ("content", PDict [("sectionNumber", PStr "1")])] ]) ].

Lemma rendered_slide_does_not_save_build :
  (exists html,
     slide_outcome Sample.repr ascii_upper (PDict [])
       (PDict [("display", PStr "Inter"); ("body", PStr "Inter")]) 1 hero_launch
     = Ok ("HERO", Some html)) /\
  slide_outcome Sample.repr ascii_upper (PDict [])
    (PDict [("display", PStr "Inter"); ("body", PStr "Inter")]) 2
    (PDict [("type", PStr "BOGUS")])
  = Ok ("BOGUS", None) /\
  snd (Sample.run plan_hero_bogus_divider) = Stop (Uncaught ValueError) /\
  exit_status (Uncaught ValueError) = 1 /\
  map fst (files (fst (Sample.run plan_hero_bogus_divider)))
  = ["slides/01-hero.html"] /\
  manifest_slides (fst (Sample.run plan_hero_bogus_divider)) = [] /\
  stderr (fst (Sample.run plan_hero_bogus_divider))
  = ["WARNING: Unknown slide type 'BOGUS' at index 2. Skipping."].
Proof.
  split; [eexists; vm_compute; reflexivity|].
  repeat split; vm_compute; reflexivity.
Qed.

(** C10 at a slide that has a content record and no type. *)
Lemma absent_type_is_content_witness :
  len (PList [PDict [("content", PDict [("heading", PStr "A")])]]) = Ok 1 /\
  assoc "type" [("content", PDict [("heading", PStr "A")])] = None /\
  exists html,
    loop_body Sample.repr ascii_upper (PStr "Deck") (PDict []) (PDict [])
      (PList [PDict [("content", PDict [("heading", PStr "A")])]])
      "" "" ([], [])
      (1, PDict [("content", PDict [("heading", PStr "A")])]) empty_world
    = (World [("slides/01-content.html",
               Text (make_page Sample.repr html "" "" (PStr "Deck") 1 1))]
             [] [progress 1 "CONTENT"] [],
       Next (["01-content.html"],
             [manifest_entry 1 "CONTENT" "01-content.html"])).
Proof.
  split; [reflexivity|]. split; [reflexivity|].
  pose (html := match slide_content Sample.repr (PDict [("heading", PStr "A")])
                        1 (PDict []) (PDict []) with
                | Ok h => h
                | Raise _ => EmptyString
                end).
  exists html. etransitivity.
  - refine (proj2 (proj2 (proj1
      (absent_type_is_content Sample.repr ascii_upper ascii_upper_ascii
         (PStr "Deck") (PDict []) (PDict [])
         (PList [PDict [("content", PDict [("heading", PStr "A")])]])
         "" "" 1 ([], []) 1 empty_world eq_refl)
      [("content", PDict [("heading", PStr "A")])] html eq_refl)) _).
    vm_compute. reflexivity.
  - vm_compute. reflexivity.
Defined.

(* ------------------------------------------------------------------ *)
(** ** Facts about [sorted], sets and the font URL                     *)
(* ------------------------------------------------------------------ *)

Definition str_le (a b : string) : Prop := str_leb a b = true.

Lemma str_leb_total a b : str_leb a b = true \/ str_leb b a = true.
Proof.
  unfold str_leb.
  destruct (String_as_OT.compare_spec a b) as [E|L|G]; auto.
  right. destruct (String_as_OT.compare_spec b a) as [E'|L'|G']; auto.
  exfalso. exact (StrictOrder_Irreflexive _ (StrictOrder_Transitive _ _ _ G G')).
Qed.

Lemma str_le_antisym a b : str_le a b -> str_le b a -> a = b.
Proof.
  unfold str_le, str_leb.
  destruct (String_as_OT.compare_spec a b) as [E|L|G]; [auto| |discriminate].
  destruct (String_as_OT.compare_spec b a) as [E'|L'|G']; [auto| |discriminate].
  intros _ _. exfalso.
  exact (StrictOrder_Irreflexive _ (StrictOrder_Transitive _ _ _ L L')).
Qed.

Lemma str_le_trans a b c : str_le a b -> str_le b c -> str_le a c.
Proof.
  unfold str_le, str_leb.
  destruct (String_as_OT.compare_spec a b) as [E|L|G];
    [hnf in E; subst; auto| |discriminate].
  destruct (String_as_OT.compare_spec b c) as [E'|L'|G'];
    [hnf in E'; subst| |discriminate]; intros _ _.
  - destruct (String_as_OT.compare_spec a c) as [E''|L''|G'']; auto.
    exfalso.
    exact (StrictOrder_Irreflexive _ (StrictOrder_Transitive _ _ _ L G'')).
  - destruct (String_as_OT.compare_spec a c) as [E''|L''|G'']; auto.
    exfalso.
    exact (StrictOrder_Irreflexive _
             (StrictOrder_Transitive _ _ _ (StrictOrder_Transitive _ _ _ L L') G'')).
Qed.

Lemma insert_sorted_perm x l : Permutation (insert_sorted x l) (x :: l).
Proof.
  induction l as [|y rest IH]; simpl.
  - apply Permutation_refl.
  - destruct (str_leb x y).
    + apply Permutation_refl.
    + apply perm_trans with (y :: x :: rest).
      * apply perm_skip. exact IH.
      * apply perm_swap.
Qed.

Lemma sorted_perm l : Permutation (sorted l) l.
Proof.
  induction l as [|x rest IH]; simpl.
  - apply perm_nil.
  - apply perm_trans with (x :: sorted rest).
    + apply insert_sorted_perm.
    + apply perm_skip. exact IH.
Qed.

Lemma insert_sorted_sorted x l :
  StronglySorted str_le l -> StronglySorted str_le (insert_sorted x l).
Proof.
  induction l as [|y rest IH]; intros Hs; simpl.
  - constructor; constructor.
  - inversion Hs as [|? ? Hrest Hall]; subst.
    destruct (str_leb x y) eqn:E.
    + constructor; [exact Hs|]. constructor; [exact E|].
      apply Forall_impl with (P := str_le y); [|exact Hall].
      intros z Hz. exact (str_le_trans _ _ _ E Hz).
    + constructor; [apply IH; exact Hrest|].
      apply (Permutation_Forall (Permutation_sym (insert_sorted_perm x rest))).
      constructor; [|exact Hall].
      destruct (str_leb_total x y) as [H|H]; [congruence|exact H].
Qed.

Lemma sorted_sorted l : StronglySorted str_le (sorted l).
Proof.
  induction l as [|x rest IH]; simpl.
  - constructor.
  - apply insert_sorted_sorted. exact IH.
Qed.

(** Two sorted lists with the same elements are the same list. *)
Lemma sorted_unique l1 : forall l2,
  Permutation l1 l2 ->
  StronglySorted str_le l1 -> StronglySorted str_le l2 -> l1 = l2.
Proof.
  induction l1 as [|x r1 IH]; intros l2 Hp H1 H2.
  - apply Permutation_nil in Hp. subst. reflexivity.
  - destruct l2 as [|y r2].
    + apply Permutation_sym, Permutation_nil in Hp. discriminate.
    + inversion H1 as [|? ? Hr1 Ha1]; subst.
      inversion H2 as [|? ? Hr2 Ha2]; subst.
      assert (Exy : x = y).
      { apply str_le_antisym.
        - assert (Hin : In y (x :: r1))
            by (apply (Permutation_in _ (Permutation_sym Hp)); left; reflexivity).
          destruct Hin as [->|Hin].
          + destruct (str_leb_total y y); assumption.
          + rewrite Forall_forall in Ha1. apply Ha1. exact Hin.
        - assert (Hin : In x (y :: r2))
            by (apply (Permutation_in _ Hp); left; reflexivity).
          destruct Hin as [->|Hin].
          + destruct (str_leb_total x x); assumption.
          + rewrite Forall_forall in Ha2. apply Ha2. exact Hin. }
      subst y. f_equal. apply IH; try assumption.
      exact (Permutation_cons_inv Hp).
Qed.

Lemma sorted_of_perm l1 l2 : Permutation l1 l2 -> sorted l1 = sorted l2.
Proof.
  intros Hp. apply sorted_unique; try apply sorted_sorted.
  apply perm_trans with l1; [apply sorted_perm|].
  apply perm_trans with l2; [exact Hp|apply Permutation_sym, sorted_perm].
Qed.

Lemma mem_In x l : mem x l = true <-> In x l.
Proof.
  induction l as [|y rest IH]; simpl.
  - split; [discriminate|tauto].
  - destruct (String.eqb_spec x y) as [->|Hne].
    + split; auto.
    + rewrite IH. split; [auto|]. intros [E|H]; [congruence|exact H].
Qed.

Lemma set_add_In x y l : In x (set_add y l) <-> x = y \/ In x l.
Proof.
  unfold set_add. destruct (mem y l) eqn:E.
  - apply mem_In in E. split; [auto|]. intros [->|H]; assumption.
  - rewrite in_app_iff. simpl. split.
    + intros [H|[H|[]]]; auto.
    + intros [->|H]; auto.
Qed.

Lemma set_add_NoDup y l : NoDup l -> NoDup (set_add y l).
Proof.
  intros Hn. unfold set_add. destruct (mem y l) eqn:E; [exact Hn|].
  apply NoDup_app; [exact Hn|constructor; [tauto|constructor]|].
  intros x Hx [<-|[]]. apply mem_In in Hx. congruence.
Qed.

(** A font name as the URL spells it. *)
Definition url_name (s : string) : string := replace_char " " "+" s.

Lemma families_of_strings ss : forall acc,
  for_each add_family (map PStr ss) acc
  = Ok (fold_left (fun a s => set_add (family_term (url_name s)) a) ss acc).
Proof.
  induction ss as [|s rest IH]; intros acc; simpl.
  - reflexivity.
  - apply IH.
Qed.

Lemma families_fold_In ss : forall acc t,
  In t (fold_left (fun a s => set_add (family_term (url_name s)) a) ss acc)
  <-> In t acc \/ exists s, In s ss /\ t = family_term (url_name s).
Proof.
  induction ss as [|s rest IH]; intros acc t; simpl.
  - split; [auto|]. intros [H|(s & [] & _)]. exact H.
  - rewrite IH, set_add_In. split.
    + intros [[->|H]|(s' & Hs' & ->)]; eauto.
    + intros [H|(s' & [<-|Hs'] & ->)]; eauto.
Qed.

Lemma families_fold_NoDup ss : forall acc,
  NoDup acc ->
  NoDup (fold_left (fun a s => set_add (family_term (url_name s)) a) ss acc).
Proof.
  induction ss as [|s rest IH]; intros acc Hn; simpl.
  - exact Hn.
  - apply IH, set_add_NoDup, Hn.
Qed.

Lemma values_strings (kvs : list (string * pyval)) :
  (forall k v, In (k, v) kvs -> exists s, v = PStr s) ->
  exists ss,
    map snd kvs = map PStr ss /\
    forall s, In s ss <-> exists k : string, In (k, PStr s) kvs.
Proof.
  induction kvs as [|[k v] rest IH]; intros H.
  - exists []. split; [reflexivity|]. intros s. split; [intros []|intros [k []]].
  - destruct (H k v (or_introl eq_refl)) as [s ->].
    destruct IH as (ss & Hmap & Hin); [intros k' v' Hkv; apply (H k' v'); right; exact Hkv|].
    exists (s :: ss). split; [simpl; rewrite Hmap; reflexivity|].
    intros s'. simpl. rewrite Hin. split.
    + intros [<-|[k' Hk']]; [exists k; left; reflexivity|exists k'; right; exact Hk'].
    + intros [k' [E|Hk']]; [left; congruence|right; exists k'; exact Hk'].
Qed.

Lemma length_append (a b : string) :
  String.length (a ++ b) = (String.length a + String.length b)%nat.
Proof.
  induction a as [|c a IH]; simpl; [reflexivity|]. rewrite IH. reflexivity.
Qed.

(** The term of a custom family is never the fallback term: it ends in 900,
    the fallback term in 800. *)
Lemma family_term_not_fallback name : family_term name <> fallback_family.
Proof.
  unfold family_term, fallback_family. intros H.
  cbn [append] in H. injection H as H.
  destruct name as [|c [|c' rest]].
  - discriminate.
  - discriminate.
  - apply (f_equal String.length) in H. cbn [append String.length] in H.
    rewrite length_append in H. cbn [String.length] in H. lia.
Qed.

Lemma append_assoc (a b c : string) : (a ++ b) ++ c = a ++ b ++ c.
Proof.
  induction a as [|x a IH]; simpl; [reflexivity|]. rewrite IH. reflexivity.
Qed.

Lemma font_url_order_free o1 o2 fonts :
  (forall l, Permutation (o1 l) l) ->
  (forall l, Permutation (o2 l) l) ->
  build_google_fonts_url o1 fonts = build_google_fonts_url o2 fonts.
Proof.
  intros H1 H2. unfold build_google_fonts_url.
  destruct (font_families fonts) as [fams|e]; cbn [bind]; [|reflexivity].
  rewrite (sorted_of_perm (o1 fams) (o2 fams)); [reflexivity|].
  apply perm_trans with fams; [apply H1|apply Permutation_sym, H2].
Qed.

(** The query terms of a URL: the text after its first question mark, cut
    at every ampersand. *)
Fixpoint has_char (c : ascii) (s : string) : bool :=
  match s with
  | EmptyString => false
  | String b rest => orb (Ascii.eqb b c) (has_char c rest)
  end.

Fixpoint after_first (c : ascii) (s : string) : string :=
  match s with
  | EmptyString => EmptyString
  | String b rest => if Ascii.eqb b c then rest else after_first c rest
  end.

Fixpoint split_on (sep : ascii) (s : string) : list string :=
  match s with
  | EmptyString => [EmptyString]
  | String b rest =>
      if Ascii.eqb b sep then EmptyString :: split_on sep rest
      else match split_on sep rest with
           | t :: ts => String b t :: ts
           | [] => [String b EmptyString]
           end
  end.

Definition query_terms (url : string) : list string :=
  split_on "&" (after_first "?" url).

(** A query term that asks for the family [name]. *)
Definition names_family (name term : string) : bool :=
  String.prefix ("family=" ++ name ++ ":") term.

Lemma has_char_app c a b :
  has_char c (a ++ b) = orb (has_char c a) (has_char c b).
Proof.
  induction a as [|x a IH]; simpl; [reflexivity|].
  rewrite IH, orb_assoc. reflexivity.
Qed.

Lemma has_amp_url_name s : has_char "&" (url_name s) = has_char "&" s.
Proof.
  unfold url_name. induction s as [|x s IH]; simpl; [reflexivity|].
  rewrite IH. destruct (Ascii.eqb_spec x " ") as [->|_]; reflexivity.
Qed.

Lemma has_amp_family_term s :
  has_char "&" (family_term (url_name s)) = has_char "&" s.
Proof.
  unfold family_term. rewrite !has_char_app, has_amp_url_name.
  change (has_char "&" "family=") with false.
  change (has_char "&" ":wght@300;400;500;600;700;800;900") with false.
  rewrite orb_false_r. reflexivity.
Qed.

Lemma split_on_app sep a b :
  has_char sep a = false ->
  split_on sep (a ++ String sep b) = a :: split_on sep b.
Proof.
  induction a as [|x a IH]; simpl; intros H.
  - rewrite Ascii.eqb_refl. reflexivity.
  - apply orb_false_iff in H. destruct H as [Hx Ha].
    rewrite Hx, (IH Ha). reflexivity.
Qed.

Lemma split_on_none sep a : has_char sep a = false -> split_on sep a = [a].
Proof.
  induction a as [|x a IH]; simpl; intros H; [reflexivity|].
  apply orb_false_iff in H. destruct H as [Hx Ha].
  rewrite Hx, (IH Ha). reflexivity.
Qed.

(** Cutting at the separator undoes joining with it, for terms that do not
    hold the separator. *)
Lemma split_on_joined sep last :
  has_char sep last = false ->
  forall terms,
    terms <> [] ->
    (forall t, In t terms -> has_char sep t = false) ->
    split_on sep (String.concat (String sep "") terms ++ String sep last)
    = (terms ++ [last])%list.
Proof.
  intros Hlast. induction terms as [|t rest IH]; intros Hne Hall.
  - destruct (Hne eq_refl).
  - destruct rest as [|t' rest].
    + cbn [String.concat app]. rewrite split_on_app by (apply Hall; left; reflexivity).
      rewrite split_on_none by exact Hlast. reflexivity.
    + change (String.concat (String sep "") (t :: t' :: rest))
        with (t ++ String sep (String.concat (String sep "") (t' :: rest))).
      rewrite append_assoc.
      change (String sep (String.concat (String sep "") (t' :: rest))
              ++ String sep last)
        with (String sep (String.concat (String sep "") (t' :: rest)
                          ++ String sep last)).
      rewrite split_on_app by (apply Hall; left; reflexivity).
      rewrite IH; [reflexivity|discriminate|].
      intros x Hx. apply Hall. right. exact Hx.
Qed.

Section FontFacts.

Variable set_order : list string -> list string.
Hypothesis set_order_perm : forall l, Permutation (set_order l) l.

(** C7 (amended).  For a fonts mapping whose values are strings without an
    ampersand (none, or several, or the same one twice), the URL is the
    fixed prefix, the family terms joined by ampersands, and the fixed
    suffix.  Its query terms -- the text after the question mark, cut at the
    ampersands -- are the family terms in ascending order and then
    display=swap, no term twice.  Among them the fallback term
    family=Inter:wght@300;400;500;600;700;800 occurs exactly once, the term
    family=NAME:wght@300;400;500;600;700;800;900 of every font name of the
    mapping, with the spaces of NAME turned into plus signs, occurs exactly
    once, and there is no other family term.  The URL is the same whatever
    the order in which the set of terms is gone through. *)
Theorem font_url_terms kvs :
  (forall k v, In (k, v) kvs -> exists s, v = PStr s /\ has_char "&" s = false) ->
  exists url terms,
    build_google_fonts_url set_order (PDict kvs) = Ok url /\
    url = "https://fonts.googleapis.com/css2?" ++ String.concat "&" terms
          ++ "&display=swap" /\
    query_terms url = (terms ++ ["display=swap"])%list /\
    StronglySorted str_le terms /\
    NoDup (query_terms url) /\
    count_occ string_dec (query_terms url)
      "family=Inter:wght@300;400;500;600;700;800" = 1%nat /\
    (forall k s,
       In (k, PStr s) kvs ->
       count_occ string_dec (query_terms url)
         ("family=" ++ replace_char " " "+" s
          ++ ":wght@300;400;500;600;700;800;900") = 1%nat) /\
    (forall t,
       In t terms ->
       t = "family=Inter:wght@300;400;500;600;700;800" \/
       exists k s, In (k, PStr s) kvs /\
                   t = "family=" ++ replace_char " " "+" s
                       ++ ":wght@300;400;500;600;700;800;900") /\
    (forall order,
       (forall l, Permutation (order l) l) ->
       build_google_fonts_url order (PDict kvs) = Ok url).
Proof.
  intros Hamp.
  assert (Hstr : forall k v, In (k, v) kvs -> exists s, v = PStr s).
  { intros k v Hkv. destruct (Hamp k v Hkv) as (s & -> & _). exists s. reflexivity. }
  destruct (values_strings kvs Hstr) as (ss & Hmap & Hss).
  set (fams := set_add fallback_family
                 (fold_left (fun a s => set_add (family_term (url_name s)) a) ss [])).
  assert (Hfam : font_families (PDict kvs) = Ok fams).
  { unfold font_families. cbn [values bind]. rewrite Hmap, families_of_strings.
    reflexivity. }
  assert (Hnd : NoDup fams)
    by (apply set_add_NoDup, families_fold_NoDup; constructor).
  assert (Hin : forall t, In t fams <->
                          t = fallback_family \/
                          exists s, In s ss /\ t = family_term (url_name s)).
  { intros t. unfold fams. rewrite set_add_In, families_fold_In.
    simpl. tauto. }
  assert (Hperm : Permutation (sorted (set_order fams)) fams)
    by (apply perm_trans with (set_order fams);
        [apply sorted_perm|apply set_order_perm]).
  set (terms := sorted (set_order fams)) in *.
  assert (Hnd' : NoDup terms)
    by (apply (Permutation_NoDup (Permutation_sym Hperm)); exact Hnd).
  assert (Hterm : forall t, In t terms <->
                            t = fallback_family \/
                            exists s, In s ss /\ t = family_term (url_name s)).
  { intros t. rewrite <- Hin. split; apply Permutation_in;
      [exact Hperm|apply Permutation_sym; exact Hperm]. }
  assert (Hnoamp : forall t, In t terms -> has_char "&" t = false).
  { intros t Ht. apply Hterm in Ht. destruct Ht as [->|(s & Hs & ->)].
    - reflexivity.
    - rewrite has_amp_family_term. apply Hss in Hs. destruct Hs as [k Hk].
      destruct (Hamp k _ Hk) as (s' & E & Hs'). injection E as <-. exact Hs'. }
  assert (Hswap : ~ In "display=swap" terms).
  { intros Ht. apply Hterm in Ht. destruct Ht as [E|(s & _ & E)]; discriminate. }
  assert (Hne : terms <> []).
  { intros E. assert (Hf : In fallback_family terms)
      by (apply Hterm; left; reflexivity).
    rewrite E in Hf. destruct Hf. }
  assert (Hq : query_terms ("https://fonts.googleapis.com/css2?"
                            ++ String.concat "&" terms ++ "&display=swap")
               = (terms ++ ["display=swap"])%list).
  { unfold query_terms.
    change (after_first "?" ("https://fonts.googleapis.com/css2?"
                             ++ String.concat "&" terms ++ "&display=swap"))
      with (String.concat "&" terms ++ String "&" "display=swap").
    apply split_on_joined; [reflexivity|exact Hne|exact Hnoamp]. }
  assert (Hcount : forall t, In t terms ->
            count_occ string_dec (terms ++ ["display=swap"])%list t = 1%nat).
  { intros t Ht. rewrite count_occ_app.
    rewrite (proj1 (NoDup_count_occ' string_dec terms) Hnd' t Ht).
    cbn [count_occ]. destruct (string_dec "display=swap" t) as [E|_]; [|reflexivity].
    subst t. destruct (Hswap Ht). }
  exists ("https://fonts.googleapis.com/css2?" ++ String.concat "&" terms
          ++ "&display=swap"), terms.
  split; [unfold build_google_fonts_url; rewrite Hfam; reflexivity|].
  split; [reflexivity|].
  rewrite Hq.
  split; [reflexivity|].
  split; [apply sorted_sorted|].
  split.
  { apply NoDup_app; [exact Hnd'|constructor; [intros []|constructor]|].
    intros x Hx [<-|[]]. exact (Hswap Hx). }
  split; [apply Hcount, Hterm; left; reflexivity|].
  split.
  { intros k s Hks. apply Hcount, Hterm. right.
    exists s. split; [apply Hss; exists k; exact Hks|reflexivity]. }
  split.
  { intros t Ht. apply Hterm in Ht.
    destruct Ht as [->|(s & Hs & ->)]; [left; reflexivity|right].
    apply Hss in Hs. destruct Hs as [k Hk]. exists k, s. split; [exact Hk|reflexivity]. }
  intros order Horder.
  rewrite (font_url_order_free order set_order _ Horder set_order_perm).
  unfold build_google_fonts_url. rewrite Hfam. reflexivity.
Qed.

End FontFacts.

(** C7 at a mapping that names the same family twice. *)
Lemma font_url_terms_witness :
  exists url terms,
    build_google_fonts_url Sample.set_order
      (PDict [("display", PStr "Open Sans"); ("body", PStr "Open Sans")])
    = Ok url /\
    url = "https://fonts.googleapis.com/css2?" ++ String.concat "&" terms
          ++ "&display=swap" /\
    query_terms url = (terms ++ ["display=swap"])%list /\
    StronglySorted str_le terms /\
    NoDup (query_terms url) /\
    count_occ string_dec (query_terms url)
      "family=Inter:wght@300;400;500;600;700;800" = 1%nat /\
    (forall k s,
       In (k, PStr s) [("display", PStr "Open Sans"); ("body", PStr "Open Sans")] ->
       count_occ string_dec (query_terms url)
         ("family=" ++ replace_char " " "+" s
          ++ ":wght@300;400;500;600;700;800;900") = 1%nat) /\
    (forall t,
       In t terms ->
       t = "family=Inter:wght@300;400;500;600;700;800" \/
       exists k s,
         In (k, PStr s) [("display", PStr "Open Sans"); ("body", PStr "Open Sans")] /\
         t = "family=" ++ replace_char " " "+" s
             ++ ":wght@300;400;500;600;700;800;900") /\
    (forall order,
       (forall l, Permutation (order l) l) ->
       build_google_fonts_url order
         (PDict [("display", PStr "Open Sans"); ("body", PStr "Open Sans")])
       = Ok url).
Proof.
  apply (font_url_terms Sample.set_order).
  - intros l. apply Permutation_refl.
  - intros k v [E|[E|[]]]; injection E as _ <-; eexists; split; reflexivity.
Defined.

(** The URL of that mapping, and of the empty one. *)
Example font_url_open_sans :
  build_google_fonts_url Sample.set_order
    (PDict [("display", PStr "Open Sans"); ("body", PStr "Open Sans")])
  = Ok "https://fonts.googleapis.com/css2?family=Inter:wght@300;400;500;600;700;800&family=Open+Sans:wght@300;400;500;600;700;800;900&display=swap"
  /\
  build_google_fonts_url Sample.set_order (PDict [])
  = Ok "https://fonts.googleapis.com/css2?family=Inter:wght@300;400;500;600;700;800&display=swap".
Proof. split; vm_compute; reflexivity. Qed.

(** C7 as it was worded does not hold.  With the fonts a plan has when it
    names none, display Inter and body Inter, the URL has two query terms
    of the family Inter: the fallback term and the term of the font name,
    which ends in 900.  And a font name that holds an ampersand brings query
    terms of its own: here the fallback term is in the URL twice. *)
Lemma inter_family_term_twice :
  build_google_fonts_url Sample.set_order
    (PDict [("display", PStr "Inter"); ("body", PStr "Inter")])
  = Ok "https://fonts.googleapis.com/css2?family=Inter:wght@300;400;500;600;700;800&family=Inter:wght@300;400;500;600;700;800;900&display=swap"
  /\
  filter (names_family "Inter")
    (query_terms "https://fonts.googleapis.com/css2?family=Inter:wght@300;400;500;600;700;800&family=Inter:wght@300;400;500;600;700;800;900&display=swap")
  = ["family=Inter:wght@300;400;500;600;700;800";
     "family=Inter:wght@300;400;500;600;700;800;900"]
  /\
  build_google_fonts_url Sample.set_order
    (PDict [("display", PStr "A&family=Inter:wght@300;400;500;600;700;800&b")])
  = Ok "https://fonts.googleapis.com/css2?family=A&family=Inter:wght@300;400;500;600;700;800&b:wght@300;400;500;600;700;800;900&family=Inter:wght@300;400;500;600;700;800&display=swap"
  /\
  query_terms "https://fonts.googleapis.com/css2?family=A&family=Inter:wght@300;400;500;600;700;800&b:wght@300;400;500;600;700;800;900&family=Inter:wght@300;400;500;600;700;800&display=swap"
  = ["family=A";
     "family=Inter:wght@300;400;500;600;700;800";
     "b:wght@300;400;500;600;700;800;900";
     "family=Inter:wght@300;400;500;600;700;800";
     "display=swap"]
  /\
  count_occ string_dec
    (query_terms "https://fonts.googleapis.com/css2?family=A&family=Inter:wght@300;400;500;600;700;800&b:wght@300;400;500;600;700;800;900&family=Inter:wght@300;400;500;600;700;800&display=swap")
    "family=Inter:wght@300;400;500;600;700;800"
  = 2%nat.
Proof. repeat split; vm_compute; reflexivity. Qed.

(* ------------------------------------------------------------------ *)
(** ** Determinism                                                     *)
(* ------------------------------------------------------------------ *)

Lemma bindM_ext {A B : Type} (m m' : M A) (k k' : A -> M B) w :
  m w = m' w ->
  (forall a w', k a w' = k' a w') ->
  bindM m k w = bindM m' k' w.
Proof.
  intros Hm Hk. unfold bindM. rewrite Hm.
  destruct (m' w) as [w' [a|st]]; [apply Hk|reflexivity].
Qed.

Lemma main_order_free py_repr str_upper resolve o1 o2 plan_path plan_file w :
  (forall fonts, build_google_fonts_url o1 fonts = build_google_fonts_url o2 fonts) ->
  main py_repr o1 str_upper resolve plan_path plan_file w
  = main py_repr o2 str_upper resolve plan_path plan_file w.
Proof.
  intros H. unfold main. destruct plan_file as [plan|]; [|reflexivity].
  apply bindM_ext; [reflexivity|intros title w1].
  apply bindM_ext; [reflexivity|intros palette w2].
  apply bindM_ext; [reflexivity|intros fonts w3].
  apply bindM_ext; [reflexivity|intros slides w4].
  destruct (negb (truthy slides)); [reflexivity|].
  apply bindM_ext; [reflexivity|intros u w5].
  apply bindM_ext; [reflexivity|intros css w6].
  apply bindM_ext; [rewrite (H fonts); reflexivity|intros url w7].
  reflexivity.
Qed.

(** C6.  Two runs on one interpreter differ in one thing only: the order in
    which a set yields its elements ([o1] in one run, [o2] in the other).
    Whatever the two orders, a builder of the registry returns the same
    fragment on the same content and index (it reads neither the order nor,
    for that matter, the palette and fonts it is passed); the font URL is
    the same; the page assembled around it is the same; and the two runs of
    [main] leave the same files, the same output and the same status. *)
Theorem build_is_deterministic py_repr str_upper resolve o1 o2 :
  (forall l, Permutation (o1 l) l) ->
  (forall l, Permutation (o2 l) l) ->
  (forall stype b,
     builders_get stype (BUILDERS py_repr) = Some b ->
     forall c idx palette1 fonts1 palette2 fonts2,
       b c idx palette1 fonts1 = b c idx palette2 fonts2) /\
  (forall fonts,
     build_google_fonts_url o1 fonts = build_google_fonts_url o2 fonts) /\
  (forall fonts url1 url2 slide_html css_vars title slide_num total,
     build_google_fonts_url o1 fonts = Ok url1 ->
     build_google_fonts_url o2 fonts = Ok url2 ->
     make_page py_repr slide_html css_vars url1 title slide_num total
     = make_page py_repr slide_html css_vars url2 title slide_num total) /\
  (forall plan_path plan_file,
     run_main py_repr o1 str_upper resolve plan_path plan_file
     = run_main py_repr o2 str_upper resolve plan_path plan_file).
Proof.
  intros H1 H2.
  assert (Hurl : forall fonts,
             build_google_fonts_url o1 fonts = build_google_fonts_url o2 fonts)
    by (intros fonts; apply font_url_order_free; assumption).
  split; [|split; [exact Hurl|split]].
  - intros stype b Hb c idx palette1 fonts1 palette2 fonts2.
    unfold BUILDERS in Hb. cbn [builders_get] in Hb.
    repeat match type of Hb with
           | (if ?t then _ else _) = _ =>
               destruct t; [injection Hb as <-; reflexivity|]
           end.
    discriminate.
  - intros fonts url1 url2 slide_html css_vars title slide_num total E1 E2.
    rewrite Hurl, E2 in E1. injection E1 as <-. reflexivity.
  - intros plan_path plan_file. unfold run_main.
    apply main_order_free. exact Hurl.
Qed.

(** C6 for an interpreter that yields a set in insertion order and one
    that yields it in reverse. *)
Lemma build_is_deterministic_witness :
  (forall stype b,
     builders_get stype (BUILDERS Sample.repr) = Some b ->
     forall c idx palette1 fonts1 palette2 fonts2,
       b c idx palette1 fonts1 = b c idx palette2 fonts2) /\
  (forall fonts,
     build_google_fonts_url Sample.set_order fonts
     = build_google_fonts_url (@rev string) fonts) /\
  (forall fonts url1 url2 slide_html css_vars title slide_num total,
     build_google_fonts_url Sample.set_order fonts = Ok url1 ->
     build_google_fonts_url (@rev string) fonts = Ok url2 ->
     make_page Sample.repr slide_html css_vars url1 title slide_num total
     = make_page Sample.repr slide_html css_vars url2 title slide_num total) /\
  (forall plan_path plan_file,
     run_main Sample.repr Sample.set_order ascii_upper Sample.resolve
       plan_path plan_file
     = run_main Sample.repr (@rev string) ascii_upper Sample.resolve
         plan_path plan_file).
Proof.
  apply (build_is_deterministic Sample.repr ascii_upper Sample.resolve
           Sample.set_order (@rev string)).
  - intros l. apply Permutation_refl.
  - intros l. apply Permutation_sym, Permutation_rev.
Defined.

(* ------------------------------------------------------------------ *)
(** ** Facts about serve-and-capture.py                                *)
(* ------------------------------------------------------------------ *)

Lemma assoc_dict_set_same k v kvs : assoc k (dict_set k v kvs) = Some v.
Proof.
  induction kvs as [|[k' v'] rest IH]; simpl.
  - rewrite String.eqb_refl. reflexivity.
  - destruct (String.eqb k k') eqn:E; simpl; rewrite E; [reflexivity|exact IH].
Qed.

Lemma assoc_dict_set_other k k' v kvs :
  k' <> k -> assoc k' (dict_set k v kvs) = assoc k' kvs.
Proof.
  intros Hne. induction kvs as [|[k0 v0] rest IH]; simpl.
  - destruct (String.eqb_spec k' k); [contradiction|reflexivity].
  - destruct (String.eqb_spec k k0) as [->|Hk]; simpl.
    + destruct (String.eqb_spec k' k0); [contradiction|reflexivity].
    + destruct (String.eqb k' k0); [reflexivity|exact IH].
Qed.

(** A dict that has the key keeps its keys, in their order. *)
Lemma dict_set_keys k v kvs :
  assoc k kvs <> None -> map fst (dict_set k v kvs) = map fst kvs.
Proof.
  induction kvs as [|[k0 v0] rest IH]; simpl; intros H.
  - contradiction.
  - destruct (String.eqb k k0); simpl; [reflexivity|].
    rewrite IH by exact H. reflexivity.
Qed.

Section ServeFacts.

Variable py_repr : pyval -> string.

Lemma rewrite_slides_spec port l : forall l',
  Serve.rewrite_slides py_repr port l = Ok l' ->
  List.length l' = List.length l /\
  forall i s,
    nth_error l i = Some s ->
    exists kvs file,
      s = PDict kvs /\
      assoc "file" kvs = Some file /\
      nth_error l' i
      = Some (PDict (dict_set "url" (PStr (Serve.live_url py_repr port file)) kvs)).
Proof.
  induction l as [|s rest IH]; intros l' H; simpl in H.
  - injection H as <-. split; [reflexivity|]. intros [|i] s'; discriminate.
  - destruct (Serve.rewrite_slide py_repr port s) as [s1|e] eqn:Hs; [|discriminate].
    cbn [bind] in H.
    destruct (Serve.rewrite_slides py_repr port rest) as [rest'|e] eqn:Hr;
      [|discriminate].
    cbn [bind] in H. injection H as <-.
    destruct (IH rest' eq_refl) as [Hlen Hnth].
    split; [simpl; rewrite Hlen; reflexivity|].
    intros [|i] s0 Hi; simpl in Hi.
    + injection Hi as <-. unfold Serve.rewrite_slide in Hs.
      destruct s as [| | | | | |kvs]; try discriminate.
      unfold subscript in Hs.
      destruct (assoc "file" kvs) as [file|] eqn:Hf; [|discriminate].
      cbn [bind] in Hs. injection Hs as <-.
      exists kvs, file. split; [reflexivity|]. split; [exact Hf|reflexivity].
    + apply Hnth. exact Hi.
Qed.

(** The manifest entry of a rendered slide once the script has put the live
    port into its URL. *)
Definition live_entry (port : Z) (r : Z * string * string) : pyval :=
  let '(i, stype, _) := r in
  PDict [ ("index", PInt i);
          ("type", PStr stype);
          ("file", PStr (slide_fname i stype));
          ("url", PStr ("http://localhost:" ++ str_int port ++ "/slides/"
                        ++ slide_fname i stype)) ].

Lemma rewrite_entries port rs :
  Serve.rewrite_slides py_repr port (map entry_of rs)
  = Ok (map (live_entry port) rs).
Proof.
  induction rs as [|[[i stype] html] rest IH]; simpl.
  - reflexivity.
  - rewrite IH. reflexivity.
Qed.

(** C8.  A run of the script that is not kill-only and returns has printed,
    last, a result of status ready made from the manifest it loaded.  The
    slides of the result are those of the manifest, as many and in the same
    order; each is the dict it was with the value of url set to
    http://localhost:PORT/slides/FILE for the live port and the dict's own
    file, and with every other key (index, type, file among them) holding
    what it held; the title is the manifest's.  On the manifest a build
    wrote, the slides of the result are the build's entries with the live
    URL in place of the placeholder. *)
Theorem ready_rewrites_url_only :
  (forall e out_dir resolved port tr,
     Serve.main py_repr e out_dir resolved port false = (tr, Returned) ->
     exists url_data result tr0 slides slides' l l',
       Serve.urls_file e = Some url_data /\
       tr = (tr0 ++ [Serve.Out result])%list /\
       subscript result "status" = Ok (PStr "ready") /\
       subscript result "port" = Ok (PInt port) /\
       subscript url_data "slides" = Ok slides /\
       subscript result "slides" = Ok slides' /\
       subscript result "title" = subscript url_data "title" /\
       iter slides = Ok l /\
       iter slides' = Ok l' /\
       List.length l' = List.length l /\
       forall i s,
         nth_error l i = Some s ->
         exists kvs kvs' file,
           s = PDict kvs /\
           nth_error l' i = Some (PDict kvs') /\
           assoc "file" kvs = Some file /\
           assoc "url" kvs'
           = Some (PStr ("http://localhost:" ++ str_int port ++ "/slides/"
                         ++ py_str py_repr file)) /\
           (forall k, k <> "url" -> assoc k kvs' = assoc k kvs) /\
           (assoc "url" kvs <> None -> map fst kvs' = map fst kvs))
  /\
  (forall title rs port server_pid,
   exists result,
     Serve.ready py_repr port server_pid (manifest title (map entry_of rs))
     = Ok result /\
     subscript result "title" = Ok title /\
     subscript result "slides" = Ok (PList (map (live_entry port) rs))).
Proof.
  split.
  - intros e out_dir resolved port tr H.
    rewrite serve_by_port in H.
    destruct (Serve.valid_port port); [|discriminate].
    unfold serve_on_valid_port in H.
    destruct (negb (Serve.out_dir_exists e)); [discriminate|].
    destruct (await_answer _ _ _ _) as [[|] tr1]; [|discriminate].
    destruct (Serve.urls_file e) as [url_data|]; [|discriminate].
    destruct (Serve.ready py_repr port (Serve.pid e) url_data) as [result|ex] eqn:Hr;
      [|discriminate].
    injection H as <-.
    unfold Serve.ready in Hr.
    destruct (subscript url_data "slides") as [slides|ex] eqn:Hs; [|discriminate].
    cbn [bind] in Hr.
    destruct (iter slides) as [l|ex] eqn:Hl; [|discriminate].
    cbn [bind] in Hr.
    destruct (Serve.rewrite_slides py_repr port l) as [l'|ex] eqn:Hl'; [|discriminate].
    cbn [bind] in Hr.
    destruct (subscript url_data "title") as [title|ex] eqn:Ht; [|discriminate].
    cbn [bind] in Hr.
    destruct (len _) as [count|ex] eqn:Hc; [|discriminate].
    cbn [bind] in Hr. injection Hr as <-.
    destruct (rewrite_slides_spec port l l' Hl') as [Hlen Hnth].
    assert (Hiter' : iter (match slides with PList _ => PList l' | _ => slides end)
                     = Ok l').
    { destruct slides; try exact Hl; try discriminate.
      - (* a str went through the loop without a turn *)
        rewrite Hl. f_equal. destruct l; [|discriminate Hl' || idtac].
        + simpl in Hl'. injection Hl' as <-. reflexivity.
        + simpl in Hl. injection Hl as Hl.
          destruct (code_points s) as [|c cs]; [discriminate|].
          simpl in Hl. injection Hl as <- _. simpl in Hl'. discriminate.
      - reflexivity.
      - rewrite Hl. f_equal. destruct l.
        + simpl in Hl'. injection Hl' as <-. reflexivity.
        + simpl in Hl. injection Hl as Hl.
          destruct kvs as [|[k v] kvs]; [discriminate|].
          simpl in Hl. injection Hl as <- _. simpl in Hl'. discriminate. }
    eexists url_data, _, _, slides, _, l, l'.
    split; [reflexivity|]. split; [reflexivity|].
    split; [reflexivity|]. split; [reflexivity|].
    split; [exact Hs|]. split; [reflexivity|].
    split; [rewrite Ht; reflexivity|]. split; [exact Hl|].
    split; [exact Hiter'|]. split; [exact Hlen|].
    intros i s Hi. destruct (Hnth i s Hi) as (kvs & file & -> & Hf & Hi').
    eexists kvs, _, file. split; [reflexivity|]. split; [exact Hi'|].
    split; [exact Hf|]. split; [apply assoc_dict_set_same|].
    split; [intros k Hk; apply assoc_dict_set_other; exact Hk|].
    apply dict_set_keys.
  - intros title rs port server_pid. eexists. split.
    + unfold Serve.ready, manifest.
      cbn [subscript assoc String.eqb Ascii.eqb Bool.eqb bind iter].
      rewrite rewrite_entries. cbn [bind len].
      reflexivity.
    + split; reflexivity.
Qed.

End ServeFacts.

(** A server that answers at the second poll, over the manifest of a
    one-slide deck. *)
Definition sample_env : Serve.env :=
  Serve.Env true (fun n => Nat.leb 2 n)
    (Some (manifest (PStr "Deck") [manifest_entry 1 "HERO" "01-hero.html"]))
    4242.

(** C8 at [sample_env] and port 8000. *)
Lemma ready_rewrites_url_only_witness :
  (exists tr,
     Serve.main Sample.repr sample_env "slide-output" "/srv/deck" 8000 false
     = (tr, Returned) /\
     exists url_data result tr0 slides slides' l l',
       Serve.urls_file sample_env = Some url_data /\
       tr = (tr0 ++ [Serve.Out result])%list /\
       subscript result "status" = Ok (PStr "ready") /\
       subscript result "port" = Ok (PInt 8000) /\
       subscript url_data "slides" = Ok slides /\
       subscript result "slides" = Ok slides' /\
       subscript result "title" = subscript url_data "title" /\
       iter slides = Ok l /\
       iter slides' = Ok l' /\
       List.length l' = List.length l /\
       forall i s,
         nth_error l i = Some s ->
         exists kvs kvs' file,
           s = PDict kvs /\
           nth_error l' i = Some (PDict kvs') /\
           assoc "file" kvs = Some file /\
           assoc "url" kvs'
           = Some (PStr ("http://localhost:" ++ str_int 8000 ++ "/slides/"
                         ++ py_str Sample.repr file)) /\
           (forall k, k <> "url" -> assoc k kvs' = assoc k kvs) /\
           (assoc "url" kvs <> None -> map fst kvs' = map fst kvs))
  /\
  (exists result,
     Serve.ready Sample.repr 8000 4242
       (manifest (PStr "Deck") (map entry_of [(1, "HERO", "")]))
     = Ok result /\
     subscript result "title" = Ok (PStr "Deck") /\
     subscript result "slides"
     = Ok (PList (map (live_entry 8000) [(1, "HERO", "")]))).
Proof.
  destruct (ready_rewrites_url_only Sample.repr) as [Hready Hbuilt].
  split.
  - eexists. split; [vm_compute; reflexivity|].
    apply (Hready sample_env "slide-output" "/srv/deck" 8000).
    vm_compute. reflexivity.
  - apply Hbuilt.
Defined.

(* ------------------------------------------------------------------ *)
(** ** When a builder returns                                          *)
(* ------------------------------------------------------------------ *)

(** The shape of content a builder gets through without raising. *)
Definition is_dict (v : pyval) : bool :=
  match v with PDict _ => true | _ => false end.

Definition is_int (v : pyval) : bool :=
  match v with PInt _ | PBool _ => true | _ => false end.

Definition iterable (v : pyval) : bool := is_ok (iter v).

Definition dicts (v : pyval) : bool :=
  match iter v with
  | Ok l => forallb is_dict l
  | Raise _ => false
  end.

(** [c] is a record whose field [k], or else the default [d], satisfies
    [P]. *)
Definition field (P : pyval -> bool) (k : string) (d : pyval) (c : pyval) : bool :=
  match get c k d with
  | Ok v => P v
  | Raise _ => false
  end.

Definition column_ok (col : pyval) : bool :=
  field iterable "bullets" (PList []) col.

Definition SHAPES : list (string * (pyval -> bool)) :=
  [ ("HERO", is_dict);
    ("AGENDA", field iterable "items" (PList []));
    ("CONTENT", field iterable "bullets" (PList []));
    ("TWO_COL", fun c => field column_ok "leftCol" (PDict []) c
                         && field column_ok "rightCol" (PDict []) c);
    ("STATS", field dicts "stats" (PList []));
    ("QUOTE", is_dict);
    ("DIVIDER", field is_int "sectionNumber" (PInt 0));
    ("CLOSING", field iterable "keyTakeaways" (PList [])) ].

Fixpoint shape_of (stype : string) (table : list (string * (pyval -> bool)))
  : pyval -> bool :=
  match table with
  | [] => fun _ => false
  | (k, P) :: rest => if String.eqb stype k then P else shape_of stype rest
  end.

Definition well_shaped (stype : string) (c : pyval) : bool :=
  shape_of stype SHAPES c.

Section BuilderTotality.

Variable py_repr : pyval -> string.

Lemma hero_returns c idx palette fonts :
  is_ok (slide_hero py_repr c idx palette fonts) = is_dict c.
Proof. destruct c; reflexivity. Qed.

Lemma quote_returns c idx palette fonts :
  is_ok (slide_quote py_repr c idx palette fonts) = is_dict c.
Proof. destruct c; reflexivity. Qed.

Lemma agenda_returns c idx palette fonts :
  is_ok (slide_agenda py_repr c idx palette fonts)
  = field iterable "items" (PList []) c.
Proof.
  destruct c as [| | | | | |kvs]; try reflexivity.
  unfold slide_agenda, field, iterable. rewrite !get_dict. cbn [bind].
  destruct (iter _); reflexivity.
Qed.

Lemma content_returns c idx palette fonts :
  is_ok (slide_content py_repr c idx palette fonts)
  = field iterable "bullets" (PList []) c.
Proof.
  destruct c as [| | | | | |kvs]; try reflexivity.
  unfold slide_content, field, iterable, get1. rewrite !get_dict. cbn [bind].
  destruct (iter _); [|reflexivity]. cbn [bind].
  destruct (truthy _); reflexivity.
Qed.

Lemma closing_returns c idx palette fonts :
  is_ok (slide_closing py_repr c idx palette fonts)
  = field iterable "keyTakeaways" (PList []) c.
Proof.
  destruct c as [| | | | | |kvs]; try reflexivity.
  unfold slide_closing, field, iterable. rewrite !get_dict. cbn [bind].
  destruct (iter _); reflexivity.
Qed.

Lemma divider_returns c idx palette fonts :
  is_ok (slide_divider py_repr c idx palette fonts)
  = field is_int "sectionNumber" (PInt 0) c.
Proof.
  destruct c as [| | | | | |kvs]; try reflexivity.
  unfold slide_divider, field. rewrite !get_dict. cbn [bind].
  destruct (assoc "sectionNumber" kvs) as [[]|]; reflexivity.
Qed.

Lemma col_html_returns col :
  is_ok (col_html py_repr col) = column_ok col.
Proof.
  destruct col as [| | | | | |kvs]; try reflexivity.
  unfold col_html, column_ok, field, iterable. rewrite !get_dict. cbn [bind].
  destruct (iter _); reflexivity.
Qed.

Lemma two_col_returns c idx palette fonts :
  is_ok (slide_two_col py_repr c idx palette fonts)
  = (field column_ok "leftCol" (PDict []) c
     && field column_ok "rightCol" (PDict []) c)%bool.
Proof.
  destruct c as [| | | | | |kvs]; try reflexivity.
  unfold slide_two_col, field. rewrite !get_dict. cbn [bind].
  rewrite <- !col_html_returns.
  destruct (col_html py_repr _) as [l|e]; [|reflexivity]. cbn [bind is_ok andb].
  destruct (col_html py_repr _) as [r|e]; reflexivity.
Qed.

Lemma stat_card_returns cards s :
  is_ok (stat_card py_repr cards s) = is_dict s.
Proof.
  destruct s as [| | | | | |kvs]; try reflexivity.
  unfold stat_card, get1, subscript. rewrite !get_dict. cbn [bind is_dict].
  destruct (assoc "trend" kvs) as [t|]; cbn [truthy];
    [destruct (truthy t)|]; cbn [bind];
    (destruct (assoc "description" kvs) as [d|]; cbn [truthy];
     [destruct (truthy d)|]; reflexivity).
Qed.

Lemma stat_cards_return l : forall cards,
  is_ok (for_each (stat_card py_repr) l cards) = forallb is_dict l.
Proof.
  induction l as [|s rest IH]; intros cards; simpl.
  - reflexivity.
  - rewrite <- (stat_card_returns cards s).
    destruct (stat_card py_repr cards s) as [cards'|e]; cbn [bind is_ok andb].
    + apply IH.
    + reflexivity.
Qed.

Lemma stats_returns c idx palette fonts :
  is_ok (slide_stats py_repr c idx palette fonts)
  = field dicts "stats" (PList []) c.
Proof.
  destruct c as [| | | | | |kvs]; try reflexivity.
  unfold slide_stats, field, dicts. rewrite !get_dict. cbn [bind].
  destruct (iter _) as [l|e]; [|reflexivity]. cbn [bind].
  rewrite <- (stat_cards_return l "").
  destruct (for_each _ _ _); reflexivity.
Qed.

(** C3 (amended).  A builder of the registry returns a fragment exactly on
    well-shaped content: a record; whose list field (items, bullets,
    keyTakeaways, the bullets of a column), when present, can be iterated;
    whose stats are records; whose leftCol and rightCol, when present, are
    records; whose sectionNumber, when present, is an integer.  Text fields
    may be absent or hold a value of any type.  On any other content the
    builder raises. *)
Theorem builder_returns_iff_well_shaped stype b c idx palette fonts :
  builders_get stype (BUILDERS py_repr) = Some b ->
  ((exists html, b c idx palette fonts = Ok html) <-> well_shaped stype c = true)
  /\ ((exists e, b c idx palette fonts = Raise e) <-> well_shaped stype c = false).
Proof.
  intros Hb.
  assert (H : is_ok (b c idx palette fonts) = well_shaped stype c).
  { unfold BUILDERS in Hb. unfold well_shaped, SHAPES.
    cbn [builders_get shape_of] in *.
    repeat match type of Hb with
           | (if ?t then _ else _) = _ =>
               destruct t; [injection Hb as <-|]
           end; [..|discriminate].
    - apply hero_returns.
    - apply agenda_returns.
    - apply content_returns.
    - apply two_col_returns.
    - apply stats_returns.
    - apply quote_returns.
    - apply divider_returns.
    - apply closing_returns. }
  rewrite <- H.
  destruct (b c idx palette fonts) as [html|e]; cbn [is_ok]; split; split.
  - reflexivity.
  - intros _. eexists; reflexivity.
  - intros [e E]; discriminate.
  - discriminate.
  - intros [html E]; discriminate.
  - discriminate.
  - reflexivity.
  - intros _. eexists; reflexivity.
Qed.

End BuilderTotality.

(** C3 as stated fails: registered builders raise on a stats list with an
    element that is no record, on a sectionNumber given as text, on agenda
    items that are a number, and on content that is no record. *)
Lemma malformed_content_raises :
  builders_get "STATS" (BUILDERS Sample.repr) = Some (slide_stats Sample.repr) /\
  slide_stats Sample.repr (PDict [("stats", PList [PStr "12%"])]) 1
    (PDict []) (PDict []) = Raise AttributeError /\
  builders_get "DIVIDER" (BUILDERS Sample.repr) = Some (slide_divider Sample.repr) /\
  slide_divider Sample.repr (PDict [("sectionNumber", PStr "1")]) 1
    (PDict []) (PDict []) = Raise ValueError /\
  slide_agenda Sample.repr (PDict [("items", PInt 5)]) 1 (PDict []) (PDict [])
  = Raise TypeError /\
  slide_hero Sample.repr (PList []) 1 (PDict []) (PDict []) = Raise AttributeError.
Proof. repeat split. Qed.

(** C3 (amended) at a stats slide with one record. *)
Lemma builder_returns_iff_well_shaped_witness :
  ((exists html,
      slide_stats Sample.repr
        (PDict [("stats", PList [PDict [("number", PStr "12%")]])]) 1
        (PDict []) (PDict []) = Ok html)
   <-> well_shaped "STATS"
         (PDict [("stats", PList [PDict [("number", PStr "12%")]])]) = true)
  /\ ((exists e,
         slide_stats Sample.repr
           (PDict [("stats", PList [PDict [("number", PStr "12%")]])]) 1
           (PDict []) (PDict []) = Raise e)
      <-> well_shaped "STATS"
            (PDict [("stats", PList [PDict [("number", PStr "12%")]])]) = false).
Proof.
  apply (builder_returns_iff_well_shaped Sample.repr "STATS").
  reflexivity.
Defined.

(* ------------------------------------------------------------------ *)
(** ** What a fragment contains                                        *)
(* ------------------------------------------------------------------ *)

(** Where a builder finds text in its content: a field, the elements it
    meets when it iterates over a value, or further down in either. *)
Inductive path : Type :=
| Here
| Field (k : string) (p : path)
| Items (p : path).

Fixpoint values_at (p : path) (v : pyval) : list pyval :=
  match p with
  | Here => [v]
  | Field k p' =>
      match v with
      | PDict kvs =>
          match assoc k kvs with
          | Some v' => values_at p' v'
          | None => []
          end
      | _ => []
      end
  | Items p' =>
      match iter v with
      | Ok l => flat_map (values_at p') l
      | Raise _ => []
      end
  end.

Definition text (k : string) : path := Field k Here.
Definition texts (k : string) : path := Field k (Items Here).

(** The fields each builder reads: every field of the templates is here. *)
Definition TEXT_PATHS : list (string * list path) :=
  [ ("HERO", [text "title"; text "subtitle"; text "tagline"; text "author";
              text "date"]);
    ("AGENDA", [text "heading"; text "sectionLabel"; texts "items"]);
    ("CONTENT", [text "heading"; text "sectionLabel"; text "body";
                 texts "bullets"; text "imageHint"]);
    ("TWO_COL", [text "heading"; text "sectionLabel";
                 Field "leftCol" (text "heading"); Field "leftCol" (text "body");
                 Field "leftCol" (texts "bullets");
                 Field "rightCol" (text "heading"); Field "rightCol" (text "body");
                 Field "rightCol" (texts "bullets")]);
    ("STATS", [text "heading"; text "sectionLabel";
               Field "stats" (Items (text "number"));
               Field "stats" (Items (text "label"));
               Field "stats" (Items (text "trend"));
               Field "stats" (Items (text "description"))]);
    ("QUOTE", [text "quote"; text "attribution"; text "role"]);
    ("DIVIDER", [text "sectionNumber"; text "sectionTitle"; text "description"]);
    ("CLOSING", [text "tagline"; text "heading"; text "subheading";
                 texts "keyTakeaways"; text "cta"; text "contactInfo"]) ].

Fixpoint paths_of (stype : string) (table : list (string * list path))
  : list path :=
  match table with
  | [] => []
  | (k, ps) :: rest => if String.eqb stype k then ps else paths_of stype rest
  end.

Lemma append_empty_r (a : string) : a ++ "" = a.
Proof.
  induction a as [|x a IH]; simpl; [reflexivity|]. rewrite IH. reflexivity.
Qed.

Lemma occurs_refl s : occurs s s.
Proof. exists "", "". simpl. rewrite append_empty_r. reflexivity. Qed.

Lemma occurs_empty s : occurs "" s.
Proof. exists "", s. reflexivity. Qed.

Lemma occurs_app_l s x y : occurs s x -> occurs s (x ++ y).
Proof.
  intros (a & b & ->). exists a, (b ++ y). rewrite !append_assoc. reflexivity.
Qed.

Lemma occurs_app_r s x y : occurs s y -> occurs s (x ++ y).
Proof.
  intros (a & b & ->). exists (x ++ a), b. rewrite !append_assoc. reflexivity.
Qed.

Lemma occurs_concat s x l :
  In x l -> occurs s x -> occurs s (String.concat "" l).
Proof.
  induction l as [|y rest IH]; intros Hin Hs; [destruct Hin|].
  simpl. destruct rest as [|z rest'].
  - destruct Hin as [->|[]]. exact Hs.
  - destruct Hin as [->|Hin].
    + apply occurs_app_l. exact Hs.
    + apply occurs_app_r. apply IH; assumption.
Qed.

Lemma fold_left_append {A : Type} (f : A -> string) l : forall acc,
  fold_left (fun a x => a ++ f x) l acc = acc ++ String.concat "" (map f l).
Proof.
  induction l as [|x rest IH]; intros acc; simpl.
  - rewrite append_empty_r. reflexivity.
  - rewrite IH. destruct rest as [|y rest'].
    + simpl. rewrite append_empty_r. reflexivity.
    + rewrite append_assoc. reflexivity.
Qed.

Lemma occurs_fold {A : Type} (f : A -> string) l s x :
  In x l -> occurs s (f x) -> occurs s (fold_left (fun a y => a ++ f y) l "").
Proof.
  intros Hin Hs. rewrite fold_left_append. apply occurs_app_r.
  apply (occurs_concat s (f x)); [apply in_map; exact Hin|exact Hs].
Qed.

Lemma ok_inj {A : Type} (a b : A) : Ok a = Ok b -> a = b.
Proof. intros H. injection H as H. exact H. Qed.

Lemma truthy_text s : s <> "" -> truthy (PStr s) = true.
Proof.
  intros H. simpl. destruct (String.eqb_spec s ""); [contradiction|reflexivity].
Qed.

Lemma values_field k p kvs v :
  In v (values_at (Field k p) (PDict kvs)) ->
  exists c, assoc k kvs = Some c /\ In v (values_at p c).
Proof.
  cbn [values_at]. destruct (assoc k kvs) as [c|]; [|intros []].
  intros H. exists c. split; [reflexivity|exact H].
Qed.

Lemma values_text k kvs s :
  In (PStr s) (values_at (text k) (PDict kvs)) -> assoc k kvs = Some (PStr s).
Proof.
  intros H. apply values_field in H. destruct H as (c & E & [->|[]]). exact E.
Qed.

Lemma values_items p c v :
  In v (values_at (Items p) c) ->
  exists l x, iter c = Ok l /\ In x l /\ In v (values_at p x).
Proof.
  cbn [values_at]. destruct (iter c) as [l|e]; [|intros []].
  intros H. apply in_flat_map in H. destruct H as (x & Hx & Hv).
  exists l, x. repeat split; assumption.
Qed.

Lemma values_texts k kvs s :
  In (PStr s) (values_at (texts k) (PDict kvs)) ->
  exists c l, assoc k kvs = Some c /\ iter c = Ok l /\ In (PStr s) l.
Proof.
  intros H. apply values_field in H. destruct H as (c & E & H).
  apply values_items in H. destruct H as (l & x & Hl & Hx & [->|[]]).
  exists c, l. repeat split; assumption.
Qed.

(** What yields an element when iterated is truthy. *)
Lemma iter_cons_truthy c x l : iter c = Ok (x :: l) -> truthy c = true.
Proof.
  destruct c as [| | | |s|l'|kvs]; try discriminate; simpl; intros H.
  - destruct s; [discriminate|reflexivity].
  - injection H as ->. reflexivity.
  - destruct kvs; [discriminate|reflexivity].
Qed.

Lemma In_enumerated {A : Type} (x : A) l start :
  In x l -> exists i, In (i, x) (enumerate start l).
Proof.
  intros H. apply In_nth_error in H. destruct H as [k Hk].
  exists (start + Z.of_nat k). apply In_enumerate. exists k. split; [exact Hk|reflexivity].
Qed.

(** Looking for [s] among the pieces of a concatenation; [unfold_item]
    opens the template of a list element. *)
Ltac find_occurrence_with unfold_item :=
  lazymatch goal with
  | |- occurs ?s ?s => apply occurs_refl
  | |- occurs ?s (if ?c then ?a else ?b) =>
      lazymatch c with
      | true => change (occurs s a); find_occurrence_with unfold_item
      | false => change (occurs s b); find_occurrence_with unfold_item
      | _ => destruct c; find_occurrence_with unfold_item
      end
  | |- occurs ?s (?x ++ ?y) =>
      first [ apply occurs_app_l; find_occurrence_with unfold_item
            | apply occurs_app_r; find_occurrence_with unfold_item ]
  | |- occurs ?s (fold_left _ _ "") =>
      eapply occurs_fold; [eassumption|];
      cbv beta; cbn [fst snd]; unfold_item; cbv beta zeta; cbn [py_str];
      find_occurrence_with unfold_item
  | |- occurs ?s (String.concat "" (map _ _)) =>
      eapply occurs_concat; [apply in_map; eassumption|];
      unfold_item; cbv beta zeta; cbn [py_str];
      find_occurrence_with unfold_item
  | |- occurs _ _ => assumption
  end.

Ltac find_occurrence := cbn [py_str andb]; find_occurrence_with idtac.

(** The value under [k] is the text [s]: the goal holds when [s] is empty,
    and is left to show with [s] truthy. *)
Ltac text_field Hv s :=
  apply values_text in Hv; rewrite ?Hv in *;
  destruct (String.eqb_spec s "") as [->|?Hne]; [apply occurs_empty|];
  rewrite ?(truthy_text s) in * by assumption.

(** The list under [k] has the text [s] among its elements. *)
Ltac text_items Hv s Hin :=
  apply values_texts in Hv;
  let c := fresh "c" in
  let l := fresh "l" in
  let E := fresh "E" in
  let Hl := fresh "Hl" in
  destruct Hv as (c & l & E & Hl & Hin); rewrite ?E in *; cbv beta iota in *;
  destruct l as [|?x ?l]; [destruct Hin|];
  rewrite ?(iter_cons_truthy _ _ _ Hl) in *; rewrite ?Hl in *.

Ltac open_paths Hp :=
  cbn [paths_of TEXT_PATHS String.eqb Ascii.eqb Bool.eqb] in Hp.

Section Verbatim.

Variable py_repr : pyval -> string.

Lemma hero_verbatim c idx palette fonts html :
  slide_hero py_repr c idx palette fonts = Ok html ->
  forall p s,
    In p (paths_of "HERO" TEXT_PATHS) ->
    In (PStr s) (values_at p c) -> occurs s html.
Proof.
  intros H p s Hp Hv.
  destruct c as [| | | | | |kvs]; try discriminate.
  unfold slide_hero in H. rewrite !get_dict in H. cbn [bind] in H.
  apply ok_inj in H. subst html. open_paths Hp.
  repeat destruct Hp as [<-|Hp]; [..|destruct Hp];
    text_field Hv s; find_occurrence.
Qed.

Lemma quote_verbatim c idx palette fonts html :
  slide_quote py_repr c idx palette fonts = Ok html ->
  forall p s,
    In p (paths_of "QUOTE" TEXT_PATHS) ->
    In (PStr s) (values_at p c) -> occurs s html.
Proof.
  intros H p s Hp Hv.
  destruct c as [| | | | | |kvs]; try discriminate.
  unfold slide_quote in H. rewrite !get_dict in H. cbn [bind] in H.
  apply ok_inj in H. subst html. open_paths Hp.
  repeat destruct Hp as [<-|Hp]; [..|destruct Hp];
    text_field Hv s; find_occurrence.
Qed.

Lemma agenda_verbatim c idx palette fonts html :
  slide_agenda py_repr c idx palette fonts = Ok html ->
  forall p s,
    In p (paths_of "AGENDA" TEXT_PATHS) ->
    In (PStr s) (values_at p c) -> occurs s html.
Proof.
  intros H p s Hp Hv.
  destruct c as [| | | | | |kvs]; try discriminate.
  unfold slide_agenda in H. rewrite !get_dict in H. cbn [bind] in H.
  open_paths Hp.
  destruct Hp as [<-|[<-|[<-|[]]]].
  - text_field Hv s.
    destruct (iter _) as [items|e]; [|discriminate]. cbn [bind] in H.
    apply ok_inj in H. subst html. find_occurrence.
  - text_field Hv s.
    destruct (iter _) as [items|e]; [|discriminate]. cbn [bind] in H.
    apply ok_inj in H. subst html. find_occurrence.
  - text_items Hv s Hin. cbn [bind] in H. apply ok_inj in H. subst html.
    apply (In_enumerated _ _ 0) in Hin. destruct Hin as [i Hin].
    cbn [py_str andb]; find_occurrence_with ltac:(unfold agenda_item).
Qed.

Lemma content_verbatim c idx palette fonts html :
  slide_content py_repr c idx palette fonts = Ok html ->
  forall p s,
    In p (paths_of "CONTENT" TEXT_PATHS) ->
    In (PStr s) (values_at p c) -> occurs s html.
Proof.
  intros H p s Hp Hv.
  destruct c as [| | | | | |kvs]; try discriminate.
  unfold slide_content, get1 in H. rewrite !get_dict in H. cbn [bind] in H.
  open_paths Hp.
  destruct Hp as [<-|[<-|[<-|[<-|[<-|[]]]]]].
  - text_field Hv s.
    destruct (iter _) as [items|e]; [|discriminate]. cbn [bind] in H.
    destruct (truthy _); cbn [bind] in H; apply ok_inj in H; subst html;
      find_occurrence.
  - text_field Hv s.
    destruct (iter _) as [items|e]; [|discriminate]. cbn [bind] in H.
    destruct (truthy _); cbn [bind] in H; apply ok_inj in H; subst html;
      find_occurrence.
  - text_field Hv s.
    destruct (iter _) as [items|e]; [|discriminate]. cbn [bind] in H.
    destruct (truthy _); cbn [bind] in H; apply ok_inj in H; subst html;
      find_occurrence.
  - text_items Hv s Hin. cbn [bind] in H.
    destruct (truthy _); cbn [bind] in H; apply ok_inj in H; subst html;
      cbn [py_str andb]; find_occurrence_with ltac:(unfold content_bullet).
  - text_field Hv s.
    destruct (iter _) as [items|e]; [|discriminate]. cbn [bind] in H.
    apply ok_inj in H. subst html. find_occurrence.
Qed.

Lemma closing_verbatim c idx palette fonts html :
  slide_closing py_repr c idx palette fonts = Ok html ->
  forall p s,
    In p (paths_of "CLOSING" TEXT_PATHS) ->
    In (PStr s) (values_at p c) -> occurs s html.
Proof.
  intros H p s Hp Hv.
  destruct c as [| | | | | |kvs]; try discriminate.
  unfold slide_closing in H. rewrite !get_dict in H. cbn [bind] in H.
  open_paths Hp.
  destruct Hp as [<-|[<-|[<-|[<-|[<-|[<-|[]]]]]]].
  4: { text_items Hv s Hin. cbn [bind] in H. apply ok_inj in H. subst html.
       cbn [py_str andb]; find_occurrence_with ltac:(unfold closing_takeaway). }
  all: text_field Hv s;
    destruct (iter _) as [items|e]; [|discriminate]; cbn [bind] in H;
    apply ok_inj in H; subst html; find_occurrence.
Qed.

Lemma divider_verbatim c idx palette fonts html :
  slide_divider py_repr c idx palette fonts = Ok html ->
  forall p s,
    In p (paths_of "DIVIDER" TEXT_PATHS) ->
    In (PStr s) (values_at p c) -> occurs s html.
Proof.
  intros H p s Hp Hv.
  destruct c as [| | | | | |kvs]; try discriminate.
  unfold slide_divider in H. rewrite !get_dict in H. cbn [bind] in H.
  open_paths Hp.
  destruct Hp as [<-|[<-|[<-|[]]]].
  - (* a sectionNumber that is text makes the builder raise *)
    apply values_text in Hv. rewrite Hv in H. discriminate.
  - text_field Hv s.
    destruct (format_02d _) as [num|e]; [|discriminate]. cbn [bind] in H.
    apply ok_inj in H. subst html. find_occurrence.
  - text_field Hv s.
    destruct (format_02d _) as [num|e]; [|discriminate]. cbn [bind] in H.
    apply ok_inj in H. subst html. find_occurrence.
Qed.

Lemma col_verbatim col html :
  col_html py_repr col = Ok html ->
  forall p s,
    In p [text "heading"; text "body"; texts "bullets"] ->
    In (PStr s) (values_at p col) -> occurs s html.
Proof.
  intros H p s Hp Hv.
  destruct col as [| | | | | |kvs]; try discriminate.
  unfold col_html in H. rewrite !get_dict in H. cbn [bind] in H.
  destruct Hp as [<-|[<-|[<-|[]]]].
  - text_field Hv s.
    destruct (iter _) as [items|e]; [|discriminate]. cbn [bind] in H.
    apply ok_inj in H. subst html. find_occurrence.
  - text_field Hv s.
    destruct (iter _) as [items|e]; [|discriminate]. cbn [bind] in H.
    apply ok_inj in H. subst html. find_occurrence.
  - text_items Hv s Hin. cbn [bind] in H. apply ok_inj in H. subst html.
    cbn [py_str andb]; find_occurrence_with ltac:(unfold col_bullet).
Qed.

Lemma two_col_verbatim c idx palette fonts html :
  slide_two_col py_repr c idx palette fonts = Ok html ->
  forall p s,
    In p (paths_of "TWO_COL" TEXT_PATHS) ->
    In (PStr s) (values_at p c) -> occurs s html.
Proof.
  intros H p s Hp Hv.
  destruct c as [| | | | | |kvs]; try discriminate.
  unfold slide_two_col in H. rewrite !get_dict in H. cbn [bind] in H.
  destruct (col_html py_repr _) as [left_html|e] eqn:Hl; [|discriminate].
  cbn [bind] in H.
  destruct (col_html py_repr _) as [right_html|e] eqn:Hr in H; [|discriminate].
  cbn [bind] in H. open_paths Hp.
  destruct Hp as [<-|[<-|[Hp|[Hp|[Hp|[Hp|[Hp|[Hp|[]]]]]]]]].
  - text_field Hv s. apply ok_inj in H. subst html. find_occurrence.
  - text_field Hv s. apply ok_inj in H. subst html. find_occurrence.
  - subst p. apply values_field in Hv. destruct Hv as (col & E & Hv).
    rewrite E in Hl.
    assert (occurs s left_html)
      by (apply (col_verbatim _ _ Hl (text "heading")); [simpl; auto|exact Hv]).
    apply ok_inj in H. subst html. find_occurrence.
  - subst p. apply values_field in Hv. destruct Hv as (col & E & Hv).
    rewrite E in Hl.
    assert (occurs s left_html)
      by (apply (col_verbatim _ _ Hl (text "body")); [simpl; auto|exact Hv]).
    apply ok_inj in H. subst html. find_occurrence.
  - subst p. apply values_field in Hv. destruct Hv as (col & E & Hv).
    rewrite E in Hl.
    assert (occurs s left_html)
      by (apply (col_verbatim _ _ Hl (texts "bullets")); [simpl; auto|exact Hv]).
    apply ok_inj in H. subst html. find_occurrence.
  - subst p. apply values_field in Hv. destruct Hv as (col & E & Hv).
    rewrite E in Hr.
    assert (occurs s right_html)
      by (apply (col_verbatim _ _ Hr (text "heading")); [simpl; auto|exact Hv]).
    apply ok_inj in H. subst html. find_occurrence.
  - subst p. apply values_field in Hv. destruct Hv as (col & E & Hv).
    rewrite E in Hr.
    assert (occurs s right_html)
      by (apply (col_verbatim _ _ Hr (text "body")); [simpl; auto|exact Hv]).
    apply ok_inj in H. subst html. find_occurrence.
  - subst p. apply values_field in Hv. destruct Hv as (col & E & Hv).
    rewrite E in Hr.
    assert (occurs s right_html)
      by (apply (col_verbatim _ _ Hr (texts "bullets")); [simpl; auto|exact Hv]).
    apply ok_inj in H. subst html. find_occurrence.
Qed.

Lemma stat_card_verbatim cards x cards' :
  stat_card py_repr cards x = Ok cards' ->
  (forall t, occurs t cards -> occurs t cards') /\
  (forall p s,
     In p [text "number"; text "label"; text "trend"; text "description"] ->
     In (PStr s) (values_at p x) -> occurs s cards').
Proof.
  intros H.
  destruct x as [| | | | | |kvs]; try discriminate.
  unfold stat_card, get1, subscript in H. rewrite !get_dict in H.
  cbn [bind] in H.
  split.
  - intros t Ht.
    destruct (assoc "trend" kvs) as [tr|]; cbn [truthy bind] in H;
      [destruct (truthy tr); cbn [bind] in H|];
      (destruct (assoc "description" kvs) as [d|]; cbn [truthy bind] in H;
       [destruct (truthy d); cbn [bind] in H|]);
      apply ok_inj in H; subst cards'; find_occurrence.
  - intros p s Hp Hv.
    destruct Hp as [<-|[<-|[<-|[<-|[]]]]]; text_field Hv s; cbv beta iota in H;
      rewrite ?(truthy_text s) in H by assumption; cbn [bind] in H;
      repeat match type of H with
             | context [assoc ?k kvs] =>
                 destruct (assoc k kvs) as [?v|]; cbn [truthy bind] in H
             end;
      repeat match type of H with
             | context [truthy ?v] => destruct (truthy v); cbn [bind] in H
             end;
      apply ok_inj in H; subst cards'; find_occurrence.
Qed.

Lemma stat_cards_verbatim l : forall cards r,
  for_each (stat_card py_repr) l cards = Ok r ->
  (forall t, occurs t cards -> occurs t r) /\
  (forall x p s,
     In x l ->
     In p [text "number"; text "label"; text "trend"; text "description"] ->
     In (PStr s) (values_at p x) -> occurs s r).
Proof.
  induction l as [|y rest IH]; intros cards r H; simpl in H.
  - apply ok_inj in H. subst r. split; [auto|]. intros x p s [].
  - destruct (stat_card py_repr cards y) as [cards'|e] eqn:Hy; [|discriminate].
    cbn [bind] in H.
    destruct (stat_card_verbatim _ _ _ Hy) as [Hmono Hcard].
    destruct (IH _ _ H) as [Hmono' Hrest].
    split.
    + intros t Ht. apply Hmono', Hmono, Ht.
    + intros x p s [<-|Hx] Hp Hv.
      * apply Hmono'. apply (Hcard p s Hp Hv).
      * apply (Hrest x p s Hx Hp Hv).
Qed.

Lemma stats_verbatim c idx palette fonts html :
  slide_stats py_repr c idx palette fonts = Ok html ->
  forall p s,
    In p (paths_of "STATS" TEXT_PATHS) ->
    In (PStr s) (values_at p c) -> occurs s html.
Proof.
  intros H p s Hp Hv.
  destruct c as [| | | | | |kvs]; try discriminate.
  unfold slide_stats in H. rewrite !get_dict in H. cbn [bind] in H.
  open_paths Hp.
  destruct Hp as [<-|[<-|Hp]].
  - text_field Hv s.
    destruct (iter _) as [l|e]; [|discriminate]. cbn [bind] in H.
    destruct (for_each _ _ _) as [cards|e]; [|discriminate]. cbn [bind] in H.
    apply ok_inj in H. subst html. find_occurrence.
  - text_field Hv s.
    destruct (iter _) as [l|e]; [|discriminate]. cbn [bind] in H.
    destruct (for_each _ _ _) as [cards|e]; [|discriminate]. cbn [bind] in H.
    apply ok_inj in H. subst html. find_occurrence.
  - assert (Hq : exists q,
               p = Field "stats" (Items q) /\
               In q [text "number"; text "label"; text "trend"; text "description"]).
    { destruct Hp as [<-|[<-|[<-|[<-|[]]]]]; eexists; (split; [reflexivity|]);
        simpl; auto. }
    destruct Hq as (q & -> & Hq).
    apply values_field in Hv. destruct Hv as (v & E & Hv).
    apply values_items in Hv. destruct Hv as (l & x & Hl & Hx & Hv).
    rewrite E in H. cbv beta iota in H. rewrite Hl in H. cbn [bind] in H.
    destruct (for_each _ _ _) as [cards|e] eqn:Hc; [|discriminate].
    cbn [bind] in H.
    assert (occurs s cards)
      by (exact (proj2 (stat_cards_verbatim _ _ _ Hc) x q s Hx Hq Hv)).
    apply ok_inj in H. subst html. find_occurrence.
Qed.

(** C9.  Whatever text a content record holds in a field its builder reads
    (a text field, or an element of a list field, also inside a column or
    a stat) is in the fragment the builder returns character for character:
    no character of it is escaped or dropped.  (A sectionNumber that is
    text leaves no fragment: the builder raises.) *)
Theorem text_is_interpolated_verbatim stype b c idx palette fonts html p s :
  builders_get stype (BUILDERS py_repr) = Some b ->
  b c idx palette fonts = Ok html ->
  In p (paths_of stype TEXT_PATHS) ->
  In (PStr s) (values_at p c) ->
  occurs s html.
Proof.
  intros Hb H Hp Hv.
  unfold BUILDERS in Hb. cbn [builders_get] in Hb.
  repeat match type of Hb with
         | (if String.eqb stype ?k then _ else _) = _ =>
             destruct (String.eqb_spec stype k) as [->|?];
             [injection Hb as <-|]
         end; [..|discriminate].
  - exact (hero_verbatim _ _ _ _ _ H p s Hp Hv).
  - exact (agenda_verbatim _ _ _ _ _ H p s Hp Hv).
  - exact (content_verbatim _ _ _ _ _ H p s Hp Hv).
  - exact (two_col_verbatim _ _ _ _ _ H p s Hp Hv).
  - exact (stats_verbatim _ _ _ _ _ H p s Hp Hv).
  - exact (quote_verbatim _ _ _ _ _ H p s Hp Hv).
  - exact (divider_verbatim _ _ _ _ _ H p s Hp Hv).
  - exact (closing_verbatim _ _ _ _ _ H p s Hp Hv).
Qed.

End Verbatim.

(** A content slide whose texts carry markup characters. *)
Definition content_markup : pyval :=
  PDict [ ("heading", PStr "<b>Q&A</b>");
          ("bullets", PList [PStr "a < b"; PStr "'x' > 1"]) ].

(** C9 at [content_markup]: heading and bullet are in the fragment as they
    are, angle brackets and ampersand included. *)
Lemma text_is_interpolated_verbatim_witness :
  exists html,
    slide_content Sample.repr content_markup 1 (PDict []) (PDict []) = Ok html /\
    occurs "<b>Q&A</b>" html /\
    occurs "a < b" html.
Proof.
  eexists. split; [vm_compute; reflexivity|]. split.
  - apply (text_is_interpolated_verbatim Sample.repr "CONTENT"
             (slide_content Sample.repr) content_markup 1 (PDict []) (PDict [])
             _ (text "heading") "<b>Q&A</b>").
    + reflexivity.
    + vm_compute. reflexivity.
    + simpl. auto.
    + simpl. auto.
  - apply (text_is_interpolated_verbatim Sample.repr "CONTENT"
             (slide_content Sample.repr) content_markup 1 (PDict []) (PDict [])
             _ (texts "bullets") "a < b").
    + reflexivity.
    + vm_compute. reflexivity.
    + simpl. auto.
    + simpl. auto.
Defined.

(* ------------------------------------------------------------------ *)
(** ** Looking for an opening tag in a fragment                        *)
(* ------------------------------------------------------------------ *)




(** The text of an opening tag after its angle bracket. *)
Definition open_tag (name class : string) : string :=
  name ++ " class=" ++ dq ++ class ++ dq ++ ">".

Fixpoint lt_free (s : string) : bool :=
  match s with
  | EmptyString => true
  | String c s' => negb (Ascii.eqb c "<") && lt_free s'
  end.

(** A scanner for the text "<" ++ tag, where [tag] has no angle bracket of
    its own.  Its state is what is left of the text to be matched; a "<"
    always starts a match afresh. *)
Definition advance (tag rest : string) (c : ascii) : string :=
  if Ascii.eqb c "<" then tag
  else match rest with
       | String r rest' => if Ascii.eqb c r then rest' else String "<" tag
       | EmptyString => EmptyString
       end.

(** [scan tag rest h] is [None] when the scanner, started with [rest] left
    to match, meets the whole text inside [h], and its last state if not. *)
Fixpoint scan (tag rest h : string) : option string :=
  match h with
  | EmptyString => Some rest
  | String c h' =>
      match advance tag rest c with
      | EmptyString => None
      | next => scan tag next h'
      end
  end.

(** [h] takes the scanner from its initial state back to it. *)
Definition tag_free (tag h : string) : Prop :=
  scan tag (String "<" tag) h = Some (String "<" tag).

Lemma scan_app tag x : forall rest y,
  scan tag rest (x ++ y)
  = match scan tag rest x with
    | Some rest' => scan tag rest' y
    | None => None
    end.
Proof.
  induction x as [|c x IH]; intros rest y; simpl.
  - reflexivity.
  - destruct (advance tag rest c); [reflexivity|apply IH].
Qed.

Lemma scan_app_eq tag r x y r1 r2 :
  scan tag r x = Some r1 -> scan tag r1 y = Some r2 ->
  scan tag r (x ++ y) = Some r2.
Proof. intros H1 H2. rewrite scan_app, H1. exact H2. Qed.

Lemma tag_free_app tag x y :
  tag_free tag x -> tag_free tag y -> tag_free tag (x ++ y).
Proof. unfold tag_free. intros H1 H2. exact (scan_app_eq _ _ _ _ _ _ H1 H2). Qed.

Lemma tag_free_then tag x y r :
  tag_free tag x -> scan tag (String "<" tag) y = Some r ->
  scan tag (String "<" tag) (x ++ y) = Some r.
Proof. unfold tag_free. intros H1 H2. exact (scan_app_eq _ _ _ _ _ _ H1 H2). Qed.

Lemma tag_free_lt_free tag v : lt_free v = true -> tag_free tag v.
Proof.
  unfold tag_free. induction v as [|c v IH]; simpl; intros H.
  - reflexivity.
  - apply andb_prop in H. destruct H as [Hc Hv].
    unfold advance. destruct (Ascii.eqb c "<"); [simpl in Hc; discriminate|].
    apply IH, Hv.
Qed.

Lemma tag_free_concat {A : Type} tag (f : A -> string) l :
  (forall x, In x l -> tag_free tag (f x)) ->
  tag_free tag (String.concat "" (map f l)).
Proof.
  induction l as [|x rest IH]; intros H.
  - reflexivity.
  - simpl. destruct rest as [|y rest'].
    + apply H. left. reflexivity.
    + apply tag_free_app; [apply H; left; reflexivity|].
      apply IH. intros z Hz. apply H. right. exact Hz.
Qed.

Lemma tag_free_fold {A : Type} tag (f : A -> string) l :
  (forall x, In x l -> tag_free tag (f x)) ->
  tag_free tag (fold_left (fun a y => a ++ f y) l "").
Proof.
  intros H. rewrite fold_left_append. apply tag_free_app; [reflexivity|].
  apply tag_free_concat. exact H.
Qed.

(** The scanner misses nothing: a fragment it runs through without a match
    does not contain the text. *)
Lemma scan_rest tag : forall rest y,
  rest <> "" -> lt_free rest = true -> scan tag rest (rest ++ y) = None.
Proof.
  induction rest as [|c rest IH]; intros y Hne Hfree; [contradiction|].
  simpl in Hfree. apply andb_prop in Hfree. destruct Hfree as [Hc Hrest].
  simpl. unfold advance. destruct (Ascii.eqb c "<"); [simpl in Hc; discriminate|].
  rewrite Ascii.eqb_refl.
  destruct rest as [|c' rest']; [reflexivity|].
  apply IH; [discriminate|exact Hrest].
Qed.

Lemma scan_occurs tag h :
  lt_free tag = true -> occurs (String "<" tag) h ->
  scan tag (String "<" tag) h = None.
Proof.
  intros Hfree (a & b & ->). rewrite scan_app.
  destruct (scan tag (String "<" tag) a) as [rest|]; [|reflexivity].
  simpl. unfold advance. simpl.
  destruct tag as [|c tag']; [reflexivity|].
  apply scan_rest; [discriminate|exact Hfree].
Qed.

Lemma tag_free_sound tag h :
  lt_free tag = true -> tag_free tag h -> ~ occurs (String "<" tag) h.
Proof.
  unfold tag_free. intros Hfree H Hocc.
  rewrite (scan_occurs tag h Hfree Hocc) in H. discriminate.
Qed.

(** Numbers print without an angle bracket. *)
Lemma lt_free_uint d : lt_free (NilEmpty.string_of_uint d) = true.
Proof. induction d; simpl; auto. Qed.

Lemma lt_free_str_int z : lt_free (str_int z) = true.
Proof.
  unfold str_int, NilZero.string_of_int, NilZero.string_of_uint.
  destruct (Z.to_int z) as [d|d]; destruct d; simpl; auto using lt_free_uint.
Qed.

Lemma lt_free_pad2 z : lt_free (pad2 z) = true.
Proof.
  unfold pad2. destruct (Z.ltb z 0); [apply lt_free_str_int|].
  destruct (Z.ltb z 10); [simpl|]; apply lt_free_str_int.
Qed.

Lemma lt_free_format_02d v s : format_02d v = Ok s -> lt_free s = true.
Proof.
  destruct v; try discriminate; simpl; intros H; apply ok_inj in H; subst s;
    apply lt_free_pad2.
Qed.

(* ------------------------------------------------------------------ *)
(** ** More about a run of [main]                                      *)
(* ------------------------------------------------------------------ *)

Lemma outcomes_fst py_repr str_upper palette fonts l : forall os,
  outcomes py_repr str_upper palette fonts l = Ok os ->
  map fst os = map fst l.
Proof.
  induction l as [|[i slide] rest IH]; intros os H; simpl in H.
  - apply ok_inj in H. subst os. reflexivity.
  - destruct (slide_outcome _ _ _ _ i slide) as [o|e]; [|discriminate].
    cbn [bind] in H.
    destruct (outcomes _ _ _ _ rest) as [os'|e]; [|discriminate].
    cbn [bind] in H. apply ok_inj in H. subst os.
    simpl. rewrite (IH os' eq_refl). reflexivity.
Qed.

Lemma enumerate_fst_bounds {A : Type} (l : list A) : forall start,
  StronglySorted Z.lt (map fst (enumerate start l)) /\
  Forall (fun i => start <= i < start + Z.of_nat (List.length l))
         (map fst (enumerate start l)).
Proof.
  induction l as [|x rest IH]; intros start; simpl.
  - split; constructor.
  - destruct (IH (start + 1)) as [Hs Hb]. split.
    + constructor; [exact Hs|].
      apply Forall_impl with (2 := Hb). intros i Hi. lia.
    + constructor; [lia|].
      apply Forall_impl with (2 := Hb). intros i Hi. lia.
Qed.

Definition rendered_index (r : Z * string * string) : Z := fst (fst r).

Lemma rendered_indices os :
  incl (map rendered_index (rendered os)) (map fst os) /\
  (StronglySorted Z.lt (map fst os) ->
   StronglySorted Z.lt (map rendered_index (rendered os))).
Proof.
  induction os as [|[i [stype [html|]]] rest [Hincl Hsorted]]; simpl.
  - split; [apply incl_refl|auto].
  - split.
    + intros j [<-|Hj]; [left; reflexivity|right; apply Hincl, Hj].
    + intros Hs. inversion Hs as [|? ? Hrest Hall]; subst.
      constructor; [apply Hsorted, Hrest|].
      rewrite Forall_forall in *. intros j Hj. apply Hall, Hincl, Hj.
  - split.
    + intros j Hj. right. apply Hincl, Hj.
    + intros Hs. inversion Hs; subst. auto.
Qed.

Lemma rendered_skipped_length os :
  (List.length (rendered os) + List.length (skipped os))%nat = List.length os.
Proof.
  induction os as [|[i [stype [html|]]] rest IH]; simpl; lia.
Qed.

Lemma written_before_last p q d d' fs :
  p <> q -> written p (fs ++ [(p, d); (q, d')]) = Some d.
Proof.
  intros Hne. induction fs as [|[p0 d0] rest IH]; simpl.
  - destruct (String.eqb_spec p q); [contradiction|].
    rewrite String.eqb_refl. reflexivity.
  - rewrite IH. reflexivity.
Qed.

Section RunFacts.

Variable py_repr : pyval -> string.
Variable set_order : list string -> list string.
Variable str_upper : string -> string.
Variable resolve : string -> string.

(** In a run that returns, every slide of the plan is accounted for once:
    it has its entry in the manifest or its warning on the error stream. *)
Theorem every_slide_rendered_or_warned plan_path plan w slides :
  run_main py_repr set_order str_upper resolve plan_path (Some plan)
  = (w, Next tt) ->
  get plan "slides" (PList []) = Ok (PList slides) ->
  (List.length (manifest_slides w) + List.length (stderr w))%nat
  = List.length slides.
Proof.
  intros H Hs. apply main_returns_inv in H.
  destruct H as (title & palette & fonts & l & css & url & os
                 & _ & _ & _ & Hs' & _ & _ & Hos & _ & ->).
  rewrite Hs in Hs'. apply ok_inj in Hs'. injection Hs' as <-.
  rewrite manifest_slides_final. unfold final_world. cbn [stderr].
  rewrite !length_map, rendered_skipped_length.
  rewrite <- (length_map fst os), (outcomes_fst _ _ _ _ _ _ Hos), length_map.
  clear. generalize 1. induction slides as [|x rest IH]; intros start; simpl.
  - reflexivity.
  - rewrite IH. reflexivity.
Qed.

(** In a run that returns, the indices of the manifest entries go up
    strictly from entry to entry and lie between 1 and the number of slides
    of the plan. *)
Theorem manifest_indices_increase plan_path plan w slides :
  run_main py_repr set_order str_upper resolve plan_path (Some plan)
  = (w, Next tt) ->
  get plan "slides" (PList []) = Ok (PList slides) ->
  exists indices,
    map (fun e => subscript e "index") (manifest_slides w)
    = map (fun i => Ok (PInt i)) indices /\
    StronglySorted Z.lt indices /\
    Forall (fun i => 1 <= i <= Z.of_nat (List.length slides)) indices.
Proof.
  intros H Hs. apply main_returns_inv in H.
  destruct H as (title & palette & fonts & l & css & url & os
                 & _ & _ & _ & Hs' & _ & _ & Hos & _ & ->).
  rewrite Hs in Hs'. apply ok_inj in Hs'. injection Hs' as <-.
  rewrite manifest_slides_final.
  exists (map rendered_index (rendered os)).
  destruct (rendered_indices os) as [Hincl Hsorted].
  destruct (enumerate_fst_bounds slides 1) as [Hs1 Hb1].
  rewrite <- (outcomes_fst _ _ _ _ _ _ Hos) in Hs1, Hb1.
  split; [|split].
  - rewrite !map_map. apply map_ext. intros [[i stype] html]. reflexivity.
  - apply Hsorted, Hs1.
  - rewrite Forall_forall in *. intros i Hi.
    specialize (Hb1 i (Hincl i Hi)). lia.
Qed.

(** In a run that returns, the files are the pages, in the order of the
    manifest, then index.html and slide-urls.json; each manifest entry names
    the page written in its place, with the placeholder URL of that file;
    and the index document is made from the same names. *)
Theorem manifest_matches_pages plan_path plan w :
  run_main py_repr set_order str_upper resolve plan_path (Some plan)
  = (w, Next tt) ->
  exists title names,
    names <> [] /\
    get plan "title" (PStr "Presentation") = Ok title /\
    map fst (files w)
    = (map (fun n => ("slides/" ++ n)%string) names
       ++ ["index.html"; "slide-urls.json"])%list /\
    written "index.html" (files w)
    = Some (Text (make_index py_repr title names)) /\
    map (fun e => subscript e "file") (manifest_slides w)
    = map (fun n => Ok (PStr n)) names /\
    map (fun e => subscript e "url") (manifest_slides w)
    = map (fun n => Ok (PStr ("http://localhost:7890/slides/" ++ n))) names.
Proof.
  intros H. apply main_returns_inv in H.
  destruct H as (title & palette & fonts & l & css & url & os
                 & Ht & _ & _ & _ & _ & _ & Hos & Hne & ->).
  exists title, (map fname_of (rendered os)).
  split; [intros E; apply Hne; destruct (rendered os); [reflexivity|discriminate]|].
  split; [exact Ht|].
  rewrite manifest_slides_final. unfold final_world. cbn [files].
  split; [|split; [|split]].
  - rewrite map_app, !map_map. f_equal.
    apply map_ext. intros [[i stype] html]. reflexivity.
  - apply written_before_last. discriminate.
  - rewrite !map_map. apply map_ext. intros [[i stype] html]. reflexivity.
  - rewrite !map_map. apply map_ext. intros [[i stype] html]. reflexivity.
Qed.

End RunFacts.

(** The three statements above at [plan_gap]: two slides, one rendered, one
    warned about. *)
Lemma every_slide_rendered_or_warned_witness :
  exists w,
    Sample.run plan_gap = (w, Next tt) /\
    (List.length (manifest_slides w) + List.length (stderr w))%nat = 2%nat.
Proof.
  eexists. split; [vm_compute; reflexivity|].
  apply (every_slide_rendered_or_warned Sample.repr Sample.set_order
           ascii_upper Sample.resolve "slides-plan.json" plan_gap _
           [ PDict [("type", PStr "BOGUS")];
             PDict [("type", PStr "CONTENT");
                    ("content", PDict [("heading", PStr "A")])] ]);
    [vm_compute; reflexivity | reflexivity].
Defined.

Lemma manifest_indices_increase_witness :
  exists w,
    Sample.run plan_gap = (w, Next tt) /\
    exists indices,
      map (fun e => subscript e "index") (manifest_slides w)
      = map (fun i => Ok (PInt i)) indices /\
      StronglySorted Z.lt indices /\
      Forall (fun i => 1 <= i <= 2) indices.
Proof.
  eexists. split; [vm_compute; reflexivity|].
  apply (manifest_indices_increase Sample.repr Sample.set_order
           ascii_upper Sample.resolve "slides-plan.json" plan_gap _
           [ PDict [("type", PStr "BOGUS")];
             PDict [("type", PStr "CONTENT");
                    ("content", PDict [("heading", PStr "A")])] ]);
    [vm_compute; reflexivity | reflexivity].
Defined.

Lemma manifest_matches_pages_witness :
  exists w,
    Sample.run plan_gap = (w, Next tt) /\
    exists title names,
      names <> [] /\
      get plan_gap "title" (PStr "Presentation") = Ok title /\
      map fst (files w)
      = (map (fun n => ("slides/" ++ n)%string) names
         ++ ["index.html"; "slide-urls.json"])%list /\
      written "index.html" (files w)
      = Some (Text (make_index Sample.repr title names)) /\
      map (fun e => subscript e "file") (manifest_slides w)
      = map (fun n => Ok (PStr n)) names /\
      map (fun e => subscript e "url") (manifest_slides w)
      = map (fun n => Ok (PStr ("http://localhost:7890/slides/" ++ n))) names.
Proof.
  eexists. split; [vm_compute; reflexivity|].
  apply (manifest_matches_pages Sample.repr Sample.set_order
           ascii_upper Sample.resolve "slides-plan.json" plan_gap).
  vm_compute; reflexivity.
Defined.

(* ------------------------------------------------------------------ *)
(** ** More about the preview-server helper                            *)
(* ------------------------------------------------------------------ *)

Lemma valid_port_true p : Serve.valid_port p = true <-> 0 <= p <= 65535.
Proof.
  unfold Serve.valid_port. rewrite andb_true_iff, !Z.leb_le. reflexivity.
Qed.

Lemma valid_port_false p : Serve.valid_port p = false <-> p < 0 \/ 65535 < p.
Proof.
  unfold Serve.valid_port. rewrite andb_false_iff, !Z.leb_gt. reflexivity.
Qed.

Lemma first_free_spec in_use : forall n start,
  match Serve.first_free in_use start n with
  | Ok (Some p) =>
      start <= p < start + Z.of_nat n /\ in_use p = false /\
      (forall q, start <= q < p -> in_use q = true) /\
      0 <= start /\ p <= 65535
  | Ok None =>
      (forall q, start <= q < start + Z.of_nat n -> in_use q = true) /\
      (n <> 0%nat -> 0 <= start /\ start + Z.of_nat n - 1 <= 65535)
  | Raise ex =>
      ex = OverflowError /\
      exists p,
        start <= p < start + Z.of_nat n /\ Serve.valid_port p = false /\
        forall q, start <= q < p ->
                  in_use q = true /\ Serve.valid_port q = true
  end.
Proof.
  induction n as [|n IH]; intros start; cbn [Serve.first_free].
  - split; [intros q Hq; lia|]. intros H. destruct (H eq_refl).
  - unfold Serve.probe. destruct (Serve.valid_port start) eqn:Hv; cbn [bind].
    + apply valid_port_true in Hv.
      destruct (in_use start) eqn:E; cbn [negb].
      * specialize (IH (start + 1)).
        destruct (Serve.first_free in_use (start + 1) n) as [[p|]|ex].
        -- destruct IH as (Hp & Hfree & Hbusy & H0 & Hmax).
           split; [lia|]. split; [exact Hfree|]. split; [|lia].
           intros q Hq. destruct (Z.eq_dec q start) as [->|Hne]; [exact E|].
           apply Hbusy. lia.
        -- destruct IH as (Hbusy & Hrange). split.
           ++ intros q Hq. destruct (Z.eq_dec q start) as [->|Hne]; [exact E|].
              apply Hbusy. lia.
           ++ intros _. destruct n as [|n]; [simpl; lia|].
              destruct (Hrange ltac:(discriminate)). lia.
        -- destruct IH as (-> & p & Hp & Hbad & Hbefore).
           split; [reflexivity|]. exists p. split; [lia|]. split; [exact Hbad|].
           intros q Hq. destruct (Z.eq_dec q start) as [->|Hne].
           ++ split; [exact E|]. apply valid_port_true. exact Hv.
           ++ apply Hbefore. lia.
      * split; [lia|]. split; [exact E|]. split; [|lia]. intros q Hq. lia.
    + split; [reflexivity|]. exists start. split; [lia|]. split; [exact Hv|].
      intros q Hq. lia.
Qed.

(** [find_free_port] goes through the twenty ports from [start] on in
    ascending order.  It gives the lowest of them that is not in use, having
    asked about valid ports only; it gives None exactly when all twenty are
    valid ports in use; and it raises, OverflowError, exactly when it comes
    to a port outside 0..65535 before it has found a free one. *)
Theorem find_free_port_is_lowest_free in_use start :
  (forall p,
     Serve.find_free_port in_use start = Ok (Some p) <->
     start <= p < start + 20 /\ in_use p = false /\
     (forall q, start <= q < p -> in_use q = true) /\
     0 <= start /\ p <= 65535) /\
  (Serve.find_free_port in_use start = Ok None <->
   (forall q, start <= q < start + 20 -> in_use q = true) /\
   0 <= start /\ start + 19 <= 65535) /\
  (forall ex,
     Serve.find_free_port in_use start = Raise ex <->
     ex = OverflowError /\
     exists p,
       start <= p < start + 20 /\ Serve.valid_port p = false /\
       forall q, start <= q < p ->
                 in_use q = true /\ Serve.valid_port q = true).
Proof.
  unfold Serve.find_free_port.
  pose proof (first_free_spec in_use 20 start) as H.
  change (Z.of_nat 20) with 20 in H.
  destruct (Serve.first_free in_use start 20) as [[p0|]|ex0].
  - destruct H as (Hp & Hfree & Hbusy & H0 & Hmax). split; [|split].
    + intros p. split.
      * intros E. injection E as <-. auto.
      * intros (Hp' & Hfree' & Hbusy' & _). do 2 f_equal.
        destruct (Z.lt_trichotomy p0 p) as [Hlt|[Heq|Hgt]]; [|exact Heq|].
        -- rewrite Hbusy' in Hfree by lia. discriminate.
        -- rewrite Hbusy in Hfree' by lia. discriminate.
    + split; [discriminate|]. intros (Hall & _).
      rewrite Hall in Hfree by lia. discriminate.
    + intros ex. split; [discriminate|].
      intros (_ & p & Hp' & Hbad & Hbefore).
      apply valid_port_false in Hbad.
      destruct (Z_lt_le_dec p0 p) as [Hlt|Hle].
      * destruct (Hbefore p0 ltac:(lia)) as [Hb _].
        rewrite Hb in Hfree. discriminate.
      * lia.
  - destruct H as (Hall & Hrange).
    destruct (Hrange ltac:(discriminate)) as [H0 Hmax].
    split; [|split].
    + intros p. split; [discriminate|]. intros (Hp & Hfree & _).
      rewrite Hall in Hfree by lia. discriminate.
    + split; [intros _; split; [exact Hall|lia]|reflexivity].
    + intros ex. split; [discriminate|].
      intros (_ & p & Hp & Hbad & _). apply valid_port_false in Hbad. lia.
  - destruct H as (-> & p0 & Hp0 & Hbad0 & Hbefore0). split; [|split].
    + intros p. split; [discriminate|].
      intros (Hp & Hfree & Hbusy & H0 & Hmax).
      apply valid_port_false in Hbad0.
      destruct (Z_lt_le_dec p p0) as [Hlt|Hle].
      * destruct (Hbefore0 p ltac:(lia)) as [Hb _].
        rewrite Hb in Hfree. discriminate.
      * lia.
    + split; [discriminate|]. intros (_ & H0 & Hmax).
      apply valid_port_false in Hbad0. lia.
    + intros ex. split.
      * intros E. injection E as <-. split; [reflexivity|].
        exists p0. auto.
      * intros (-> & _). reflexivity.
Qed.

(** The waiting loop: it sleeps before each question, stops at the first
    yes and gives up after [tries] questions. *)
Lemma await_spec probe : forall tries k tr,
  (exists n,
     (n < tries)%nat /\ probe (k + n)%nat = true /\
     (forall j, (j < n)%nat -> probe (k + j)%nat = false) /\
     await_answer probe k tries tr
     = (true, (tr ++ repeat (Serve.Sleep 300) (S n))%list)) \/
  ((forall j, (j < tries)%nat -> probe (k + j)%nat = false) /\
   await_answer probe k tries tr
   = (false, (tr ++ repeat (Serve.Sleep 300) tries)%list)).
Proof.
  induction tries as [|tries IH]; intros k tr; cbn [await_answer].
  - right. split; [intros j Hj; lia|]. simpl. rewrite app_nil_r. reflexivity.
  - destruct (probe k) eqn:E.
    + left. exists 0%nat. split; [lia|]. rewrite Nat.add_0_r.
      split; [exact E|]. split; [intros j Hj; lia|]. reflexivity.
    + destruct (IH (S k) (tr ++ [Serve.Sleep 300])%list)
        as [(n & Hn & Hyes & Hno & ->)|(Hno & ->)].
      * left. exists (S n). split; [lia|].
        split; [rewrite Nat.add_succ_r; exact Hyes|].
        split.
        -- intros [|j] Hj; [rewrite Nat.add_0_r; exact E|].
           rewrite Nat.add_succ_r. apply Hno. lia.
        -- rewrite <- app_assoc. reflexivity.
      * right. split.
        -- intros [|j] Hj; [rewrite Nat.add_0_r; exact E|].
           rewrite Nat.add_succ_r. apply Hno. lia.
        -- rewrite <- app_assoc. reflexivity.
Qed.

Lemma last_two {A : Type} (l : list A) a b d : last (l ++ [a; b]) d = b.
Proof.
  change [a; b] with ([a] ++ [b])%list. rewrite app_assoc. apply last_last.
Qed.

(** What the script does before it starts the server: it frees the port if
    the first probe finds it in use. *)
Definition free_port (e : Serve.env) (port : Z) : list Serve.event :=
  if Serve.port_in_use e 0
  then [Serve.Err ("[serve] Port " ++ str_int port
                   ++ " in use. Killing existing process...");
        Serve.Kill port; Serve.Sleep 1000]
  else [].

Section ServeRun.

Variable py_repr : pyval -> string.

(** A run that is not kill-only and returns found the output directory,
    started one server, asked the port after each of [n] waits of 0.3 s, for
    an [n] from 1 to 20, got the first yes at the [n]-th question, and then
    printed one result, made from the manifest; it printed no error after
    the server was started and did not stop the server. *)
Theorem serve_returns_after_first_answer e out_dir resolved port tr :
  Serve.main py_repr e out_dir resolved port false = (tr, Returned) ->
  Serve.out_dir_exists e = true /\
  exists n url_data result,
    (1 <= n <= 20)%nat /\
    Serve.port_in_use e n = true /\
    (forall j, (1 <= j < n)%nat -> Serve.port_in_use e j = false) /\
    Serve.urls_file e = Some url_data /\
    Serve.ready py_repr port (Serve.pid e) url_data = Ok result /\
    tr = (free_port e port ++ [Serve.Spawn port resolved]
          ++ repeat (Serve.Sleep 300) n ++ [Serve.Out result])%list.
Proof.
  intros H. rewrite serve_by_port in H.
  destruct (Serve.valid_port port); [|discriminate].
  unfold serve_on_valid_port in H. fold (free_port e port) in H.
  destruct (Serve.out_dir_exists e); cbn [negb] in H; [|discriminate].
  split; [reflexivity|].
  destruct (await_spec (Serve.port_in_use e) 20 1
              (free_port e port ++ [Serve.Spawn port resolved])%list)
    as [(n & Hn & Hyes & Hno & E)|(_ & E)]; rewrite E in H; [|discriminate].
  destruct (Serve.urls_file e) as [url_data|]; [|discriminate].
  destruct (Serve.ready py_repr port (Serve.pid e) url_data) as [result|ex] eqn:Hr;
    [|discriminate].
  injection H as <-.
  exists (S n), url_data, result.
  split; [lia|]. split; [exact Hyes|].
  split.
  - intros j Hj. replace j with (1 + (j - 1))%nat by lia. apply Hno. lia.
  - split; [reflexivity|]. split; [exact Hr|].
    rewrite <- !app_assoc. reflexivity.
Qed.

(** A run that ends in [sys.exit] ends with status 1 and has printed no
    result.  Either the output directory is missing and no server was
    started, or the last thing the run did was to stop the server it had
    started: after twenty unanswered questions, or because the manifest is
    missing. *)
Theorem serve_exit_stops_the_server e out_dir resolved port tr code :
  Serve.main py_repr e out_dir resolved port false = (tr, Exit code) ->
  code = 1 /\
  (forall result, ~ In (Serve.Out result) tr) /\
  ((Serve.out_dir_exists e = false /\
    forall p d, ~ In (Serve.Spawn p d) tr) \/
   (Serve.out_dir_exists e = true /\
    In (Serve.Spawn port resolved) tr /\
    last tr (Serve.Kill 0) = Serve.Terminate /\
    ((forall j, (1 <= j <= 20)%nat -> Serve.port_in_use e j = false) \/
     Serve.urls_file e = None))).
Proof.
  intros H. rewrite serve_by_port in H.
  destruct (Serve.valid_port port); [|discriminate].
  unfold serve_on_valid_port in H. fold (free_port e port) in H.
  assert (Hfree : forall x, In x (free_port e port) ->
                    match x with
                    | Serve.Out _ | Serve.Spawn _ _ => False
                    | _ => True
                    end).
  { intros x. unfold free_port. destruct (Serve.port_in_use e 0); simpl.
    - intros [<-|[<-|[<-|[]]]]; exact I.
    - intros []. }
  assert (Hsleep : forall n x, In x (repeat (Serve.Sleep 300) n) ->
                     x = Serve.Sleep 300).
  { intros n x Hx. apply repeat_spec in Hx. exact Hx. }
  destruct (Serve.out_dir_exists e); cbn [negb] in H.
  - destruct (await_spec (Serve.port_in_use e) 20 1
                (free_port e port ++ [Serve.Spawn port resolved])%list)
      as [(n & Hn & Hyes & Hno & E)|(Hno & E)]; rewrite E in H.
    + destruct (Serve.urls_file e) as [url_data|] eqn:Hu.
      * destruct (Serve.ready py_repr port (Serve.pid e) url_data); discriminate.
      * injection H as <- <-. split; [reflexivity|]. split.
        -- intros result Hin. rewrite !in_app_iff in Hin.
           destruct Hin as [[[Hin|Hin]|Hin]|Hin].
           ++ apply Hfree in Hin. exact Hin.
           ++ destruct Hin as [Hin|[]]. discriminate.
           ++ apply (Hsleep (S n)) in Hin. discriminate.
           ++ destruct Hin as [Hin|[Hin|[]]]; discriminate.
        -- right. split; [reflexivity|]. split.
           ++ rewrite !in_app_iff. left. left. right. left. reflexivity.
           ++ split; [|right; reflexivity].
              apply last_two.
    + injection H as <- <-. split; [reflexivity|]. split.
      * intros result Hin. rewrite !in_app_iff in Hin.
        destruct Hin as [[[Hin|Hin]|Hin]|Hin].
        -- apply Hfree in Hin. exact Hin.
        -- destruct Hin as [Hin|[]]. discriminate.
        -- apply (Hsleep 20%nat) in Hin. discriminate.
        -- destruct Hin as [Hin|[Hin|[]]]; discriminate.
      * right. split; [reflexivity|]. split.
        -- rewrite !in_app_iff. left. left. right. left. reflexivity.
        -- split.
           ++ apply last_two.
           ++ left. intros j Hj. replace j with (1 + (j - 1))%nat by lia.
              apply Hno. lia.
  - injection H as <- <-. split; [reflexivity|]. split.
    + intros result Hin. rewrite in_app_iff in Hin. destruct Hin as [Hin|Hin].
      * apply Hfree in Hin. exact Hin.
      * destruct Hin as [Hin|[]]. discriminate.
    + left. split; [reflexivity|]. intros p d Hin.
      rewrite in_app_iff in Hin. destruct Hin as [Hin|Hin].
      * apply Hfree in Hin. exact Hin.
      * destruct Hin as [Hin|[]]. discriminate.
Qed.


(** The port decides alone whether the first probe raises: with a port
    outside 0..65535 a run that is not kill-only does nothing and ends in
    OverflowError, wherever it runs; a kill-only run does not probe. *)
Lemma serve_port_out_of_range e out_dir resolved port :
  Serve.valid_port port = false ->
  Serve.main py_repr e out_dir resolved port false
  = ([], Uncaught OverflowError).
Proof.
  intros Hv. rewrite serve_by_port, Hv. reflexivity.
Qed.

End ServeRun.

(** A manifest the script can make its result from: a dict with a title
    and with slides that can be gone through, each a dict with a file. *)
Definition has_file (slide : pyval) : bool :=
  match slide with
  | PDict kvs => match assoc "file" kvs with Some _ => true | None => false end
  | _ => false
  end.

Definition servable (url_data : pyval) : bool :=
  match url_data with
  | PDict kvs =>
      match assoc "slides" kvs, assoc "title" kvs with
      | Some slides, Some _ =>
          match iter slides with
          | Ok l => forallb has_file l
          | Raise _ => false
          end
      | _, _ => false
      end
  | _ => false
  end.

Lemma dict_set_twice k v v' kvs :
  dict_set k v' (dict_set k v kvs) = dict_set k v' kvs.
Proof.
  induction kvs as [|[k0 v0] rest IH]; simpl.
  - rewrite String.eqb_refl. reflexivity.
  - destruct (String.eqb k k0) eqn:E; simpl; rewrite E; [reflexivity|].
    rewrite IH. reflexivity.
Qed.

Section ServeManifest.

Variable py_repr : pyval -> string.

Lemma rewrite_slide_ok port slide :
  is_ok (Serve.rewrite_slide py_repr port slide) = has_file slide.
Proof.
  destruct slide as [| | | | | |kvs]; try reflexivity.
  unfold Serve.rewrite_slide, has_file, subscript.
  destruct (assoc "file" kvs); reflexivity.
Qed.

Lemma rewrite_slides_ok port l :
  is_ok (Serve.rewrite_slides py_repr port l) = forallb has_file l.
Proof.
  induction l as [|s rest IH]; simpl; [reflexivity|].
  rewrite <- rewrite_slide_ok with (port := port), <- IH.
  destruct (Serve.rewrite_slide py_repr port s); [|reflexivity].
  cbn [bind is_ok andb].
  destruct (Serve.rewrite_slides py_repr port rest); reflexivity.
Qed.

(** The script makes its result from exactly the manifests that are a dict
    with a title and with slides that a loop can go through, each slide a
    dict with a file; on any other manifest it raises. *)
Theorem ready_returns_iff_servable port server_pid url_data :
  is_ok (Serve.ready py_repr port server_pid url_data) = servable url_data.
Proof.
  destruct url_data as [| | | | | |kvs]; try reflexivity.
  unfold Serve.ready, servable, subscript.
  destruct (assoc "slides" kvs) as [slides|]; [|reflexivity].
  cbn [bind].
  destruct (iter slides) as [l|e] eqn:Hl; cbn [bind].
  - rewrite <- (rewrite_slides_ok port l).
    destruct (Serve.rewrite_slides py_repr port l) as [l'|e]; cbn [bind is_ok].
    + destruct (assoc "title" kvs) as [title|]; [|reflexivity].
      cbn [bind].
      destruct slides; try discriminate; reflexivity.
    + destruct (assoc "title" kvs); reflexivity.
  - destruct (assoc "title" kvs); reflexivity.
Qed.

(** Slides that went through the loop at one port go through it again, at
    any port, and come out as the slides they were made from would: the URL
    a slide carried does not count, and a second pass at the same port
    changes nothing. *)
Theorem rewrite_last_port_wins port port' l l1 :
  Serve.rewrite_slides py_repr port l = Ok l1 ->
  Serve.rewrite_slides py_repr port' l1 = Serve.rewrite_slides py_repr port' l /\
  Serve.rewrite_slides py_repr port l1 = Ok l1.
Proof.
  assert (Hone : forall q s s1,
            Serve.rewrite_slide py_repr port s = Ok s1 ->
            Serve.rewrite_slide py_repr q s1 = Serve.rewrite_slide py_repr q s).
  { intros q s s1 Hs. unfold Serve.rewrite_slide in *.
    destruct s as [| | | | | |kvs]; try discriminate.
    unfold subscript in *.
    destruct (assoc "file" kvs) as [file|] eqn:Hf; [|discriminate].
    cbn [bind] in *. apply ok_inj in Hs. subst s1.
    rewrite assoc_dict_set_other by discriminate. rewrite Hf. cbn [bind].
    rewrite dict_set_twice. reflexivity. }
  assert (Hall : forall q l l1,
            Serve.rewrite_slides py_repr port l = Ok l1 ->
            Serve.rewrite_slides py_repr q l1 = Serve.rewrite_slides py_repr q l).
  { intros q l0. induction l0 as [|s rest IH]; intros l2 H; simpl in H.
    - apply ok_inj in H. subst l2. reflexivity.
    - destruct (Serve.rewrite_slide py_repr port s) as [s1|e] eqn:Hs;
        [|discriminate].
      cbn [bind] in H.
      destruct (Serve.rewrite_slides py_repr port rest) as [rest1|e] eqn:Hr;
        [|discriminate].
      cbn [bind] in H. apply ok_inj in H. subst l2. simpl.
      rewrite (Hone q s s1 Hs), (IH rest1 eq_refl). reflexivity. }
  intros H. split; [exact (Hall port' l l1 H)|].
  rewrite (Hall port l l1 H). exact H.
Qed.

End ServeManifest.

Section BuildThenServe.

Variable py_repr : pyval -> string.
Variable set_order : list string -> list string.
Variable str_upper : string -> string.
Variable resolve : string -> string.

(** The two scripts, one after the other.  The manifest of a build that
    returned is one the server helper makes its result from: whenever the
    output directory is there and the port is one of 0..65535 and answers
    within the twenty questions, the helper returns, and its result counts the entries of the
    manifest, has the title of the plan and names the files of the manifest
    in their order; on port 7890 its slides are the entries of the manifest
    as the build wrote them. *)
Theorem build_then_serve plan_path plan w url_data e out_dir resolved port :
  run_main py_repr set_order str_upper resolve plan_path (Some plan)
  = (w, Next tt) ->
  written "slide-urls.json" (files w) = Some (Json url_data) ->
  Serve.urls_file e = Some url_data ->
  Serve.out_dir_exists e = true ->
  Serve.valid_port port = true ->
  (exists n, (1 <= n <= 20)%nat /\ Serve.port_in_use e n = true) ->
  exists tr result slides,
    Serve.main py_repr e out_dir resolved port false
    = ((tr ++ [Serve.Out result])%list, Returned) /\
    subscript result "slide_count"
    = Ok (PInt (Z.of_nat (List.length (manifest_slides w)))) /\
    subscript result "title" = get plan "title" (PStr "Presentation") /\
    subscript result "slides" = Ok (PList slides) /\
    map (fun s => subscript s "file") slides
    = map (fun s => subscript s "file") (manifest_slides w) /\
    (port = 7890 -> slides = manifest_slides w).
Proof.
  intros H Hw Hu Hdir Hport (n & Hn & Hyes).
  apply main_returns_inv in H.
  destruct H as (title & palette & fonts & l & css & url & os
                 & Ht & _ & _ & _ & _ & _ & _ & _ & ->).
  rewrite manifest_slides_final.
  unfold final_world in Hw. cbn [files] in Hw.
  change (?a ++ [?x; ?y])%list with (a ++ ([x] ++ [y]))%list in Hw.
  rewrite app_assoc, written_last in Hw.
  injection Hw as <-.
  rewrite serve_by_port, Hport. unfold serve_on_valid_port.
  fold (free_port e port). rewrite Hdir. cbn [negb].
  destruct (await_spec (Serve.port_in_use e) 20 1
              (free_port e port ++ [Serve.Spawn port resolved])%list)
    as [(k & Hk & _ & _ & E)|(Hno & _)].
  - rewrite E, Hu. unfold Serve.ready, manifest.
    cbn [subscript assoc String.eqb Ascii.eqb Bool.eqb bind iter].
    rewrite rewrite_entries. cbn [bind len].
    eexists _, _, _. split; [reflexivity|].
    cbn [subscript assoc String.eqb Ascii.eqb Bool.eqb].
    rewrite !length_map. split; [reflexivity|].
    split; [symmetry; exact Ht|]. split; [reflexivity|].
    split.
    + rewrite !map_map. apply map_ext. intros [[i stype] html]. reflexivity.
    + intros ->. apply map_ext. intros [[i stype] html]. reflexivity.
  - specialize (Hno (n - 1)%nat). replace (1 + (n - 1))%nat with n in Hno by lia.
    rewrite Hno in Hyes by lia. discriminate.
Qed.

End BuildThenServe.

(** A server that never answers; a manifest without title; the manifest of
    the build of [plan_gap], read by a server that answers at once. *)
Definition silent_env : Serve.env :=
  Serve.Env true (fun n => false) None 4242.

Definition untitled_env : Serve.env :=
  Serve.Env true (fun n => Nat.leb 1 n)
    (Some (PDict [("slides", PList [PDict [("file", PStr "01-hero.html")]])]))
    4242.

Definition gap_manifest : pyval :=
  manifest (PStr "Deck") [manifest_entry 2 "CONTENT" "02-content.html"].

Definition gap_env : Serve.env :=
  Serve.Env true (fun n => Nat.leb 1 n) (Some gap_manifest) 4242.

Lemma serve_returns_after_first_answer_witness :
  exists tr,
    Serve.main Sample.repr sample_env "slide-output" "/srv/deck" 8000 false
    = (tr, Returned) /\
    Serve.out_dir_exists sample_env = true /\
    exists n url_data result,
      (1 <= n <= 20)%nat /\
      Serve.port_in_use sample_env n = true /\
      (forall j, (1 <= j < n)%nat -> Serve.port_in_use sample_env j = false) /\
      Serve.urls_file sample_env = Some url_data /\
      Serve.ready Sample.repr 8000 (Serve.pid sample_env) url_data = Ok result /\
      tr = (free_port sample_env 8000 ++ [Serve.Spawn 8000 "/srv/deck"]
            ++ repeat (Serve.Sleep 300) n ++ [Serve.Out result])%list.
Proof.
  eexists. split; [vm_compute; reflexivity|].
  apply (serve_returns_after_first_answer Sample.repr sample_env
           "slide-output" "/srv/deck" 8000).
  vm_compute. reflexivity.
Defined.

Lemma serve_exit_stops_the_server_witness :
  exists tr,
    Serve.main Sample.repr silent_env "slide-output" "/srv/deck" 8000 false
    = (tr, Exit 1) /\
    1 = 1 /\
    (forall result, ~ In (Serve.Out result) tr) /\
    ((Serve.out_dir_exists silent_env = false /\
      forall p d, ~ In (Serve.Spawn p d) tr) \/
     (Serve.out_dir_exists silent_env = true /\
      In (Serve.Spawn 8000 "/srv/deck") tr /\
      last tr (Serve.Kill 0) = Serve.Terminate /\
      ((forall j, (1 <= j <= 20)%nat -> Serve.port_in_use silent_env j = false) \/
       Serve.urls_file silent_env = None))).
Proof.
  eexists. split; [vm_compute; reflexivity|].
  apply (serve_exit_stops_the_server Sample.repr silent_env
           "slide-output" "/srv/deck" 8000).
  vm_compute. reflexivity.
Defined.


(** The same server on port 8000: the manifest has no title, and the run
    raises KeyError with the server started and left running. *)
Example serve_untitled_manifest :
  Serve.main Sample.repr untitled_env "slide-output" "/srv/deck" 8000 false
  = ([Serve.Spawn 8000 "/srv/deck"; Serve.Sleep 300], Uncaught KeyError).
Proof. vm_compute. reflexivity. Qed.

Lemma rewrite_last_port_wins_witness :
  exists l l1,
    Serve.rewrite_slides Sample.repr 8000 l = Ok l1 /\
    Serve.rewrite_slides Sample.repr 9000 l1
    = Serve.rewrite_slides Sample.repr 9000 l /\
    Serve.rewrite_slides Sample.repr 8000 l1 = Ok l1.
Proof.
  exists [manifest_entry 1 "HERO" "01-hero.html"]. eexists.
  split; [vm_compute; reflexivity|].
  apply (rewrite_last_port_wins Sample.repr 8000 9000
           [manifest_entry 1 "HERO" "01-hero.html"]).
  vm_compute. reflexivity.
Defined.

Lemma build_then_serve_witness :
  exists w,
    Sample.run plan_gap = (w, Next tt) /\
    written "slide-urls.json" (files w) = Some (Json gap_manifest) /\
    exists tr result slides,
      Serve.main Sample.repr gap_env "slide-output" "/srv/deck" 7890 false
      = ((tr ++ [Serve.Out result])%list, Returned) /\
      subscript result "slide_count"
      = Ok (PInt (Z.of_nat (List.length (manifest_slides w)))) /\
      subscript result "title" = get plan_gap "title" (PStr "Presentation") /\
      subscript result "slides" = Ok (PList slides) /\
      map (fun s => subscript s "file") slides
      = map (fun s => subscript s "file") (manifest_slides w) /\
      (7890 = 7890 -> slides = manifest_slides w).
Proof.
  eexists. split; [vm_compute; reflexivity|].
  split; [vm_compute; reflexivity|].
  apply (build_then_serve Sample.repr Sample.set_order ascii_upper
           Sample.resolve "slides-plan.json" plan_gap _ gap_manifest gap_env
           "slide-output" "/srv/deck" 7890).
  - vm_compute. reflexivity.
  - vm_compute. reflexivity.
  - reflexivity.
  - reflexivity.
  - reflexivity.
  - exists 1%nat. split; [lia|reflexivity].
Defined.

(* ------------------------------------------------------------------ *)
(** ** Builds that do not return                                       *)
(* ------------------------------------------------------------------ *)

Lemma enumerate_app {A : Type} (l1 l2 : list A) : forall start,
  enumerate start (l1 ++ l2)
  = (enumerate start l1
     ++ enumerate (start + Z.of_nat (List.length l1)) l2)%list.
Proof.
  induction l1 as [|x rest IH]; intros start.
  - simpl. rewrite Z.add_0_r. reflexivity.
  - cbn [enumerate app List.length]. rewrite IH. do 3 f_equal. lia.
Qed.

Lemma written_app_none path fs gs :
  written path gs = None -> written path (fs ++ gs) = written path fs.
Proof.
  intros H. induction fs as [|[p d] rest IH]; simpl; [exact H|].
  rewrite IH. reflexivity.
Qed.

(** A path that is not under slides/ is not among files that all are. *)
Lemma written_slides_none path fs :
  (forall p d, In (p, d) fs -> exists name, p = ("slides/" ++ name)%string) ->
  (forall name, path <> ("slides/" ++ name)%string) ->
  written path fs = None.
Proof.
  intros Hall Hne. induction fs as [|[p d] rest IH]; simpl; [reflexivity|].
  rewrite IH by (intros p' d' Hin; apply (Hall p' d'); right; exact Hin).
  destruct (String.eqb_spec path p) as [->|_]; [|reflexivity].
  destruct (Hall p d (or_introl eq_refl)) as [name E].
  exfalso. exact (Hne name E).
Qed.

Lemma pages_under_slides py_repr title css url total rs p d :
  In (p, d) (map (page_of py_repr title css url total) rs) ->
  exists name, p = ("slides/" ++ name)%string.
Proof.
  intros Hin. apply in_map_iff in Hin.
  destruct Hin as ([[i stype] html] & E & _). injection E as <- _.
  eexists. reflexivity.
Qed.

Lemma written_pages_none py_repr path title css url total rs :
  (forall name, path <> ("slides/" ++ name)%string) ->
  written path (map (page_of py_repr title css url total) rs) = None.
Proof.
  intros Hne. apply written_slides_none; [|exact Hne].
  intros p d. apply pages_under_slides.
Qed.

(** The world when the page of [r] could not be written. *)
Definition with_empty_page (r : Z * string * string) (w : world) : world :=
  World (files w ++ [empty_page r]) (dirs w) (stdout w) (stderr w).

Section StoppedRuns.

Variable py_repr : pyval -> string.
Variable set_order : list string -> list string.
Variable str_upper : string -> string.
Variable resolve : string -> string.

(** The loop stops at the first slide that has no outcome, with the
    exception that slide raised, and leaves what the slides before it
    added... *)
Lemma loop_stops title palette fonts slides css url total :
  len slides = Ok total ->
  forall l1 i slide l2 os1 e acc w,
    outcomes py_repr str_upper palette fonts l1 = Ok os1 ->
    pages_encodable py_repr title css url total os1 = true ->
    slide_outcome py_repr str_upper palette fonts i slide = Raise e ->
    for_eachM (loop_body py_repr str_upper title palette fonts slides css url)
      (l1 ++ (i, slide) :: l2) acc w
    = (after_loop py_repr title css url total os1 w, Stop (Uncaught e)).
Proof.
  intros Hlen l1.
  induction l1 as [|[j s] rest IH]; intros i slide l2 os1 e acc w Hos Henc He.
  - apply ok_inj in Hos. subst os1.
    cbn [app for_eachM]. unfold bindM at 1.
    rewrite (loop_body_outcome _ _ _ _ _ _ _ _ total) by exact Hlen.
    rewrite He, after_loop_nil. reflexivity.
  - cbn [outcomes] in Hos.
    destruct (slide_outcome py_repr str_upper palette fonts j s)
      as [[stype o]|e'] eqn:Ho; [|discriminate].
    cbn [bind] in Hos.
    destruct (outcomes py_repr str_upper palette fonts rest) as [os'|e'] eqn:Hrest;
      [|discriminate].
    cbn [bind] in Hos. apply ok_inj in Hos. subst os1.
    rewrite pages_encodable_cons in Henc.
    cbn [app for_eachM]. unfold bindM at 1.
    rewrite (loop_body_outcome _ _ _ _ _ _ _ _ total) by exact Hlen.
    rewrite Ho.
    destruct o as [html|].
    + apply andb_true_iff in Henc. destruct Henc as [Hpage Henc].
      rewrite Hpage, (IH i slide l2 os' e) by (reflexivity || assumption).
      unfold after_loop; cbn [files dirs stdout stderr rendered skipped map];
        rewrite <- ?app_assoc; reflexivity.
    + rewrite (IH i slide l2 os' e) by (reflexivity || assumption).
      unfold after_loop; cbn [files dirs stdout stderr rendered skipped map];
        rewrite <- ?app_assoc; reflexivity.
Qed.

(** ... or at the first page that cannot be written, which it leaves
    empty. *)
Lemma loop_stops_at_page title palette fonts slides css url total :
  len slides = Ok total ->
  forall l1 i slide l2 os1 stype html acc w,
    outcomes py_repr str_upper palette fonts l1 = Ok os1 ->
    pages_encodable py_repr title css url total os1 = true ->
    slide_outcome py_repr str_upper palette fonts i slide
    = Ok (stype, Some html) ->
    encodable (page_text py_repr title css url total (i, stype, html)) = false ->
    for_eachM (loop_body py_repr str_upper title palette fonts slides css url)
      (l1 ++ (i, slide) :: l2) acc w
    = (with_empty_page (i, stype, html)
         (after_loop py_repr title css url total os1 w),
       Stop (Uncaught UnicodeEncodeError)).
Proof.
  intros Hlen l1.
  induction l1 as [|[j s] rest IH];
    intros i slide l2 os1 stype html acc w Hos Henc Ho' Hbad.
  - apply ok_inj in Hos. subst os1.
    cbn [app for_eachM]. unfold bindM at 1.
    rewrite (loop_body_outcome _ _ _ _ _ _ _ _ total) by exact Hlen.
    rewrite Ho', Hbad, after_loop_nil. reflexivity.
  - cbn [outcomes] in Hos.
    destruct (slide_outcome py_repr str_upper palette fonts j s)
      as [[st o]|e'] eqn:Ho; [|discriminate].
    cbn [bind] in Hos.
    destruct (outcomes py_repr str_upper palette fonts rest) as [os'|e'] eqn:Hrest;
      [|discriminate].
    cbn [bind] in Hos. apply ok_inj in Hos. subst os1.
    rewrite pages_encodable_cons in Henc.
    cbn [app for_eachM]. unfold bindM at 1.
    rewrite (loop_body_outcome _ _ _ _ _ _ _ _ total) by exact Hlen.
    rewrite Ho.
    destruct o as [h|].
    + apply andb_true_iff in Henc. destruct Henc as [Hpage Henc].
      rewrite Hpage, (IH i slide l2 os' stype html)
        by (reflexivity || assumption).
      unfold with_empty_page, after_loop;
        cbn [files dirs stdout stderr rendered skipped map];
        rewrite <- ?app_assoc; reflexivity.
    + rewrite (IH i slide l2 os' stype html) by (reflexivity || assumption).
      unfold with_empty_page, after_loop;
        cbn [files dirs stdout stderr rendered skipped map];
        rewrite <- ?app_assoc; reflexivity.
Qed.

(** A loop that stopped, stopped in one of the two ways. *)
Lemma loop_stop_inv title palette fonts slides css url total :
  len slides = Ok total ->
  forall l acc w w' st,
    for_eachM (loop_body py_repr str_upper title palette fonts slides css url)
      l acc w = (w', Stop st) ->
    exists l1 i slide l2 os1,
      l = (l1 ++ (i, slide) :: l2)%list /\
      outcomes py_repr str_upper palette fonts l1 = Ok os1 /\
      pages_encodable py_repr title css url total os1 = true /\
      ((exists e,
          slide_outcome py_repr str_upper palette fonts i slide = Raise e /\
          st = Uncaught e /\
          w' = after_loop py_repr title css url total os1 w)
       \/
       (exists stype html,
          slide_outcome py_repr str_upper palette fonts i slide
          = Ok (stype, Some html) /\
          encodable (page_text py_repr title css url total (i, stype, html))
          = false /\
          st = Uncaught UnicodeEncodeError /\
          w' = with_empty_page (i, stype, html)
                 (after_loop py_repr title css url total os1 w))).
Proof.
  intros Hlen l.
  induction l as [|[j s] rest IH]; intros acc w w' st H.
  - discriminate.
  - cbn [for_eachM] in H. unfold bindM at 1 in H.
    rewrite (loop_body_outcome _ _ _ _ _ _ _ _ total) in H by exact Hlen.
    destruct (slide_outcome py_repr str_upper palette fonts j s)
      as [[stype o]|e] eqn:Ho.
    + destruct o as [html|].
      * destruct (encodable (page_text py_repr title css url total (j, stype, html)))
          eqn:Hpage.
        -- apply IH in H.
           destruct H as (l1 & i & slide & l2 & os1 & -> & Hos & Henc & Hend).
           exists ((j, s) :: l1), i, slide, l2, ((j, (stype, Some html)) :: os1).
           split; [reflexivity|].
           split; [cbn [outcomes]; rewrite Ho, Hos; reflexivity|].
           split; [rewrite pages_encodable_cons, Hpage, Henc; reflexivity|].
           destruct Hend as [(e & He & -> & ->)|(st' & h' & Ho' & Hbad & -> & ->)].
           ++ left. exists e. split; [exact He|]. split; [reflexivity|].
              unfold after_loop; cbn [files dirs stdout stderr rendered skipped map].
              rewrite <- ?app_assoc. reflexivity.
           ++ right. exists st', h'. split; [exact Ho'|]. split; [exact Hbad|].
              split; [reflexivity|].
              unfold with_empty_page, after_loop;
                cbn [files dirs stdout stderr rendered skipped map].
              rewrite <- ?app_assoc. reflexivity.
        -- injection H as <- <-.
           exists [], j, s, rest, [].
           split; [reflexivity|]. split; [reflexivity|]. split; [reflexivity|].
           right. exists stype, html. split; [exact Ho|]. split; [exact Hpage|].
           split; [reflexivity|]. rewrite after_loop_nil. reflexivity.
      * apply IH in H.
        destruct H as (l1 & i & slide & l2 & os1 & -> & Hos & Henc & Hend).
        exists ((j, s) :: l1), i, slide, l2, ((j, (stype, None)) :: os1).
        split; [reflexivity|].
        split; [cbn [outcomes]; rewrite Ho, Hos; reflexivity|].
        split; [rewrite pages_encodable_cons; exact Henc|].
        destruct Hend as [(e & He & -> & ->)|(st' & h' & Ho' & Hbad & -> & ->)].
        -- left. exists e. split; [exact He|]. split; [reflexivity|].
           unfold after_loop; cbn [files dirs stdout stderr rendered skipped map].
           rewrite <- ?app_assoc. reflexivity.
        -- right. exists st', h'. split; [exact Ho'|]. split; [exact Hbad|].
           split; [reflexivity|].
           unfold with_empty_page, after_loop;
             cbn [files dirs stdout stderr rendered skipped map].
           rewrite <- ?app_assoc. reflexivity.
    + injection H as <- <-.
      exists [], j, s, rest, [].
      split; [reflexivity|]. split; [reflexivity|]. split; [reflexivity|].
      left. exists e. split; [exact Ho|]. split; [reflexivity|].
      rewrite after_loop_nil. reflexivity.
Qed.

(** What a run that stopped left behind, by the four ways there are. *)
Definition left_behind (w : world) (st : status) : Prop :=
  manifest_slides w = [] /\
  (st = Returned -> False) /\
  (forall code, st = Exit code -> code = 1 /\ files w = [] /\ dirs w = []) /\
  ((written "index.html" (files w) = None /\
    written "slide-urls.json" (files w) = None /\
    forall path d, In (path, d) (files w) ->
      exists name, path = ("slides/" ++ name)%string)
   \/
   (st = Uncaught IndexError /\
    exists title,
      files w = [ ("index.html", Text (make_index py_repr title []));
                  ("slide-urls.json", Json (manifest title [])) ])
   \/
   (st = Uncaught UnicodeEncodeError /\
    written "index.html" (files w) = Some (Text "") /\
    written "slide-urls.json" (files w) = None)
   \/
   (st = Uncaught UnicodeEncodeError /\
    exists index m,
      written "index.html" (files w) = Some (Text index) /\
      written "slide-urls.json" (files w) = Some (Cut m))).

Lemma left_behind_slides fs ds out err e :
  (forall p d, In (p, d) fs -> exists name, p = ("slides/" ++ name)%string) ->
  left_behind (World fs ds out err) (Uncaught e).
Proof.
  intros Hall. unfold left_behind, manifest_slides. cbn [files dirs].
  rewrite !(written_slides_none _ fs Hall) by (intros name; discriminate).
  split; [reflexivity|]. split; [discriminate|]. split; [discriminate|].
  left. split; [reflexivity|]. split; [reflexivity|]. exact Hall.
Qed.

Lemma left_behind_exit out err :
  left_behind (World [] [] out err) (Exit 1).
Proof.
  unfold left_behind, manifest_slides. cbn [files dirs written].
  split; [reflexivity|]. split; [discriminate|].
  split; [intros code E; injection E as <-; auto|].
  left. split; [reflexivity|]. split; [reflexivity|]. intros path d [].
Qed.

(** What a run that does not return leaves behind.  It stopped in one of
    four ways.  Before the loop was over: then every file is under slides/,
    the page of a slide rendered before the stop or the empty page that
    could not be written, and there is no index.html and no
    slide-urls.json.  At the last line: the loop rendered no slide and the
    run ended in the IndexError of [slide_files[0]], after it wrote an
    index without links and a manifest without entries.  At the write of
    the index, whose text could not be encoded: index.html is empty and
    there is no slide-urls.json.  Or at the write of the manifest:
    index.html is written and slide-urls.json holds only a beginning of the
    JSON text.  A manifest with entries is never left by a run that did not
    return, and [sys.exit] is reached only with status 1 and before anything
    is written or made. *)
Theorem stopped_build_leaves_no_manifest plan_path plan_file w st :
  run_main py_repr set_order str_upper resolve plan_path plan_file
  = (w, Stop st) ->
  manifest_slides w = [] /\
  (st = Returned -> False) /\
  (forall code, st = Exit code -> code = 1 /\ files w = [] /\ dirs w = []) /\
  ((written "index.html" (files w) = None /\
    written "slide-urls.json" (files w) = None /\
    forall path d, In (path, d) (files w) ->
      exists name, path = ("slides/" ++ name)%string)
   \/
   (st = Uncaught IndexError /\
    exists title,
      files w = [ ("index.html", Text (make_index py_repr title []));
                  ("slide-urls.json", Json (manifest title [])) ])
   \/
   (st = Uncaught UnicodeEncodeError /\
    written "index.html" (files w) = Some (Text "") /\
    written "slide-urls.json" (files w) = None)
   \/
   (st = Uncaught UnicodeEncodeError /\
    exists index m,
      written "index.html" (files w) = Some (Text index) /\
      written "slide-urls.json" (files w) = Some (Cut m))).
Proof.
  intros H. change (left_behind w st). pose proof H as H0.
  assert (Hnil : forall e, left_behind (World [] ["slides"] [] []) (Uncaught e))
    by (intros e; apply left_behind_slides; intros p d []).
  assert (Hnil' : forall e, left_behind empty_world (Uncaught e))
    by (intros e; apply left_behind_slides; intros p d []).
  unfold run_main, main in H.
  destruct plan_file as [plan|];
    [|injection H as <- <-; apply left_behind_exit].
  unfold bindM at 1 in H; unfold lift at 1 in H.
  destruct (get plan "title" (PStr "Presentation")) as [title|e] eqn:Ht;
    [|injection H as <- <-; apply Hnil'].
  unfold bindM at 1 in H; unfold lift at 1 in H.
  destruct (get plan "palette" (PDict [])) as [palette|e] eqn:Hp;
    [|injection H as <- <-; apply Hnil'].
  unfold bindM at 1 in H; unfold lift at 1 in H.
  destruct (get plan "fonts" _) as [fonts|e] eqn:Hf;
    [|injection H as <- <-; apply Hnil'].
  unfold bindM at 1 in H; unfold lift at 1 in H.
  destruct (get plan "slides" (PList [])) as [slides|e] eqn:Hs;
    [|injection H as <- <-; apply Hnil'].
  destruct (truthy slides) eqn:Htr; cbn [negb] in H;
    [|injection H as <- <-; apply left_behind_exit].
  unfold bindM at 1 in H; unfold mkdir at 1 in H.
  unfold bindM at 1 in H; unfold lift at 1 in H.
  destruct (build_css_vars py_repr palette fonts) as [css|e] eqn:Hcss;
    [|injection H as <- <-; apply Hnil].
  unfold bindM at 1 in H; unfold lift at 1 in H.
  destruct (build_google_fonts_url set_order fonts) as [url|e] eqn:Hurl;
    [|injection H as <- <-; apply Hnil].
  unfold bindM at 1 in H; unfold lift at 1 in H.
  destruct (iter slides) as [l|e] eqn:Hiter;
    [|injection H as <- <-; apply Hnil].
  unfold bindM at 1 in H.
  match type of H with
  | context [for_eachM ?b ?l ?a ?w0] =>
      destruct (for_eachM b l a w0) as [w1 [acc|st1]] eqn:Hloop
  end.
  - (* the loop went through: the run stopped after it *)
    clear H.
    destruct (loop_next_inv py_repr str_upper _ _ _ _ _ _ _ (iter_len _ _ Hiter)
                _ _ _ _ _ Hloop) as (os & Hos & Henc).
    rewrite (main_runs py_repr set_order str_upper resolve plan_path plan
               _ _ _ _ _ _ _ _ Ht Hp Hf Hs Htr Hcss Hurl Hiter Hos Henc) in H0.
    unfold finish in H0.
    assert (Hpages : forall p d,
              In (p, d) (map (page_of py_repr title css url
                                (Z.of_nat (List.length l))) (rendered os)) ->
              exists name, p = ("slides/" ++ name)%string)
      by (intros p d; apply pages_under_slides).
    destruct (encodable (index_text py_repr title os)) eqn:Hi; cbn [negb] in H0.
    + destruct (json_encodable (manifest_of title os)) eqn:Hm; cbn [negb] in H0.
      * injection H0 as Hw Hst. unfold final_step in Hst.
        destruct (rendered os) as [|r rs] eqn:Hr; [|discriminate].
        injection Hst as <-. subst w.
        unfold left_behind. rewrite manifest_slides_final, Hr.
        split; [reflexivity|]. split; [discriminate|]. split; [discriminate|].
        right. left. split; [reflexivity|]. exists title.
        unfold final_world. rewrite Hr. reflexivity.
      * injection H0 as <- <-.
        unfold left_behind, manifest_slides. cbn [files dirs].
        rewrite written_before_last by discriminate.
        change (?a ++ [?x; ?y])%list with (a ++ ([x] ++ [y]))%list.
        rewrite app_assoc, written_last.
        split; [reflexivity|]. split; [discriminate|]. split; [discriminate|].
        right. right. right. split; [reflexivity|]. eexists _, _.
        split; reflexivity.
    + injection H0 as <- <-.
      unfold left_behind, manifest_slides. cbn [files dirs].
      rewrite written_last.
      rewrite (written_app_none "slide-urls.json") by reflexivity.
      rewrite (written_slides_none "slide-urls.json" _ Hpages)
        by (intros name; discriminate).
      split; [reflexivity|]. split; [discriminate|]. split; [discriminate|].
      right. right. left. repeat split.
  - (* the loop stopped *)
    injection H as <- <-.
    destruct (loop_stop_inv _ _ _ _ _ _ _ (iter_len _ _ Hiter) _ _ _ _ _ Hloop)
      as (l1 & i & slide & l2 & os1 & _ & _ & _ & Hend).
    destruct Hend as [(e & _ & -> & ->)|(stype & html & _ & _ & -> & ->)].
    + unfold after_loop. cbn [files dirs stdout stderr app].
      apply left_behind_slides. intros p d. apply pages_under_slides.
    + unfold with_empty_page, after_loop. cbn [files dirs stdout stderr app].
      apply left_behind_slides. intros p d Hin. apply in_app_iff in Hin.
      destruct Hin as [Hin|[E|[]]].
      * exact (pages_under_slides _ _ _ _ _ _ _ _ Hin).
      * injection E as <- _. eexists. reflexivity.
Qed.

End StoppedRuns.

Section FailingSlide.

Variable py_repr : pyval -> string.
Variable set_order : list string -> list string.
Variable str_upper : string -> string.
Variable resolve : string -> string.

(** A build is not undone when a slide fails.  If the slides before some
    slide of the plan all have outcomes, their pages were written, and that
    slide raises (no get on it, a type that is no str, a builder that
    raises), the run ends in that exception; the pages of the slides
    rendered before it stay written, their progress lines and the warnings
    of the skipped ones stay printed, and nothing else is written: no later
    page, no index, no manifest. *)
Theorem build_stops_at_failing_slide
  plan_path plan title palette fonts css url l1 slide l2 os1 e :
  get plan "title" (PStr "Presentation") = Ok title ->
  get plan "palette" (PDict []) = Ok palette ->
  get plan "fonts" (PDict [("display", PStr "Inter"); ("body", PStr "Inter")])
    = Ok fonts ->
  get plan "slides" (PList []) = Ok (PList (l1 ++ slide :: l2)) ->
  build_css_vars py_repr palette fonts = Ok css ->
  build_google_fonts_url set_order fonts = Ok url ->
  outcomes py_repr str_upper palette fonts (enumerate 1 l1) = Ok os1 ->
  pages_encodable py_repr title css url
    (Z.of_nat (List.length (l1 ++ slide :: l2))) os1 = true ->
  slide_outcome py_repr str_upper palette fonts
    (Z.of_nat (List.length l1) + 1) slide = Raise e ->
  run_main py_repr set_order str_upper resolve plan_path (Some plan)
  = (World (map (page_of py_repr title css url
                   (Z.of_nat (List.length (l1 ++ slide :: l2))))
              (rendered os1))
           ["slides"]
           (map progress_of (rendered os1))
           (map warning_of (skipped os1)),
     Stop (Uncaught e)).
Proof.
  intros Ht Hp Hf Hs Hcss Hurl Hos Henc He.
  unfold run_main, main, bindM at 1, lift.
  rewrite Ht. unfold bindM at 1. rewrite Hp.
  unfold bindM at 1. rewrite Hf. unfold bindM at 1. rewrite Hs.
  replace (truthy (PList (l1 ++ slide :: l2))) with true
    by (destruct l1; reflexivity).
  cbn [negb].
  unfold bindM at 1, mkdir. unfold bindM at 1. rewrite Hcss.
  unfold bindM at 1. rewrite Hurl. unfold bindM at 1. cbn [iter].
  unfold bindM at 1.
  rewrite enumerate_app. cbn [enumerate].
  rewrite (Z.add_comm 1).
  rewrite (loop_stops py_repr str_upper title palette fonts
             (PList (l1 ++ slide :: l2)) css url
             (Z.of_nat (List.length (l1 ++ slide :: l2))) eq_refl
             _ _ _ _ os1 e _ _ Hos Henc He).
  reflexivity.
Qed.

End FailingSlide.

(** A plan whose second slide has a section number that is text; a plan
    whose title cannot be encoded as JSON, after one slide; and a plan
    whose title cannot be encoded in a page. *)
Definition plan_broken : pyval :=
  PDict [ ("title", PStr "Deck");
          ("slides",
           PList [ PDict [("type", PStr "CONTENT");
                          ("content", PDict [("heading", PStr "A")])];
                   PDict [("type", PStr "DIVIDER");
                          ("content", PDict [("sectionNumber", PStr "1")])];
                   PDict [("type", PStr "QUOTE")] ]) ].

Definition lone_surrogate : string :=
  String (ascii_of_nat 237) (String (ascii_of_nat 160)
    (String (ascii_of_nat 128) EmptyString)).

Definition plan_surrogate_in_title_dict : pyval :=
  PDict [ ("title", PDict [("a", PStr lone_surrogate)]);
          ("slides", PList [hero_launch]) ].

Definition plan_surrogate_title : pyval :=
  PDict [ ("title", PStr lone_surrogate);
          ("slides", PList [PDict [("type", PStr "BOGUS")]]) ].

Lemma stopped_build_leaves_no_manifest_witness :
  exists w,
    Sample.run plan_surrogate_in_title_dict
    = (w, Stop (Uncaught UnicodeEncodeError)) /\
    manifest_slides w = [] /\
    (Uncaught UnicodeEncodeError = Returned -> False) /\
    (forall code, Uncaught UnicodeEncodeError = Exit code ->
       code = 1 /\ files w = [] /\ dirs w = []) /\
    ((written "index.html" (files w) = None /\
      written "slide-urls.json" (files w) = None /\
      forall path d, In (path, d) (files w) ->
        exists name, path = ("slides/" ++ name)%string)
     \/
     (Uncaught UnicodeEncodeError = Uncaught IndexError /\
      exists title,
        files w = [ ("index.html", Text (make_index Sample.repr title []));
                    ("slide-urls.json", Json (manifest title [])) ])
     \/
     (Uncaught UnicodeEncodeError = Uncaught UnicodeEncodeError /\
      written "index.html" (files w) = Some (Text "") /\
      written "slide-urls.json" (files w) = None)
     \/
     (Uncaught UnicodeEncodeError = Uncaught UnicodeEncodeError /\
      exists index m,
        written "index.html" (files w) = Some (Text index) /\
        written "slide-urls.json" (files w) = Some (Cut m))).
Proof.
  eexists. split; [vm_compute; reflexivity|].
  apply (stopped_build_leaves_no_manifest Sample.repr Sample.set_order
           ascii_upper Sample.resolve "slides-plan.json"
           (Some plan_surrogate_in_title_dict)).
  vm_compute. reflexivity.
Defined.

(** The plan whose title is a lone surrogate and whose only slide is
    skipped stops at the write of the index and leaves it empty. *)
Example surrogate_title_stops_at_index :
  snd (Sample.run plan_surrogate_title) = Stop (Uncaught UnicodeEncodeError) /\
  files (fst (Sample.run plan_surrogate_title)) = [("index.html", Text "")].
Proof. split; vm_compute; reflexivity. Qed.

Lemma build_stops_at_failing_slide_witness :
  exists css url os1,
    outcomes Sample.repr ascii_upper (PDict [])
      (PDict [("display", PStr "Inter"); ("body", PStr "Inter")])
      (enumerate 1 [ PDict [("type", PStr "CONTENT");
                            ("content", PDict [("heading", PStr "A")])] ])
    = Ok os1 /\
    List.length (rendered os1) = 1%nat /\
    Sample.run plan_broken
    = (World (map (page_of Sample.repr (PStr "Deck") css url 3) (rendered os1))
             ["slides"]
             (map progress_of (rendered os1))
             (map (warning_of) (skipped os1)),
       Stop (Uncaught ValueError)).
Proof.
  eexists _, _, _. split; [vm_compute; reflexivity|].
  split; [reflexivity|].
  eapply (build_stops_at_failing_slide Sample.repr Sample.set_order
            ascii_upper Sample.resolve "slides-plan.json" plan_broken
            (PStr "Deck") (PDict [])
            (PDict [("display", PStr "Inter"); ("body", PStr "Inter")])
            _ _
            [ PDict [("type", PStr "CONTENT");
                     ("content", PDict [("heading", PStr "A")])] ]
            (PDict [("type", PStr "DIVIDER");
                    ("content", PDict [("sectionNumber", PStr "1")])])
            [ PDict [("type", PStr "QUOTE")] ]).
  - reflexivity.
  - reflexivity.
  - reflexivity.
  - reflexivity.
  - vm_compute. reflexivity.
  - vm_compute. reflexivity.
  - vm_compute. reflexivity.
  - vm_compute. reflexivity.
  - vm_compute. reflexivity.
Defined.

(* ------------------------------------------------------------------ *)
(** ** The names of the pages                                          *)
(* ------------------------------------------------------------------ *)

(** The part of a name before its first hyphen. *)
Fixpoint before_dash (s : string) : string :=
  match s with
  | EmptyString => EmptyString
  | String a rest =>
      if Ascii.eqb a "-" then EmptyString else String a (before_dash rest)
  end.

Lemma before_dash_uint d x :
  before_dash (NilEmpty.string_of_uint d ++ "-" ++ x)
  = NilEmpty.string_of_uint d.
Proof. induction d; simpl in *; congruence. Qed.

Lemma before_dash_str_int z x :
  0 <= z -> before_dash (str_int z ++ "-" ++ x) = str_int z.
Proof.
  intros Hz. unfold str_int, NilZero.string_of_int, NilZero.string_of_uint.
  destruct z as [|p|p]; [reflexivity| |lia].
  cbn [Z.to_int].
  destruct (Pos.to_uint p) eqn:E; try apply (before_dash_uint (_ _)).
  exfalso. exact (DecimalPos.Unsigned.to_uint_nonnil p E).
Qed.

Lemma before_dash_pad2 z x :
  0 <= z -> before_dash (pad2 z ++ "-" ++ x) = pad2 z.
Proof.
  intros Hz. unfold pad2.
  destruct (Z.ltb_spec z 0); [lia|].
  destruct (Z.ltb z 10); [|apply before_dash_str_int; exact Hz].
  cbn [append before_dash Ascii.eqb Bool.eqb]. f_equal.
  apply before_dash_str_int. exact Hz.
Qed.

(** Reading back a number that was printed with two digits or more. *)
Definition read_int (s : string) : option Z :=
  option_map Z.of_int (NilZero.int_of_string s).

Lemma read_str_int z : read_int (str_int z) = Some z.
Proof.
  unfold read_int, str_int. rewrite NilZero.isi.
  - simpl. rewrite DecimalZ.of_to. reflexivity.
  - destruct z; simpl; try discriminate.
    intros E. injection E as E. exact (DecimalPos.Unsigned.to_uint_nonnil _ E).
  - destruct z; simpl; try discriminate.
    intros E. injection E as E. exact (DecimalPos.Unsigned.to_uint_nonnil _ E).
Qed.

Lemma read_pad2 z : 0 <= z -> read_int (pad2 z) = Some z.
Proof.
  intros Hz. unfold pad2.
  destruct (Z.ltb_spec z 0); [lia|].
  destruct (Z.ltb_spec z 10); [|apply read_str_int].
  assert (Hcases : z = 0 \/ z = 1 \/ z = 2 \/ z = 3 \/ z = 4 \/ z = 5 \/ z = 6
                   \/ z = 7 \/ z = 8 \/ z = 9) by lia.
  repeat (destruct Hcases as [->|Hcases]; [reflexivity|]).
  subst z. reflexivity.
Qed.

Lemma slide_fname_inj i j s t :
  0 <= i -> 0 <= j -> slide_fname i s = slide_fname j t -> i = j.
Proof.
  intros Hi Hj E. unfold slide_fname in E.
  apply (f_equal before_dash) in E.
  rewrite !before_dash_pad2 in E by assumption.
  apply (f_equal read_int) in E. rewrite !read_pad2 in E by assumption.
  injection E as E. exact E.
Qed.

Lemma NoDup_map_injective {A B : Type} (f : A -> B) (l : list A) :
  (forall a b, f a = f b -> a = b) -> NoDup l -> NoDup (map f l).
Proof.
  intros Hinj H. induction H as [|x l Hx Hl IH]; simpl; constructor.
  - intros Hin. apply in_map_iff in Hin. destruct Hin as (y & E & Hy).
    apply Hinj in E. subst y. exact (Hx Hy).
  - exact IH.
Qed.

Lemma page_names_NoDup (rs : list (Z * string * string)) :
  StronglySorted Z.lt (map rendered_index rs) ->
  Forall (fun i => 0 <= i) (map rendered_index rs) ->
  NoDup (map fname_of rs).
Proof.
  induction rs as [|[[i stype] html] rest IH]; intros Hs Hb; simpl.
  - constructor.
  - simpl in Hs, Hb. inversion Hs as [|? ? Hrest Hall]; subst.
    inversion Hb as [|? ? Hi Hb']; subst.
    constructor; [|exact (IH Hrest Hb')].
    intros Hin. apply in_map_iff in Hin.
    destruct Hin as ([[j t] h] & E & Hj).
    rewrite Forall_forall in Hall, Hb'.
    pose proof (in_map rendered_index _ _ Hj) as Hj'.
    specialize (Hall _ Hj'). specialize (Hb' _ Hj').
    unfold rendered_index in Hall, Hb'. cbn [fst] in Hall, Hb'.
    cbn [fname_of] in E.
    apply slide_fname_inj in E; [lia|exact Hb'|exact Hi].
Qed.

Section PageNames.

Variable py_repr : pyval -> string.
Variable set_order : list string -> list string.
Variable str_upper : string -> string.
Variable resolve : string -> string.

(** In a run that returns no file is written twice: the names of the pages
    differ from one another, since each starts with the two or more digits
    of its own position in the plan, and from index.html and
    slide-urls.json.  The manifest names no file twice either. *)
Theorem page_names_are_distinct plan_path plan w :
  run_main py_repr set_order str_upper resolve plan_path (Some plan)
  = (w, Next tt) ->
  NoDup (map fst (files w)) /\
  NoDup (map (fun e => subscript e "file") (manifest_slides w)).
Proof.
  intros H. apply main_returns_inv in H.
  destruct H as (title & palette & fonts & l & css & url & os
                 & _ & _ & _ & _ & _ & _ & Hos & _ & ->).
  destruct (rendered_indices os) as [Hincl Hsorted].
  destruct (enumerate_fst_bounds l 1) as [Hs1 Hb1].
  rewrite <- (outcomes_fst _ _ _ _ _ _ Hos) in Hs1, Hb1.
  assert (Hnames : NoDup (map fname_of (rendered os))).
  { apply page_names_NoDup; [apply Hsorted, Hs1|].
    rewrite Forall_forall in *. intros i Hi.
    specialize (Hb1 i (Hincl i Hi)). lia. }
  split.
  - unfold final_world. cbn [files]. rewrite map_app.
    apply NoDup_app.
    + rewrite map_map.
      replace (map (fun x => fst (page_of py_repr title css url
                                    (Z.of_nat (List.length l)) x)) (rendered os))
        with (map (fun n => ("slides/" ++ n)%string) (map fname_of (rendered os))).
      * apply NoDup_map_injective; [|exact Hnames].
        intros a b E. injection E as E. exact E.
      * rewrite map_map. apply map_ext. intros [[i stype] html]. reflexivity.
    + simpl. constructor; [|constructor; [intros []|constructor]].
      intros [E|[]]. discriminate.
    + intros name Hin [E|[E|[]]]; subst name; rewrite map_map in Hin;
        apply in_map_iff in Hin; destruct Hin as ([[i stype] html] & E & _);
        discriminate.
  - rewrite manifest_slides_final, map_map.
    replace (map (fun x => subscript (entry_of x) "file") (rendered os))
      with (map (fun n => Ok (PStr n)) (map fname_of (rendered os))).
    + apply NoDup_map_injective; [|exact Hnames].
      intros a b E. injection E as E. exact E.
    + rewrite map_map. apply map_ext. intros [[i stype] html]. reflexivity.
Qed.

End PageNames.

Lemma page_names_are_distinct_witness :
  exists w,
    Sample.run plan_gap = (w, Next tt) /\
    NoDup (map fst (files w)) /\
    NoDup (map (fun e => subscript e "file") (manifest_slides w)).
Proof.
  eexists. split; [vm_compute; reflexivity|].
  apply (page_names_are_distinct Sample.repr Sample.set_order ascii_upper
           Sample.resolve "slides-plan.json" plan_gap).
  vm_compute. reflexivity.
Defined.

(* ------------------------------------------------------------------ *)
(** ** The theme                                                       *)
(* ------------------------------------------------------------------ *)

Definition is_str (v : pyval) : bool :=
  match v with PStr _ => true | _ => false end.

(** Fonts the URL can be made from: a dict whose values are all str. *)
Definition named_fonts (fonts : pyval) : bool :=
  match fonts with
  | PDict kvs => forallb is_str (map snd kvs)
  | _ => false
  end.

Lemma add_families_ok vs : forall families,
  is_ok (for_each add_family vs families) = forallb is_str vs.
Proof.
  induction vs as [|v rest IH]; intros families; simpl; [reflexivity|].
  destruct v; try reflexivity.
  unfold add_family. cbn [replace bind is_str andb]. apply IH.
Qed.

Section Theme.

Variable py_repr : pyval -> string.
Variable set_order : list string -> list string.
Variable str_upper : string -> string.
Variable resolve : string -> string.

(** When the two functions of the theme return, and what they raise. *)
Lemma theme_ok_spec palette fonts :
  is_ok (build_css_vars py_repr palette fonts)
  = (is_dict palette && is_dict fonts)%bool /\
  is_ok (build_google_fonts_url set_order fonts) = named_fonts fonts /\
  (forall e, build_css_vars py_repr palette fonts = Raise e -> e = AttributeError) /\
  (forall e, build_google_fonts_url set_order fonts = Raise e -> e = AttributeError).
Proof.
  split; [|split; [|split]].
  - destruct palette; try reflexivity. destruct fonts; reflexivity.
  - unfold build_google_fonts_url, font_families, named_fonts.
    destruct fonts as [| | | | | |kvs]; try reflexivity.
    cbn [values bind].
    rewrite <- (add_families_ok (map snd kvs) []).
    destruct (for_each add_family (map snd kvs) []); reflexivity.
  - intros e. destruct palette; try (intros H; injection H as <-; reflexivity).
    destruct fonts; try (intros H; injection H as <-; reflexivity).
    discriminate.
  - intros e. unfold build_google_fonts_url, font_families.
    destruct fonts as [| | | | | |kvs];
      try (intros H; injection H as <-; reflexivity).
    cbn [values bind].
    assert (Hall : forall vs families e',
              for_each add_family vs families = Raise e' -> e' = AttributeError).
    { induction vs as [|v rest IH]; intros families e' H; simpl in H;
        [discriminate|].
      destruct v; try (injection H as <-; reflexivity).
      unfold add_family in H. cbn [replace bind] in H. exact (IH _ _ H). }
    destruct (for_each add_family (map snd kvs) []) as [fs|e'] eqn:E.
    + discriminate.
    + intros H. injection H as <-. exact (Hall _ _ _ E).
Qed.

(** The style variables are made exactly when palette and fonts are both
    dicts, whatever they hold; the font URL exactly when fonts is a dict
    whose values are all str.  Anything else raises AttributeError. *)
Theorem theme_returns_iff palette fonts :
  is_ok (build_css_vars py_repr palette fonts)
  = (is_dict palette && is_dict fonts)%bool /\
  is_ok (build_google_fonts_url set_order fonts) = named_fonts fonts /\
  (forall e, build_css_vars py_repr palette fonts = Raise e -> e = AttributeError) /\
  (forall e, build_google_fonts_url set_order fonts = Raise e -> e = AttributeError).
Proof. exact (theme_ok_spec palette fonts). Qed.

(** A plan with slides whose palette is no dict, or whose fonts are no dict
    of str, stops the build with an AttributeError right after the output
    directory was made: no slide is looked at, nothing is written and the
    script prints nothing itself. *)
Theorem bad_theme_stops_before_any_slide
  plan_path plan title palette fonts slides :
  get plan "title" (PStr "Presentation") = Ok title ->
  get plan "palette" (PDict []) = Ok palette ->
  get plan "fonts" (PDict [("display", PStr "Inter"); ("body", PStr "Inter")])
    = Ok fonts ->
  get plan "slides" (PList []) = Ok slides ->
  truthy slides = true ->
  (is_dict palette && named_fonts fonts)%bool = false ->
  run_main py_repr set_order str_upper resolve plan_path (Some plan)
  = (World [] ["slides"] [] [], Stop (Uncaught AttributeError)).
Proof.
  intros Ht Hp Hf Hs Htr Hbad.
  destruct (theme_ok_spec palette fonts) as (Hcss & Hurl & Hecss & Heurl).
  unfold run_main, main, bindM at 1, lift.
  rewrite Ht. unfold bindM at 1. rewrite Hp.
  unfold bindM at 1. rewrite Hf. unfold bindM at 1. rewrite Hs.
  rewrite Htr. cbn [negb].
  unfold bindM at 1, mkdir. unfold bindM at 1.
  destruct (build_css_vars py_repr palette fonts) as [css|e] eqn:Ec.
  - unfold bindM at 1.
    destruct (build_google_fonts_url set_order fonts) as [url|e] eqn:Eu.
    + exfalso. cbn [is_ok] in Hcss, Hurl. rewrite <- Hurl in Hbad.
      symmetry in Hcss. apply andb_true_iff in Hcss. destruct Hcss as [Hd _].
      rewrite Hd in Hbad. discriminate.
    + rewrite (Heurl e eq_refl). reflexivity.
  - rewrite (Hecss e eq_refl). reflexivity.
Qed.

End Theme.

(** A plan whose display font is a number. *)
Definition plan_numeric_font : pyval :=
  PDict [ ("fonts", PDict [("display", PInt 3)]);
          ("slides", PList [hero_launch]) ].

Lemma bad_theme_stops_before_any_slide_witness :
  Sample.run plan_numeric_font
  = (World [] ["slides"] [] [], Stop (Uncaught AttributeError)).
Proof.
  apply (bad_theme_stops_before_any_slide Sample.repr Sample.set_order
           ascii_upper Sample.resolve "slides-plan.json" plan_numeric_font
           (PStr "Presentation") (PDict []) (PDict [("display", PInt 3)])
           (PList [hero_launch]));
    reflexivity.
Defined.

(* ------------------------------------------------------------------ *)
(** ** Slides added at the end of a plan                               *)
(* ------------------------------------------------------------------ *)

Lemma rendered_app os1 os2 :
  rendered (os1 ++ os2) = (rendered os1 ++ rendered os2)%list.
Proof.
  induction os1 as [|[i [stype [html|]]] rest IH]; simpl; [reflexivity| |exact IH].
  rewrite IH. reflexivity.
Qed.

Lemma outcomes_app py_repr str_upper palette fonts l1 l2 : forall os,
  outcomes py_repr str_upper palette fonts (l1 ++ l2) = Ok os ->
  exists os1 os2,
    os = (os1 ++ os2)%list /\
    outcomes py_repr str_upper palette fonts l1 = Ok os1 /\
    outcomes py_repr str_upper palette fonts l2 = Ok os2.
Proof.
  induction l1 as [|[i slide] rest IH]; intros os H.
  - exists [], os. auto.
  - cbn [app outcomes] in *.
    destruct (slide_outcome py_repr str_upper palette fonts i slide) as [o|e];
      [|discriminate].
    cbn [bind] in *.
    destruct (outcomes py_repr str_upper palette fonts (rest ++ l2)) as [os'|e];
      [|discriminate].
    cbn [bind] in H. apply ok_inj in H. subst os.
    destruct (IH os' eq_refl) as (os1 & os2 & -> & -> & Hos2).
    exists ((i, o) :: os1), os2. auto.
Qed.

(** The page does not show how many slides there are. *)
Lemma page_of_total py_repr title css url total total' r :
  page_of py_repr title css url total r = page_of py_repr title css url total' r.
Proof. destruct r as [[i stype] html]. reflexivity. Qed.

Section AppendedSlides.

Variable py_repr : pyval -> string.
Variable set_order : list string -> list string.
Variable str_upper : string -> string.
Variable resolve : string -> string.

(** Slides added at the end of a plan leave the pages of the slides before
    them as they were, byte for byte (no page shows the number of slides):
    when the build of a plan and the build of the plan with more slides at
    its end both return, the second wrote the pages of the first, under the
    same names and in the same order, before its further pages, and its
    manifest starts with the entries of the first. *)
Theorem appended_slides_keep_pages theme l1 l2 path1 path2 w1 w2 :
  run_main py_repr set_order str_upper resolve path1
    (Some (PDict (("slides", PList l1) :: theme))) = (w1, Next tt) ->
  run_main py_repr set_order str_upper resolve path2
    (Some (PDict (("slides", PList (l1 ++ l2)) :: theme))) = (w2, Next tt) ->
  exists pages rest1 rest2 more,
    files w1 = (pages ++ rest1)%list /\
    map fst rest1 = ["index.html"; "slide-urls.json"] /\
    files w2 = (pages ++ rest2)%list /\
    manifest_slides w2 = (manifest_slides w1 ++ more)%list.
Proof.
  intros H1 H2.
  apply main_returns_inv in H1, H2.
  destruct H1 as (title & palette & fonts & l & css & url & os
                  & Ht & Hp & Hf & Hs & Hcss & Hurl & Hos & _ & ->).
  destruct H2 as (title' & palette' & fonts' & l' & css' & url' & os'
                  & Ht' & Hp' & Hf' & Hs' & Hcss' & Hurl' & Hos' & _ & ->).
  rewrite get_dict in Ht, Hp, Hf, Hs, Ht', Hp', Hf', Hs'.
  cbn [assoc String.eqb Ascii.eqb Bool.eqb] in Ht, Hp, Hf, Hs, Ht', Hp', Hf', Hs'.
  rewrite Ht in Ht'. apply ok_inj in Ht'. subst title'.
  rewrite Hp in Hp'. apply ok_inj in Hp'. subst palette'.
  rewrite Hf in Hf'. apply ok_inj in Hf'. subst fonts'.
  rewrite Hcss in Hcss'. apply ok_inj in Hcss'. subst css'.
  rewrite Hurl in Hurl'. apply ok_inj in Hurl'. subst url'.
  apply ok_inj in Hs, Hs'. injection Hs as <-. injection Hs' as <-.
  rewrite enumerate_app in Hos'.
  apply outcomes_app in Hos'. destruct Hos' as (os1 & os2 & -> & Hos1 & _).
  rewrite Hos in Hos1. apply ok_inj in Hos1. subst os1.
  rewrite !manifest_slides_final. unfold final_world. cbn [files].
  rewrite rendered_app, !map_app, <- app_assoc.
  eexists (map (page_of py_repr title css url (Z.of_nat (List.length l1)))
             (rendered os)), _, _, _.
  split; [reflexivity|]. split; [reflexivity|].
  split; [|reflexivity].
  rewrite (map_ext _ _ (page_of_total py_repr title css url
                          (Z.of_nat (List.length (l1 ++ l2)))
                          (Z.of_nat (List.length l1)))).
  reflexivity.
Qed.

End AppendedSlides.

(** [plan_gap] with a quote added at its end. *)
Definition plan_gap_more : pyval :=
  PDict [ ("slides",
           PList ([ PDict [("type", PStr "BOGUS")];
                    PDict [("type", PStr "CONTENT");
                           ("content", PDict [("heading", PStr "A")])] ]
                  ++ [ PDict [("type", PStr "QUOTE")] ]));
          ("title", PStr "Deck") ].

Lemma appended_slides_keep_pages_witness :
  exists w1 w2,
    Sample.run
      (PDict [ ("slides",
                PList [ PDict [("type", PStr "BOGUS")];
                        PDict [("type", PStr "CONTENT");
                               ("content", PDict [("heading", PStr "A")])] ]);
               ("title", PStr "Deck") ]) = (w1, Next tt) /\
    Sample.run plan_gap_more = (w2, Next tt) /\
    exists pages rest1 rest2 more,
      files w1 = (pages ++ rest1)%list /\
      map fst rest1 = ["index.html"; "slide-urls.json"] /\
      files w2 = (pages ++ rest2)%list /\
      manifest_slides w2 = (manifest_slides w1 ++ more)%list.
Proof.
  eexists _, _. split; [vm_compute; reflexivity|].
  split; [vm_compute; reflexivity|].
  apply (appended_slides_keep_pages Sample.repr Sample.set_order ascii_upper
           Sample.resolve [("title", PStr "Deck")]
           [ PDict [("type", PStr "BOGUS")];
             PDict [("type", PStr "CONTENT");
                    ("content", PDict [("heading", PStr "A")])] ]
           [ PDict [("type", PStr "QUOTE")] ]
           "slides-plan.json" "slides-plan.json");
    vm_compute; reflexivity.
Defined.

(* ------------------------------------------------------------------ *)
(** ** What the theme reaches                                          *)
(* ------------------------------------------------------------------ *)

Section ThemeReach.

Variable py_repr : pyval -> string.
Variable set_order : list string -> list string.
Variable str_upper : string -> string.
Variable resolve : string -> string.

(** No builder of the registry looks at the palette or the fonts it is
    handed. *)
Lemma builders_ignore_theme stype b c idx palette fonts palette' fonts' :
  builders_get stype (BUILDERS py_repr) = Some b ->
  b c idx palette fonts = b c idx palette' fonts'.
Proof.
  intros Hb. unfold BUILDERS in Hb. cbn [builders_get] in Hb.
  repeat match type of Hb with
         | (if ?t then _ else _) = _ => destruct t; [injection Hb as <-|]
         end; [..|discriminate]; reflexivity.
Qed.

Lemma outcomes_ignore_theme palette fonts palette' fonts' l :
  outcomes py_repr str_upper palette fonts l
  = outcomes py_repr str_upper palette' fonts' l.
Proof.
  induction l as [|[i slide] rest IH]; [reflexivity|].
  cbn [outcomes]. rewrite IH. f_equal.
  unfold slide_outcome.
  destruct (slide_type str_upper slide) as [stype|e]; [|reflexivity].
  cbn [bind].
  destruct (get slide "content" (PDict [])) as [content|e]; [|reflexivity].
  cbn [bind].
  destruct (builders_get stype (BUILDERS py_repr)) as [b|] eqn:Hb; [|reflexivity].
  rewrite (builders_ignore_theme _ _ content i palette fonts palette' fonts' Hb).
  reflexivity.
Qed.

(** A run whose loop stops ends as the loop did. *)
Lemma main_stops_in_loop
  plan_path plan title palette fonts slides css url l w1 st :
  get plan "title" (PStr "Presentation") = Ok title ->
  get plan "palette" (PDict []) = Ok palette ->
  get plan "fonts" (PDict [("display", PStr "Inter"); ("body", PStr "Inter")])
    = Ok fonts ->
  get plan "slides" (PList []) = Ok slides ->
  truthy slides = true ->
  build_css_vars py_repr palette fonts = Ok css ->
  build_google_fonts_url set_order fonts = Ok url ->
  iter slides = Ok l ->
  for_eachM (loop_body py_repr str_upper title palette fonts slides css url)
    (enumerate 1 l) ([], []) (World [] ["slides"] [] []) = (w1, Stop st) ->
  run_main py_repr set_order str_upper resolve plan_path (Some plan)
  = (w1, Stop st).
Proof.
  intros Ht Hp Hf Hs Htruthy Hcss Hurl Hiter Hloop.
  unfold run_main, main, bindM at 1, lift.
  rewrite Ht. unfold bindM at 1. rewrite Hp.
  unfold bindM at 1. rewrite Hf. unfold bindM at 1. rewrite Hs.
  rewrite Htruthy. cbn [negb].
  unfold bindM at 1, mkdir. unfold bindM at 1. rewrite Hcss.
  unfold bindM at 1. rewrite Hurl. unfold bindM at 1. rewrite Hiter.
  unfold bindM at 1.
  unfold empty_world. cbn [files dirs stdout stderr app].
  rewrite Hloop. reflexivity.
Qed.

(** The theme reaches the pages and nothing else.  When the build of a plan
    returns, the build of the same plan under any other palette that is a
    dict and any other fonts that are a dict of str goes the same way up to
    the text of the pages.  Either it returns too: it then wrote files of
    the same names in the same order, the same index.html and the same
    slide-urls.json, and printed the same lines on both streams.  Or a page
    cannot be encoded with the new style variables or font URL in it: the
    run then stops at that page, which it leaves empty, with a
    UnicodeEncodeError and without index and manifest.  Nothing else can
    happen. *)
Theorem theme_changes_pages_only
  rest palette fonts palette' fonts' path path' w :
  run_main py_repr set_order str_upper resolve path
    (Some (PDict (("palette", palette) :: ("fonts", fonts) :: rest)))
  = (w, Next tt) ->
  (is_dict palette' && named_fonts fonts')%bool = true ->
  exists w' st',
    run_main py_repr set_order str_upper resolve path'
      (Some (PDict (("palette", palette') :: ("fonts", fonts') :: rest)))
    = (w', st') /\
    ((st' = Next tt /\
      map fst (files w') = map fst (files w) /\
      written "index.html" (files w') = written "index.html" (files w) /\
      written "slide-urls.json" (files w')
      = written "slide-urls.json" (files w) /\
      stdout w' = stdout w /\
      stderr w' = stderr w)
     \/
     (st' = Stop (Uncaught UnicodeEncodeError) /\
      written "index.html" (files w') = None /\
      written "slide-urls.json" (files w') = None /\
      exists name, In (("slides/" ++ name)%string, Text "") (files w'))).
Proof.
  intros H Hok.
  apply main_returns_spec in H.
  destruct H as (title & p & f & l & css & url & os
                 & (Ht & Hp & Hf & Hs & _ & _ & Hos & Hne & ->) & Hwr).
  rewrite get_dict in Ht, Hp, Hf, Hs.
  cbn [assoc String.eqb Ascii.eqb Bool.eqb] in Ht, Hp, Hf, Hs.
  apply ok_inj in Hp, Hf. subst p f.
  unfold writable in Hwr. apply andb_true_iff in Hwr. destruct Hwr as [Hwr Hm].
  apply andb_true_iff in Hwr. destruct Hwr as [_ Hi].
  apply andb_true_iff in Hok. destruct Hok as [Hd Hn].
  destruct (theme_ok_spec py_repr set_order palette' fonts')
    as (Hcss & Hurl & _ & _).
  rewrite Hd in Hcss. rewrite Hn in Hurl.
  assert (Hf' : is_dict fonts' = true) by (destruct fonts'; try discriminate; reflexivity).
  rewrite Hf' in Hcss.
  destruct (build_css_vars py_repr palette' fonts') as [css'|e] eqn:Ec;
    [|discriminate].
  destruct (build_google_fonts_url set_order fonts') as [url'|e] eqn:Eu;
    [|discriminate].
  rewrite (outcomes_ignore_theme palette fonts palette' fonts') in Hos.
  assert (Ht' : get (PDict (("palette", palette') :: ("fonts", fonts') :: rest))
                  "title" (PStr "Presentation") = Ok title)
    by (rewrite get_dict; cbn [assoc String.eqb Ascii.eqb Bool.eqb]; exact Ht).
  assert (Hs' : get (PDict (("palette", palette') :: ("fonts", fonts') :: rest))
                  "slides" (PList []) = Ok (PList l))
    by (rewrite get_dict; cbn [assoc String.eqb Ascii.eqb Bool.eqb]; exact Hs).
  assert (Htr : truthy (PList l) = true).
  { destruct l; [|reflexivity]. exfalso. apply Hne.
    apply ok_inj in Hos. subst os. reflexivity. }
  destruct (pages_encodable py_repr title css' url' (Z.of_nat (List.length l)) os)
    eqn:Henc.
  - (* the pages can be written with the other theme in them *)
    assert (Hwr' : writable py_repr title css' url'
                     (Z.of_nat (List.length l)) os = true)
      by (unfold writable; rewrite Henc, Hi, Hm; reflexivity).
    eexists _, _. split.
    + apply (main_runs_writable py_repr set_order str_upper resolve path' _
               title palette' fonts' (PList l) css' url' l os
               Ht' eq_refl eq_refl Hs' Htr Ec Eu eq_refl Hos Hwr').
    + left.
      split; [unfold final_step; destruct (rendered os);
              [contradiction|reflexivity]|].
      unfold final_world. cbn [files stdout stderr].
      assert (Hnames : forall c u,
                map fst (map (page_of py_repr title c u (Z.of_nat (List.length l)))
                           (rendered os))
                = map (fun n => ("slides/" ++ n)%string)
                    (map fname_of (rendered os))).
      { intros c u. rewrite !map_map. apply map_ext.
        intros [[i stype] html]. reflexivity. }
      split; [rewrite !map_app, !Hnames; reflexivity|].
      split; [rewrite !written_before_last by discriminate; reflexivity|].
      split; [|split; reflexivity].
      change (?a ++ [?x; ?y])%list with (a ++ ([x] ++ [y]))%list.
      rewrite !app_assoc, !written_last. reflexivity.
  - (* one of them cannot *)
    destruct (for_eachM
                (loop_body py_repr str_upper title palette' fonts' (PList l)
                   css' url')
                (enumerate 1 l) ([], []) (World [] ["slides"] [] []))
      as [w1 [acc|st1]] eqn:Hloop.
    + exfalso.
      destruct (loop_next_inv py_repr str_upper title palette' fonts' (PList l)
                  css' url' (Z.of_nat (List.length l)) eq_refl
                  _ _ _ _ _ Hloop) as (os' & Hos' & Henc').
      rewrite Hos in Hos'. apply ok_inj in Hos'. subst os'.
      rewrite Henc in Henc'. discriminate.
    + exists w1, (Stop st1). split.
      * apply (main_stops_in_loop path' _ title palette' fonts' (PList l)
                 css' url' l w1 st1 Ht' eq_refl eq_refl Hs' Htr Ec Eu eq_refl
                 Hloop).
      * right.
        destruct (loop_stop_inv py_repr str_upper title palette' fonts' (PList l)
                    css' url' (Z.of_nat (List.length l)) eq_refl
                    _ _ _ _ _ Hloop)
          as (l1 & i & slide & l2 & os1 & El & _ & _ & Hend).
        rewrite El in Hos. apply outcomes_app in Hos.
        destruct Hos as (osa & osb & _ & _ & Hosb).
        cbn [outcomes] in Hosb.
        destruct Hend as [(e & He & _ & _)|(stype & html & _ & _ & -> & ->)].
        { rewrite He in Hosb. discriminate. }
        split; [reflexivity|].
        unfold with_empty_page, after_loop. cbn [files dirs stdout stderr app].
        assert (Hall : forall p d,
                  In (p, d)
                    (map (page_of py_repr title css' url'
                            (Z.of_nat (List.length l))) (rendered os1)
                     ++ [empty_page (i, stype, html)]) ->
                  exists name, p = ("slides/" ++ name)%string).
        { intros p d Hin. apply in_app_iff in Hin.
          destruct Hin as [Hin|[E|[]]].
          - exact (pages_under_slides _ _ _ _ _ _ _ _ Hin).
          - injection E as <- _. eexists. reflexivity. }
        rewrite !(written_slides_none _ _ Hall) by (intros name; discriminate).
        split; [reflexivity|]. split; [reflexivity|].
        exists (slide_fname i stype). apply in_or_app. right. left. reflexivity.
Qed.

End ThemeReach.

(** [plan_gap] with a palette and fonts, and the theme to put in their
    place. *)
Definition plan_gap_themed : pyval :=
  PDict [ ("palette", PDict [("primary", PStr "#000000")]);
          ("fonts", PDict [("display", PStr "DM Sans")]);
          ("title", PStr "Deck");
          ("slides",
           PList [ PDict [("type", PStr "BOGUS")];
                   PDict [("type", PStr "CONTENT");
                          ("content", PDict [("heading", PStr "A")])] ]) ].

Lemma theme_changes_pages_only_witness :
  exists w,
    Sample.run plan_gap_themed = (w, Next tt) /\
    exists w' st',
      Sample.run
        (PDict [ ("palette", PDict []);
                 ("fonts", PDict [("body", PStr "Inter")]);
                 ("title", PStr "Deck");
                 ("slides",
                  PList [ PDict [("type", PStr "BOGUS")];
                          PDict [("type", PStr "CONTENT");
                                 ("content", PDict [("heading", PStr "A")])] ]) ])
      = (w', st') /\
      ((st' = Next tt /\
        map fst (files w') = map fst (files w) /\
        written "index.html" (files w') = written "index.html" (files w) /\
        written "slide-urls.json" (files w')
        = written "slide-urls.json" (files w) /\
        stdout w' = stdout w /\
        stderr w' = stderr w)
       \/
       (st' = Stop (Uncaught UnicodeEncodeError) /\
        written "index.html" (files w') = None /\
        written "slide-urls.json" (files w') = None /\
        exists name, In (("slides/" ++ name)%string, Text "") (files w'))).
Proof.
  eexists. split; [vm_compute; reflexivity|].
  apply (theme_changes_pages_only Sample.repr Sample.set_order ascii_upper
           Sample.resolve
           [ ("title", PStr "Deck");
             ("slides",
              PList [ PDict [("type", PStr "BOGUS")];
                      PDict [("type", PStr "CONTENT");
                             ("content", PDict [("heading", PStr "A")])] ]) ]
           (PDict [("primary", PStr "#000000")])
           (PDict [("display", PStr "DM Sans")])
           (PDict []) (PDict [("body", PStr "Inter")])
           "slides-plan.json" "slides-plan.json").
  - vm_compute. reflexivity.
  - reflexivity.
Defined.

(* ------------------------------------------------------------------ *)
(** ** Additive rendering                                              *)
(* ------------------------------------------------------------------ *)

(** The blocks a template puts in only on a condition: the opening tag of
    each, and the fields (or list elements) that bring it in. *)
Definition GUARDS : list (string * list (string * list path)) :=
  [ ("HERO",
     [ (open_tag "div" "hero-tagline", [text "tagline"]);
       (open_tag "span" "hero-author", [text "author"]);
       (open_tag "span" "hero-date", [text "date"]);
       (open_tag "p" "hero-subtitle", [text "subtitle"]) ]);
    ("AGENDA",
     [ (open_tag "div" "agenda-item", [texts "items"]) ]);
    ("CONTENT",
     [ (open_tag "div" "section-label", [text "sectionLabel"]);
       (open_tag "p" "content-body-text", [text "body"]);
       (open_tag "ul" "content-bullets", [texts "bullets"]);
       (open_tag "li" "content-bullet", [texts "bullets"]);
       (open_tag "div" "content-image-placeholder", [text "imageHint"]) ]);
    ("TWO_COL",
     [ (open_tag "div" "section-label", [text "sectionLabel"]);
       (open_tag "p" "col-body",
        [Field "leftCol" (text "body"); Field "rightCol" (text "body")]);
       (open_tag "ul" "col-bullets",
        [Field "leftCol" (texts "bullets"); Field "rightCol" (texts "bullets")]) ]);
    ("STATS",
     [ (open_tag "div" "section-label", [text "sectionLabel"]);
       (open_tag "div" "stat-card", [texts "stats"]);
       (open_tag "div" "stat-trend", [Field "stats" (Items (text "trend"))]);
       (open_tag "div" "stat-desc", [Field "stats" (Items (text "description"))]) ]);
    ("QUOTE",
     [ (open_tag "span" "quote-name", [text "attribution"]);
       (open_tag "span" "quote-role", [text "role"]) ]);
    ("DIVIDER",
     [ (open_tag "p" "div-desc", [text "description"]) ]);
    ("CLOSING",
     [ (open_tag "p" "closing-subheading", [text "subheading"]);
       (open_tag "div" "closing-cta", [text "cta"]);
       (open_tag "div" "closing-right", [texts "keyTakeaways"]);
       (open_tag "li" "closing-takeaway", [texts "keyTakeaways"]);
       (open_tag "div" "closing-contact", [text "contactInfo"]) ]) ].

Fixpoint guards_of (stype : string)
  (table : list (string * list (string * list path)))
  : list (string * list path) :=
  match table with
  | [] => []
  | (k, gs) :: rest => if String.eqb stype k then gs else guards_of stype rest
  end.

Lemma values_text_nil k kvs :
  values_at (text k) (PDict kvs) = [] -> assoc k kvs = None.
Proof.
  cbn [values_at text]. destruct (assoc k kvs); [discriminate|reflexivity].
Qed.

Lemma flat_map_singleton {A : Type} (l : list A) : flat_map (fun x => [x]) l = l.
Proof. induction l as [|x l IH]; simpl; [|rewrite IH]; reflexivity. Qed.

Lemma values_texts_nil k kvs l :
  values_at (texts k) (PDict kvs) = [] ->
  iter (match assoc k kvs with Some v => v | None => PList [] end) = Ok l ->
  l = [].
Proof.
  cbn [values_at texts]. destruct (assoc k kvs) as [c|].
  - intros H E. rewrite E in H.
    change (flat_map (values_at Here) l) with (flat_map (fun x => [x]) l) in H.
    rewrite flat_map_singleton in H. exact H.
  - intros _ E. apply ok_inj in E. symmetry. exact E.
Qed.

Lemma iter_nil_falsy c : iter c = Ok [] -> truthy c = false.
Proof.
  destruct c as [| | | |s|l|kvs]; try discriminate; simpl; intros H.
  - destruct s as [|a s]; [reflexivity|].
    destruct (code_points_cons a s) as (h & t & E).
    apply ok_inj in H. rewrite E in H. discriminate.
  - apply ok_inj in H. subst l. reflexivity.
  - destruct kvs; [reflexivity|discriminate].
Qed.

Lemma values_texts_intro k kvs l x :
  iter (match assoc k kvs with Some v => v | None => PList [] end) = Ok l ->
  In x l ->
  In x (values_at (texts k) (PDict kvs)).
Proof.
  cbn [values_at texts]. destruct (assoc k kvs) as [c|].
  - intros E Hx. rewrite E.
    change (flat_map (values_at Here) l) with (flat_map (fun x => [x]) l).
    rewrite flat_map_singleton. exact Hx.
  - intros E Hx. apply ok_inj in E. subst l. destruct Hx.
Qed.

Lemma In_enumerate_snd {A : Type} (l : list A) start i x :
  In (i, x) (enumerate start l) -> In x l.
Proof.
  intros H. apply In_enumerate in H. destruct H as (k & Hk & _).
  exact (nth_error_In _ _ Hk).
Qed.

Lemma flat_map_nil {A B : Type} (f : A -> list B) l x :
  flat_map f l = [] -> In x l -> f x = [].
Proof.
  induction l as [|y rest IH]; intros H Hx; [destruct Hx|].
  simpl in H. apply app_eq_nil in H. destruct H as [Hy Hrest].
  destruct Hx as [<-|Hx]; [exact Hy|exact (IH Hrest Hx)].
Qed.

Section Additive.

Variable py_repr : pyval -> string.

(** Content whose text, wherever the builder of [stype] reads it, has no
    angle bracket in it. *)
Definition plain (stype : string) (c : pyval) : Prop :=
  forall p v,
    In p (paths_of stype TEXT_PATHS) ->
    In v (values_at p c) ->
    lt_free (py_str py_repr v) = true.

Lemma plain_get kvs k d :
  (forall v, In v (values_at (text k) (PDict kvs)) ->
             lt_free (py_str py_repr v) = true) ->
  lt_free (py_str py_repr d) = true ->
  lt_free (py_str py_repr (match assoc k kvs with Some v => v | None => d end))
  = true.
Proof.
  intros H Hd. cbn [values_at text] in H.
  destruct (assoc k kvs) as [v|]; [apply H; left; reflexivity|exact Hd].
Qed.

(** The values inside a field that is a record, or else inside the
    default the builder takes for it. *)
Lemma values_in_field k p kvs d v :
  In v (values_at p (match assoc k kvs with Some c => c | None => d end)) ->
  values_at p d = [] ->
  In v (values_at (Field k p) (PDict kvs)).
Proof.
  cbn [values_at]. destruct (assoc k kvs) as [c|]; [auto|].
  intros H E. rewrite E in H. destruct H.
Qed.

Lemma values_in_field_nil k p kvs d :
  values_at (Field k p) (PDict kvs) = [] ->
  values_at p d = [] ->
  values_at p (match assoc k kvs with Some c => c | None => d end) = [].
Proof.
  cbn [values_at]. destruct (assoc k kvs) as [c|]; auto.
Qed.

Lemma values_in_items k p kvs l x v :
  iter (match assoc k kvs with Some c => c | None => PList [] end) = Ok l ->
  In x l ->
  In v (values_at p x) ->
  In v (values_at (Field k (Items p)) (PDict kvs)).
Proof.
  cbn [values_at]. destruct (assoc k kvs) as [c|].
  - intros E Hx Hv. rewrite E. apply in_flat_map. exists x. split; assumption.
  - intros E Hx. apply ok_inj in E. subst l. destruct Hx.
Qed.

Lemma values_in_items_nil k p kvs l x :
  values_at (Field k (Items p)) (PDict kvs) = [] ->
  iter (match assoc k kvs with Some c => c | None => PList [] end) = Ok l ->
  In x l ->
  values_at p x = [].
Proof.
  cbn [values_at]. destruct (assoc k kvs) as [c|].
  - intros H E Hx. rewrite E in H. exact (flat_map_nil _ _ _ H Hx).
  - intros _ E Hx. apply ok_inj in E. subst l. destruct Hx.
Qed.

End Additive.

(** A piece of a template that is written out: a literal or a constant. *)
Ltac is_literal x :=
  lazymatch x with
  | String _ ?t => is_literal t
  | EmptyString => idtac
  | _ => is_const x
  end.

Ltac in_paths :=
  cbn [paths_of TEXT_PATHS String.eqb Ascii.eqb Bool.eqb];
  repeat (first [left; reflexivity | right]).

(** [lt_free (py_str v)] for a value the builder read from its content. *)
Ltac plain_text :=
  first
    [ assumption
    | reflexivity
    | apply plain_get;
      [ let v := fresh "v" in
        let Hv := fresh "Hv" in
        intros v Hv;
        lazymatch goal with
        | Hp : plain _ _ _ |- _ => refine (Hp _ v _ Hv); in_paths
        | Hp : forall p v, In p _ -> _ |- _ => refine (Hp _ v _ Hv); in_paths
        end
      | reflexivity ] ].

(** Running the scanner over a template, piece by piece: a written-out
    piece is scanned; any other piece is shown to take the scanner from its
    initial state back to it. *)
Ltac scan_from items :=
  lazymatch goal with
  | |- scan ?tag ?r (?x ++ ?y) = Some ?r2 =>
      tryif is_literal x
      then (let v := eval vm_compute in (scan tag r x) in
            lazymatch v with
            | Some ?r1 =>
                apply (scan_app_eq tag r x y r1 r2);
                [vm_compute; reflexivity | scan_from items]
            end)
      else (apply tag_free_then; [scan_piece items | scan_from items])
  | |- scan ?tag ?r ?x = Some _ =>
      tryif is_literal x
      then (vm_compute; reflexivity)
      else (change (tag_free tag x); scan_piece items)
  end
with scan_piece items :=
  lazymatch goal with
  | |- tag_free _ (py_str _ _) => apply tag_free_lt_free; plain_text
  | |- tag_free _ (pad2 _) => apply tag_free_lt_free, lt_free_pad2
  | |- tag_free ?tag (if ?c then ?a else ?b) =>
      lazymatch c with
      | true => change (tag_free tag a)
      | false => change (tag_free tag b)
      | _ => destruct c
      end; unfold tag_free; scan_from items
  | |- tag_free _ (_ ++ _) => unfold tag_free; scan_from items
  | |- tag_free _ (fold_left _ _ "") => apply tag_free_fold; items
  | |- tag_free _ (String.concat "" (map _ _)) => apply tag_free_concat; items
  | |- tag_free _ _ => first [assumption | apply tag_free_lt_free; assumption]
  end.

Ltac scan_template items :=
  lazymatch goal with
  | |- tag_free ?tag _ =>
      let t := eval vm_compute in tag in
      change tag with t; unfold tag_free; scan_from items
  end.

Ltac open_guards Hg :=
  cbn [guards_of GUARDS String.eqb Ascii.eqb Bool.eqb] in Hg.

(** The field [k] is absent: its template condition is false. *)
Ltac absent_text Habs :=
  let E := fresh "E" in
  pose proof (values_text_nil _ _ (Habs _ (or_introl eq_refl))) as E;
  rewrite ?E; cbv beta iota; cbn [truthy negb String.eqb andb py_str].

(** The list under [k] has no element: the loop over it adds nothing and
    the condition on it is false. *)
Ltac absent_items Habs Hiter :=
  let E := fresh "E" in
  pose proof (values_texts_nil _ _ _ (Habs _ (or_introl eq_refl)) Hiter) as E;
  subst; rewrite ?(iter_nil_falsy _ Hiter);
  cbn [enumerate fold_left map String.concat truthy].

(** An element of the list under [k] is plain text. *)
Ltac plain_item Hplain Hiter x Hx :=
  assert (lt_free (py_str _ x) = true)
    by (refine (Hplain _ x _ (values_texts_intro _ _ _ _ Hiter Hx)); in_paths).

Section AdditiveBuilders.

Variable py_repr : pyval -> string.

Ltac split_guards Hg :=
  open_guards Hg;
  repeat destruct Hg as [Hg|Hg]; [..|destruct Hg];
  apply pair_equal_spec in Hg; destruct Hg as [<- <-].

Lemma hero_additive c idx palette fonts html tag ps :
  slide_hero py_repr c idx palette fonts = Ok html ->
  In (tag, ps) (guards_of "HERO" GUARDS) ->
  (forall p, In p ps -> values_at p c = []) ->
  plain py_repr "HERO" c ->
  tag_free tag html.
Proof.
  intros H Hg Habs Hplain.
  destruct c as [| | | | | |kvs]; try discriminate.
  unfold slide_hero in H. rewrite !get_dict in H. cbn [bind] in H.
  apply ok_inj in H. subst html.
  split_guards Hg; absent_text Habs; scan_template idtac.
Qed.

Lemma quote_additive c idx palette fonts html tag ps :
  slide_quote py_repr c idx palette fonts = Ok html ->
  In (tag, ps) (guards_of "QUOTE" GUARDS) ->
  (forall p, In p ps -> values_at p c = []) ->
  plain py_repr "QUOTE" c ->
  tag_free tag html.
Proof.
  intros H Hg Habs Hplain.
  destruct c as [| | | | | |kvs]; try discriminate.
  unfold slide_quote in H. rewrite !get_dict in H. cbn [bind] in H.
  apply ok_inj in H. subst html.
  split_guards Hg; absent_text Habs; scan_template idtac.
Qed.

Lemma divider_additive c idx palette fonts html tag ps :
  slide_divider py_repr c idx palette fonts = Ok html ->
  In (tag, ps) (guards_of "DIVIDER" GUARDS) ->
  (forall p, In p ps -> values_at p c = []) ->
  plain py_repr "DIVIDER" c ->
  tag_free tag html.
Proof.
  intros H Hg Habs Hplain.
  destruct c as [| | | | | |kvs]; try discriminate.
  unfold slide_divider in H. rewrite !get_dict in H. cbn [bind] in H.
  destruct (format_02d _) as [num|e] eqn:Hnum; [|discriminate].
  apply lt_free_format_02d in Hnum.
  cbn [bind] in H. apply ok_inj in H. subst html.
  split_guards Hg; absent_text Habs; scan_template idtac.
Qed.

Lemma agenda_additive c idx palette fonts html tag ps :
  slide_agenda py_repr c idx palette fonts = Ok html ->
  In (tag, ps) (guards_of "AGENDA" GUARDS) ->
  (forall p, In p ps -> values_at p c = []) ->
  plain py_repr "AGENDA" c ->
  tag_free tag html.
Proof.
  intros H Hg Habs Hplain.
  destruct c as [| | | | | |kvs]; try discriminate.
  unfold slide_agenda in H. rewrite !get_dict in H. cbn [bind] in H.
  destruct (iter _) as [items|e] eqn:Hiter; [|discriminate].
  cbn [bind] in H. apply ok_inj in H. subst html.
  split_guards Hg. absent_items Habs Hiter. scan_template idtac.
Qed.

Lemma content_additive c idx palette fonts html tag ps :
  slide_content py_repr c idx palette fonts = Ok html ->
  In (tag, ps) (guards_of "CONTENT" GUARDS) ->
  (forall p, In p ps -> values_at p c = []) ->
  plain py_repr "CONTENT" c ->
  tag_free tag html.
Proof.
  intros H Hg Habs Hplain.
  destruct c as [| | | | | |kvs]; try discriminate.
  unfold slide_content, get1 in H. rewrite !get_dict in H. cbn [bind] in H.
  destruct (iter _) as [bullets|e] eqn:Hiter; [|discriminate].
  cbn [bind] in H.
  pose (each := fun (x : pyval) (Hx : In x bullets) =>
                  Hplain (texts "bullets") x
                    ltac:(in_paths) (values_texts_intro _ _ _ _ Hiter Hx)).
  destruct (truthy (match assoc "imageHint" kvs with
                    | Some v => v | None => PNone end)) eqn:Himg;
    cbn [bind] in H; apply ok_inj in H; subst html;
    split_guards Hg.
  all: try (absent_text Habs;
            scan_template ltac:(let x := fresh "x" in
                                let Hx := fresh "Hx" in
                                intros x Hx; pose proof (each x Hx);
                                unfold content_bullet, tag_free;
                                scan_from idtac)).
  all: try (absent_items Habs Hiter; scan_template idtac).
  all: try (rewrite (values_text_nil _ _ (Habs _ (or_introl eq_refl))) in Himg;
            discriminate).
Qed.

Lemma closing_additive c idx palette fonts html tag ps :
  slide_closing py_repr c idx palette fonts = Ok html ->
  In (tag, ps) (guards_of "CLOSING" GUARDS) ->
  (forall p, In p ps -> values_at p c = []) ->
  plain py_repr "CLOSING" c ->
  tag_free tag html.
Proof.
  intros H Hg Habs Hplain.
  destruct c as [| | | | | |kvs]; try discriminate.
  unfold slide_closing in H. rewrite !get_dict in H. cbn [bind] in H.
  destruct (iter _) as [takeaways|e] eqn:Hiter; [|discriminate].
  cbn [bind] in H.
  pose (each := fun (x : pyval) (Hx : In x takeaways) =>
                  Hplain (texts "keyTakeaways") x
                    ltac:(in_paths) (values_texts_intro _ _ _ _ Hiter Hx)).
  apply ok_inj in H; subst html.
  split_guards Hg.
  all: try (absent_text Habs;
            scan_template ltac:(let x := fresh "x" in
                                let Hx := fresh "Hx" in
                                intros x Hx; pose proof (each x Hx);
                                unfold closing_takeaway, tag_free;
                                scan_from idtac)).
  all: try (absent_items Habs Hiter; scan_template idtac).
Qed.

(** The blocks of a column, and the label of the slide around it. *)
Definition COL_GUARDS : list (string * list path) :=
  [ (open_tag "div" "section-label", []);
    (open_tag "p" "col-body", [text "body"]);
    (open_tag "ul" "col-bullets", [texts "bullets"]) ].

Lemma col_additive col html tag ps :
  col_html py_repr col = Ok html ->
  In (tag, ps) COL_GUARDS ->
  (forall p, In p ps -> values_at p col = []) ->
  (forall p v,
     In p [text "heading"; text "body"; texts "bullets"] ->
     In v (values_at p col) -> lt_free (py_str py_repr v) = true) ->
  tag_free tag html.
Proof.
  intros H Hg Habs Hplain.
  destruct col as [| | | | | |kvs]; try discriminate.
  unfold col_html in H. rewrite !get_dict in H. cbn [bind] in H.
  destruct (iter _) as [items|e] eqn:Hiter; [|discriminate].
  cbn [bind] in H.
  pose (each := fun (x : pyval) (Hx : In x items) =>
                  Hplain (texts "bullets") x
                    ltac:(in_paths) (values_texts_intro _ _ _ _ Hiter Hx)).
  apply ok_inj in H; subst html.
  unfold COL_GUARDS in Hg.
  repeat destruct Hg as [Hg|Hg]; [..|destruct Hg];
    apply pair_equal_spec in Hg; destruct Hg as [<- <-].
  - scan_template ltac:(let x := fresh "x" in
                        let Hx := fresh "Hx" in
                        intros x Hx; pose proof (each x Hx);
                        unfold col_bullet, tag_free;
                        scan_from idtac).
  - absent_text Habs.
    scan_template ltac:(let x := fresh "x" in
                        let Hx := fresh "Hx" in
                        intros x Hx; pose proof (each x Hx);
                        unfold col_bullet, tag_free;
                        scan_from idtac).
  - absent_items Habs Hiter. scan_template idtac.
Qed.

Lemma two_col_additive c idx palette fonts html tag ps :
  slide_two_col py_repr c idx palette fonts = Ok html ->
  In (tag, ps) (guards_of "TWO_COL" GUARDS) ->
  (forall p, In p ps -> values_at p c = []) ->
  plain py_repr "TWO_COL" c ->
  tag_free tag html.
Proof.
  intros H Hg Habs Hplain.
  destruct c as [| | | | | |kvs]; try discriminate.
  unfold slide_two_col in H. rewrite !get_dict in H. cbn [bind] in H.
  destruct (col_html py_repr _) as [left_html|e] eqn:Hl; [|discriminate].
  cbn [bind] in H.
  destruct (col_html py_repr _) as [right_html|e] eqn:Hr in H; [|discriminate].
  cbn [bind] in H.
  assert (Hpl : forall p v,
            In p [text "heading"; text "body"; texts "bullets"] ->
            In v (values_at p (match assoc "leftCol" kvs with
                               | Some v => v | None => PDict [] end)) ->
            lt_free (py_str py_repr v) = true).
  { intros p v Hp Hv. apply (Hplain (Field "leftCol" p) v).
    - destruct Hp as [<-|[<-|[<-|[]]]]; in_paths.
    - apply (values_in_field _ _ _ (PDict [])); [exact Hv|].
      destruct Hp as [<-|[<-|[<-|[]]]]; reflexivity. }
  assert (Hpr : forall p v,
            In p [text "heading"; text "body"; texts "bullets"] ->
            In v (values_at p (match assoc "rightCol" kvs with
                               | Some v => v | None => PDict [] end)) ->
            lt_free (py_str py_repr v) = true).
  { intros p v Hp Hv. apply (Hplain (Field "rightCol" p) v).
    - destruct Hp as [<-|[<-|[<-|[]]]]; in_paths.
    - apply (values_in_field _ _ _ (PDict [])); [exact Hv|].
      destruct Hp as [<-|[<-|[<-|[]]]]; reflexivity. }
  apply ok_inj in H; subst html.
  split_guards Hg.
  - (* the label of the slide *)
    pose proof (col_additive _ _ _ [] Hl ltac:(left; reflexivity)
                  ltac:(intros p []) Hpl) as Hleft.
    pose proof (col_additive _ _ _ [] Hr ltac:(left; reflexivity)
                  ltac:(intros p []) Hpr) as Hright.
    absent_text Habs. scan_template idtac.
  - (* the body of a column *)
    pose proof (col_additive _ _ _ [text "body"] Hl
                  ltac:(right; left; reflexivity)
                  ltac:(intros p [<-|[]];
                        apply (values_in_field_nil _ _ _ (PDict []));
                        [apply Habs; simpl; auto|reflexivity])
                  Hpl) as Hleft.
    pose proof (col_additive _ _ _ [text "body"] Hr
                  ltac:(right; left; reflexivity)
                  ltac:(intros p [<-|[]];
                        apply (values_in_field_nil _ _ _ (PDict []));
                        [apply Habs; simpl; auto|reflexivity])
                  Hpr) as Hright.
    scan_template idtac.
  - (* the bullets of a column *)
    pose proof (col_additive _ _ _ [texts "bullets"] Hl
                  ltac:(right; right; left; reflexivity)
                  ltac:(intros p [<-|[]];
                        apply (values_in_field_nil _ _ _ (PDict []));
                        [apply Habs; simpl; auto|reflexivity])
                  Hpl) as Hleft.
    pose proof (col_additive _ _ _ [texts "bullets"] Hr
                  ltac:(right; right; left; reflexivity)
                  ltac:(intros p [<-|[]];
                        apply (values_in_field_nil _ _ _ (PDict []));
                        [apply Habs; simpl; auto|reflexivity])
                  Hpr) as Hright.
    scan_template idtac.
Qed.

(** The blocks of a stat card, and the label of the slide around it. *)
Definition STAT_GUARDS : list (string * list path) :=
  [ (open_tag "div" "section-label", []);
    (open_tag "div" "stat-trend", [text "trend"]);
    (open_tag "div" "stat-desc", [text "description"]) ].

Lemma stat_card_additive cards x cards' tag ps :
  stat_card py_repr cards x = Ok cards' ->
  In (tag, ps) STAT_GUARDS ->
  (forall p, In p ps -> values_at p x = []) ->
  (forall p v,
     In p [text "number"; text "label"; text "trend"; text "description"] ->
     In v (values_at p x) -> lt_free (py_str py_repr v) = true) ->
  tag_free tag cards ->
  tag_free tag cards'.
Proof.
  intros H Hg Habs Hplain Hcards.
  destruct x as [| | | | | |kvs]; try discriminate.
  unfold stat_card, get1, subscript in H. rewrite !get_dict in H.
  cbn [bind] in H.
  assert (Ht : forall tr, assoc "trend" kvs = Some tr ->
                 lt_free (py_str py_repr tr) = true).
  { intros tr E. apply (Hplain (text "trend") tr); [simpl; auto|].
    cbn [values_at text]. rewrite E. left. reflexivity. }
  assert (Hd : forall d, assoc "description" kvs = Some d ->
                 lt_free (py_str py_repr d) = true).
  { intros d E. apply (Hplain (text "description") d); [simpl; auto|].
    cbn [values_at text]. rewrite E. left. reflexivity. }
  unfold STAT_GUARDS in Hg.
  repeat destruct Hg as [Hg|Hg]; [..|destruct Hg];
    apply pair_equal_spec in Hg; destruct Hg as [<- <-].
  - destruct (assoc "trend" kvs) as [tr|] eqn:Et; cbn [truthy bind] in H;
      [pose proof (Ht tr eq_refl); destruct (truthy tr); cbn [bind] in H|];
      (destruct (assoc "description" kvs) as [d|] eqn:Ed; cbn [truthy bind] in H;
       [pose proof (Hd d eq_refl); destruct (truthy d); cbn [bind] in H|]);
      apply ok_inj in H; subst cards'; scan_template idtac.
  - rewrite (values_text_nil _ _ (Habs _ (or_introl eq_refl))) in H.
    cbn [truthy bind] in H.
    destruct (assoc "description" kvs) as [d|] eqn:Ed; cbn [truthy bind] in H;
      [pose proof (Hd d eq_refl); destruct (truthy d); cbn [bind] in H|];
      apply ok_inj in H; subst cards'; scan_template idtac.
  - rewrite (values_text_nil _ _ (Habs _ (or_introl eq_refl))) in H.
    cbn [truthy bind] in H.
    destruct (assoc "trend" kvs) as [tr|] eqn:Et; cbn [truthy bind] in H;
      [pose proof (Ht tr eq_refl); destruct (truthy tr); cbn [bind] in H|];
      apply ok_inj in H; subst cards'; scan_template idtac.
Qed.

Lemma stat_cards_additive tag ps l : forall cards r,
  for_each (stat_card py_repr) l cards = Ok r ->
  In (tag, ps) STAT_GUARDS ->
  (forall x p, In x l -> In p ps -> values_at p x = []) ->
  (forall x p v,
     In x l ->
     In p [text "number"; text "label"; text "trend"; text "description"] ->
     In v (values_at p x) -> lt_free (py_str py_repr v) = true) ->
  tag_free tag cards ->
  tag_free tag r.
Proof.
  induction l as [|y rest IH]; intros cards r H Hg Habs Hplain Hcards;
    simpl in H.
  - apply ok_inj in H. subst r. exact Hcards.
  - destruct (stat_card py_repr cards y) as [cards'|e] eqn:Hy; [|discriminate].
    cbn [bind] in H.
    apply (IH cards' r H Hg).
    + intros x p Hx Hp. apply Habs; [right; exact Hx|exact Hp].
    + intros x p v Hx Hp Hv. apply (Hplain x p v); [right; exact Hx|exact Hp|exact Hv].
    + apply (stat_card_additive _ _ _ _ _ Hy Hg).
      * intros p Hp. apply Habs; [left; reflexivity|exact Hp].
      * intros p v Hp Hv. apply (Hplain y p v); [left; reflexivity|exact Hp|exact Hv].
      * exact Hcards.
Qed.

Lemma stats_additive c idx palette fonts html tag ps :
  slide_stats py_repr c idx palette fonts = Ok html ->
  In (tag, ps) (guards_of "STATS" GUARDS) ->
  (forall p, In p ps -> values_at p c = []) ->
  plain py_repr "STATS" c ->
  tag_free tag html.
Proof.
  intros H Hg Habs Hplain.
  destruct c as [| | | | | |kvs]; try discriminate.
  unfold slide_stats in H. rewrite !get_dict in H. cbn [bind] in H.
  destruct (iter _) as [stats|e] eqn:Hiter; [|discriminate].
  cbn [bind] in H.
  destruct (for_each _ _ _) as [cards|e] eqn:Hc; [|discriminate].
  cbn [bind] in H.
  assert (Hcard : forall x p v,
            In x stats ->
            In p [text "number"; text "label"; text "trend"; text "description"] ->
            In v (values_at p x) -> lt_free (py_str py_repr v) = true).
  { intros x p v Hx Hp Hv. apply (Hplain (Field "stats" (Items p)) v).
    - destruct Hp as [<-|[<-|[<-|[<-|[]]]]]; in_paths.
    - exact (values_in_items _ _ _ _ _ _ Hiter Hx Hv). }
  assert (Hempty : tag_free tag "") by reflexivity.
  apply ok_inj in H; subst html.
  split_guards Hg.
  - pose proof (stat_cards_additive _ [] _ _ _ Hc ltac:(left; reflexivity)
                  ltac:(intros x p _ []) Hcard Hempty) as Hcards.
    absent_text Habs. scan_template idtac.
  - pose proof (values_texts_nil _ _ _ (Habs _ (or_introl eq_refl)) Hiter) as E.
    subst stats. cbn [for_each] in Hc. apply ok_inj in Hc. subst cards.
    scan_template idtac.
  - pose proof (stat_cards_additive _ [text "trend"] _ _ _ Hc
                  ltac:(right; left; reflexivity)
                  ltac:(intros x p Hx [<-|[]];
                        exact (values_in_items_nil _ _ _ _ _
                                 (Habs _ (or_introl eq_refl)) Hiter Hx))
                  Hcard Hempty) as Hcards.
    scan_template idtac.
  - pose proof (stat_cards_additive _ [text "description"] _ _ _ Hc
                  ltac:(right; right; left; reflexivity)
                  ltac:(intros x p Hx [<-|[]];
                        exact (values_in_items_nil _ _ _ _ _
                                 (Habs _ (or_introl eq_refl)) Hiter Hx))
                  Hcard Hempty) as Hcards.
    scan_template idtac.
Qed.

(** A block that a template puts in on a condition is not in the fragment
    when the field that brings it in is absent. *)
Lemma guarded_block_omitted stype b c idx palette fonts html tag ps :
  builders_get stype (BUILDERS py_repr) = Some b ->
  b c idx palette fonts = Ok html ->
  In (tag, ps) (guards_of stype GUARDS) ->
  (forall p, In p ps -> values_at p c = []) ->
  plain py_repr stype c ->
  ~ occurs ("<" ++ tag) html.
Proof.
  intros Hb H Hg Habs Hplain.
  assert (Hlt : lt_free tag = true).
  { clear - Hg. unfold GUARDS in Hg. cbn [guards_of] in Hg.
    repeat match type of Hg with
           | In _ (if ?t then _ else _) => destruct t
           end;
      (repeat destruct Hg as [Hg|Hg]; [..|destruct Hg]);
      apply pair_equal_spec in Hg; destruct Hg as [<- _]; reflexivity. }
  apply (tag_free_sound tag html Hlt).
  unfold BUILDERS in Hb. cbn [builders_get] in Hb.
  repeat match type of Hb with
         | (if String.eqb stype ?k then _ else _) = _ =>
             destruct (String.eqb_spec stype k) as [->|_]; [injection Hb as <-|]
         end; [..|discriminate].
  - exact (hero_additive _ _ _ _ _ _ _ H Hg Habs Hplain).
  - exact (agenda_additive _ _ _ _ _ _ _ H Hg Habs Hplain).
  - exact (content_additive _ _ _ _ _ _ _ H Hg Habs Hplain).
  - exact (two_col_additive _ _ _ _ _ _ _ H Hg Habs Hplain).
  - exact (stats_additive _ _ _ _ _ _ _ H Hg Habs Hplain).
  - exact (quote_additive _ _ _ _ _ _ _ H Hg Habs Hplain).
  - exact (divider_additive _ _ _ _ _ _ _ H Hg Habs Hplain).
  - exact (closing_additive _ _ _ _ _ _ _ H Hg Habs Hplain).
Qed.

(** The templates only add.  A block that a template puts in on a condition
    (the tagline, author, date and subtitle of a hero; an agenda item; the
    section label, body text, bullet list and image placeholder of a content
    slide; the body and bullet list of a column; the section label, the
    cards, the trend and the description of a stats slide; the name and role
    under a quote; the description of a divider; the subheading, call to
    action, takeaways and contact line of a closing slide) is not in the
    fragment when the field that brings it in is absent (for a list: absent
    or without element), not even as an empty element: its opening tag
    occurs nowhere in the fragment.  This is for content whose text has no
    angle bracket of its own, which could spell the tag. *)
Theorem absent_field_leaves_no_block stype b c idx palette fonts html tag ps :
  builders_get stype (BUILDERS py_repr) = Some b ->
  b c idx palette fonts = Ok html ->
  In (tag, ps) (guards_of stype GUARDS) ->
  (forall p, In p ps -> values_at p c = []) ->
  plain py_repr stype c ->
  ~ occurs ("<" ++ tag) html.
Proof.
  exact (guarded_block_omitted stype b c idx palette fonts html tag ps).
Qed.

End AdditiveBuilders.

Lemma absent_field_leaves_no_block_witness :
  exists html,
    slide_hero Sample.repr (PDict [("title", PStr "Launch")]) 1 PNone PNone
    = Ok html /\
    ~ occurs ("<" ++ open_tag "p" "hero-subtitle") html.
Proof.
  eexists. split; [reflexivity|].
  apply (absent_field_leaves_no_block Sample.repr "HERO" (slide_hero Sample.repr)
           (PDict [("title", PStr "Launch")]) 1 PNone PNone _
           (open_tag "p" "hero-subtitle") [text "subtitle"]).
  - reflexivity.
  - reflexivity.
  - simpl. auto.
  - intros p [<-|[]]. reflexivity.
  - intros p v Hp Hv. simpl in Hp.
    repeat destruct Hp as [<-|Hp]; try destruct Hp; simpl in Hv;
      try destruct Hv as [<-|[]]; try destruct Hv; reflexivity.
Defined.

(* ------------------------------------------------------------------ *)
(** ** Defaults that are shown                                         *)
(* ------------------------------------------------------------------ *)

(** The text fields with a default that is not empty: the builder, the
    field and the default. *)
Definition DEFAULTS : list (string * (string * pyval)) :=
  [ ("AGENDA", ("heading", PStr "Agenda"));
    ("AGENDA", ("sectionLabel", PStr "OVERVIEW"));
    ("CLOSING", ("tagline", PStr "THANK YOU"));
    ("CLOSING", ("heading", PStr "Let's Build Together")) ].

Section Defaults.

Variable py_repr : pyval -> string.

(** Four text fields are never left out: an agenda without heading or
    without section label and a closing slide without tagline or without
    heading are rendered as if the field held its default text (Agenda,
    OVERVIEW, THANK YOU, Let's Build Together); and a divider without
    section number is rendered as if its section number were the index of
    the slide. *)
Theorem absent_field_shows_default kvs idx palette fonts :
  (forall stype k d b,
     In (stype, (k, d)) DEFAULTS ->
     builders_get stype (BUILDERS py_repr) = Some b ->
     assoc k kvs = None ->
     b (PDict kvs) idx palette fonts = b (PDict ((k, d) :: kvs)) idx palette fonts)
  /\
  (assoc "sectionNumber" kvs = None ->
   slide_divider py_repr (PDict kvs) idx palette fonts
   = slide_divider py_repr (PDict (("sectionNumber", PInt idx) :: kvs))
       idx palette fonts).
Proof.
  split.
  - intros stype k d b Hin Hb Hk. unfold DEFAULTS in Hin.
    (repeat destruct Hin as [Hin|Hin]; [..|destruct Hin]);
      injection Hin as <- <- <-; injection Hb as <-.
    + unfold slide_agenda. rewrite !get_dict.
      cbn [assoc String.eqb Ascii.eqb Bool.eqb]. rewrite Hk. reflexivity.
    + unfold slide_agenda. rewrite !get_dict.
      cbn [assoc String.eqb Ascii.eqb Bool.eqb]. rewrite Hk. reflexivity.
    + unfold slide_closing. rewrite !get_dict.
      cbn [assoc String.eqb Ascii.eqb Bool.eqb]. rewrite Hk. reflexivity.
    + unfold slide_closing. rewrite !get_dict.
      cbn [assoc String.eqb Ascii.eqb Bool.eqb]. rewrite Hk. reflexivity.
  - intros Hk. unfold slide_divider. rewrite !get_dict.
    cbn [assoc String.eqb Ascii.eqb Bool.eqb]. rewrite Hk. reflexivity.
Qed.

End Defaults.

(* ------------------------------------------------------------------ *)
(** ** Optional fields: left out, left empty, or given a default        *)
(* ------------------------------------------------------------------ *)


Section OptionalFields.

Variable py_repr : pyval -> string.



End OptionalFields.



(* ------------------------------------------------------------------ *)
(** ** Slides that are no list, and the report at the end of a run      *)
(* ------------------------------------------------------------------ *)

Section MoreRuns.

Variable py_repr : pyval -> string.
Variable set_order : list string -> list string.
Variable str_upper : string -> string.
Variable resolve : string -> string.

(** The slides of a plan have to be a list.  A plan whose slides are a
    value that counts as true but is no list stops the build right after the
    output directory was made, with nothing written: a number, a float or
    true cannot be gone through (TypeError), and the characters of a str or
    the keys of a dict are no slides (AttributeError at the first one). *)
Theorem slides_must_be_a_list
  plan_path plan title palette fonts slides css url :
  get plan "title" (PStr "Presentation") = Ok title ->
  get plan "palette" (PDict []) = Ok palette ->
  get plan "fonts" (PDict [("display", PStr "Inter"); ("body", PStr "Inter")])
    = Ok fonts ->
  get plan "slides" (PList []) = Ok slides ->
  truthy slides = true ->
  (forall l, slides <> PList l) ->
  build_css_vars py_repr palette fonts = Ok css ->
  build_google_fonts_url set_order fonts = Ok url ->
  run_main py_repr set_order str_upper resolve plan_path (Some plan)
  = (World [] ["slides"] [] [],
     Stop (Uncaught (match slides with
                     | PStr _ | PDict _ => AttributeError
                     | _ => TypeError
                     end))).
Proof.
  intros Ht Hp Hf Hs Htr Hnl Hcss Hurl.
  unfold run_main, main, bindM at 1, lift.
  rewrite Ht. unfold bindM at 1. rewrite Hp.
  unfold bindM at 1. rewrite Hf. unfold bindM at 1. rewrite Hs.
  rewrite Htr. cbn [negb].
  unfold bindM at 1, mkdir. unfold bindM at 1. rewrite Hcss.
  unfold bindM at 1. rewrite Hurl. unfold bindM at 1.
  destruct slides as [| | | |s|l|kvs]; try reflexivity.
  - (* a str: its first character has no get *)
    cbn [iter]. destruct s as [|a s]; [discriminate|].
    destruct (code_points_cons a s) as (h & t & E). rewrite E.
    cbn [map enumerate]. unfold bindM at 1.
    rewrite (loop_stops py_repr str_upper title palette fonts
               (PStr (String a s)) css url _ eq_refl
               [] 1 (PStr h) (enumerate (1 + 1) (map PStr t)) [] AttributeError
               _ _ eq_refl eq_refl eq_refl).
    rewrite after_loop_nil. reflexivity.
  - exfalso. exact (Hnl l eq_refl).
  - (* a dict: its first key has no get *)
    cbn [iter]. destruct kvs as [|[k v] kvs]; [discriminate|].
    cbn [map enumerate fst]. unfold bindM at 1.
    rewrite (loop_stops py_repr str_upper title palette fonts
               (PDict ((k, v) :: kvs)) css url _ eq_refl
               [] 1 (PStr k)
               (enumerate (1 + 1) (map (fun kv => PStr (fst kv)) kvs))
               [] AttributeError _ _ eq_refl eq_refl eq_refl).
    rewrite after_loop_nil. reflexivity.
Qed.

(** What a run that returns reports on its output stream: one progress line
    for each entry of the manifest, then eight lines, of which the second
    gives the number of entries of the manifest and the last the URL of its
    first entry. *)
Theorem summary_reports_manifest plan_path plan w :
  run_main py_repr set_order str_upper resolve plan_path (Some plan)
  = (w, Next tt) ->
  exists progress_lines report e rest url,
    stdout w = (progress_lines ++ report)%list /\
    List.length progress_lines = List.length (manifest_slides w) /\
    List.length report = 8%nat /\
    nth_error report 1
    = Some ("  Slides:  " ++ str_int (Z.of_nat (List.length (manifest_slides w)))) /\
    manifest_slides w = e :: rest /\
    subscript e "url" = Ok (PStr url) /\
    nth_error report 7 = Some (nl ++ "First slide: " ++ url).
Proof.
  intros H. apply main_returns_inv in H.
  destruct H as (title & palette & fonts & l & css & url & os
                 & _ & _ & _ & _ & _ & _ & _ & Hne & ->).
  rewrite manifest_slides_final. unfold final_world. cbn [stdout].
  destruct (rendered os) as [|[[i stype] html] rs] eqn:Hr; [contradiction|].
  eexists (map progress_of ((i, stype, html) :: rs)), _, _, _, _.
  split; [reflexivity|].
  split; [rewrite !length_map; reflexivity|].
  split; [reflexivity|].
  split; [rewrite !length_map; reflexivity|].
  split; [reflexivity|].
  split; reflexivity.
Qed.

End MoreRuns.

(** A plan whose slides are a text. *)
Definition plan_text_slides : pyval :=
  PDict [("slides", PStr "HERO")].

Lemma slides_must_be_a_list_witness :
  Sample.run plan_text_slides
  = (World [] ["slides"] [] [], Stop (Uncaught AttributeError)).
Proof.
  eapply (slides_must_be_a_list Sample.repr Sample.set_order ascii_upper
            Sample.resolve "slides-plan.json" plan_text_slides
            (PStr "Presentation") (PDict [])
            (PDict [("display", PStr "Inter"); ("body", PStr "Inter")])
            (PStr "HERO")).
  - reflexivity.
  - reflexivity.
  - reflexivity.
  - reflexivity.
  - reflexivity.
  - intros l. discriminate.
  - reflexivity.
  - reflexivity.
Defined.

Lemma summary_reports_manifest_witness :
  exists w,
    Sample.run plan_gap = (w, Next tt) /\
    exists progress_lines report e rest url,
      stdout w = (progress_lines ++ report)%list /\
      List.length progress_lines = List.length (manifest_slides w) /\
      List.length report = 8%nat /\
      nth_error report 1
      = Some ("  Slides:  " ++ str_int (Z.of_nat (List.length (manifest_slides w)))) /\
      manifest_slides w = e :: rest /\
      subscript e "url" = Ok (PStr url) /\
      nth_error report 7 = Some (nl ++ "First slide: " ++ url).
Proof.
  eexists. split; [vm_compute; reflexivity|].
  apply (summary_reports_manifest Sample.repr Sample.set_order ascii_upper
           Sample.resolve "slides-plan.json" plan_gap).
  vm_compute. reflexivity.
Defined.

(* ------------------------------------------------------------------ *)
(** ** What the pages and the index hold                               *)
(* ------------------------------------------------------------------ *)

Lemma occurs_concat_sep sep s x l :
  In x l -> occurs s x -> occurs s (String.concat sep l).
Proof.
  induction l as [|y rest IH]; intros Hin Hs; [destruct Hin|].
  simpl. destruct rest as [|z rest'].
  - destruct Hin as [->|[]]. exact Hs.
  - destruct Hin as [->|Hin].
    + apply occurs_app_l. exact Hs.
    + apply occurs_app_r, occurs_app_r. exact (IH Hin Hs).
Qed.

Section Embedding.

Variable py_repr : pyval -> string.
Variable set_order : list string -> list string.
Variable str_upper : string -> string.
Variable resolve : string -> string.

Lemma make_page_embeds html css url title i total :
  occurs html (make_page py_repr html css url title i total) /\
  occurs css (make_page py_repr html css url title i total) /\
  occurs url (make_page py_repr html css url title i total) /\
  occurs (py_str py_repr title) (make_page py_repr html css url title i total).
Proof.
  unfold make_page. repeat split; find_occurrence.
Qed.

Lemma make_index_links title names f :
  In f names -> occurs (index_link f) (make_index py_repr title names).
Proof.
  intros Hin. unfold make_index. cbv zeta.
  assert (occurs (index_link f) (String.concat nl (map index_link names)))
    by (apply (occurs_concat_sep nl _ (index_link f));
        [apply in_map; exact Hin|apply occurs_refl]).
  find_occurrence.
Qed.

(** In a run that returns, every page holds, character for character, the
    style variables made from the theme, the font URL and the title of the
    plan as str gives it, none of them escaped; and index.html holds one
    link line for every file the manifest names. *)
Theorem pages_and_index_embed plan_path plan w :
  run_main py_repr set_order str_upper resolve plan_path (Some plan)
  = (w, Next tt) ->
  exists title palette fonts css url index,
    get plan "title" (PStr "Presentation") = Ok title /\
    get plan "palette" (PDict []) = Ok palette /\
    get plan "fonts" (PDict [("display", PStr "Inter"); ("body", PStr "Inter")])
      = Ok fonts /\
    build_css_vars py_repr palette fonts = Ok css /\
    build_google_fonts_url set_order fonts = Ok url /\
    (forall path page,
       In (path, Text page) (files w) -> path <> "index.html" ->
       occurs css page /\ occurs url page /\ occurs (py_str py_repr title) page) /\
    written "index.html" (files w) = Some (Text index) /\
    (forall e f,
       In e (manifest_slides w) -> subscript e "file" = Ok (PStr f) ->
       occurs (index_link f) index).
Proof.
  intros H. apply main_returns_inv in H.
  destruct H as (title & palette & fonts & l & css & url & os
                 & Ht & Hp & Hf & _ & Hcss & Hurl & _ & _ & ->).
  exists title, palette, fonts, css, url.
  eexists. split; [exact Ht|]. split; [exact Hp|]. split; [exact Hf|].
  split; [exact Hcss|]. split; [exact Hurl|].
  rewrite manifest_slides_final. unfold final_world. cbn [files].
  split; [|split].
  - intros path page Hin Hne. apply in_app_iff in Hin.
    destruct Hin as [Hin|[Hin|[Hin|[]]]].
    + apply in_map_iff in Hin. destruct Hin as ([[i stype] html] & E & _).
      injection E as _ <-.
      destruct (make_page_embeds html css url title i (Z.of_nat (List.length l)))
        as (_ & Hc & Hu & Htitle).
      auto.
    + injection Hin as Hpath _. symmetry in Hpath. contradiction.
    + discriminate.
  - apply written_before_last. discriminate.
  - intros e f Hin Hfile. apply make_index_links.
    apply in_map_iff in Hin. destruct Hin as ([[i stype] html] & <- & Hin).
    cbn [entry_of manifest_entry subscript assoc String.eqb Ascii.eqb Bool.eqb]
      in Hfile.
    apply ok_inj in Hfile. injection Hfile as <-.
    apply (in_map fname_of _ _ Hin).
Qed.

End Embedding.

Lemma pages_and_index_embed_witness :
  exists w,
    Sample.run plan_gap = (w, Next tt) /\
    exists title palette fonts css url index,
      get plan_gap "title" (PStr "Presentation") = Ok title /\
      get plan_gap "palette" (PDict []) = Ok palette /\
      get plan_gap "fonts"
        (PDict [("display", PStr "Inter"); ("body", PStr "Inter")]) = Ok fonts /\
      build_css_vars Sample.repr palette fonts = Ok css /\
      build_google_fonts_url Sample.set_order fonts = Ok url /\
      (forall path page,
         In (path, Text page) (files w) -> path <> "index.html" ->
         occurs css page /\ occurs url page /\
         occurs (py_str Sample.repr title) page) /\
      written "index.html" (files w) = Some (Text index) /\
      (forall e f,
         In e (manifest_slides w) -> subscript e "file" = Ok (PStr f) ->
         occurs (index_link f) index).
Proof.
  eexists. split; [vm_compute; reflexivity|].
  apply (pages_and_index_embed Sample.repr Sample.set_order ascii_upper
           Sample.resolve "slides-plan.json" plan_gap).
  vm_compute. reflexivity.
Defined.

(* ------------------------------------------------------------------ *)
(** ** From a file name back to the index                              *)
(* ------------------------------------------------------------------ *)

Lemma read_one_char a i : read_int (String a "") = Some i -> i < 10.
Proof.
  destruct a as [[] [] [] [] [] [] [] []]; vm_compute; intros H;
    try discriminate; injection H as <-; reflexivity.
Qed.

Lemma pad2_length i : 0 <= i -> (2 <= String.length (pad2 i))%nat.
Proof.
  intros Hi. unfold pad2. destruct (Z.ltb_spec i 0); [lia|].
  pose proof (read_str_int i) as Hr.
  destruct (Z.ltb_spec i 10).
  - destruct (str_int i) as [|a s]; [discriminate|].
    cbn [append String.length]. lia.
  - destruct (str_int i) as [|a [|b s]]; [discriminate| |cbn [String.length]; lia].
    apply read_one_char in Hr. lia.
Qed.

Section ReadBack.

Variable py_repr : pyval -> string.
Variable set_order : list string -> list string.
Variable str_upper : string -> string.
Variable resolve : string -> string.

(** The index of a slide can be read back from the name of its page: in a
    run that returns, every entry of the manifest has a file whose text
    before the first hyphen has two characters or more and is the decimal
    numeral of the entry's index. *)
Theorem file_name_reads_back_index plan_path plan w e :
  run_main py_repr set_order str_upper resolve plan_path (Some plan)
  = (w, Next tt) ->
  In e (manifest_slides w) ->
  exists f i,
    subscript e "file" = Ok (PStr f) /\
    subscript e "index" = Ok (PInt i) /\
    (2 <= String.length (before_dash f))%nat /\
    read_int (before_dash f) = Some i.
Proof.
  intros H Hin. apply main_returns_inv in H.
  destruct H as (title & palette & fonts & l & css & url & os
                 & _ & _ & _ & _ & _ & _ & Hos & _ & ->).
  rewrite manifest_slides_final in Hin.
  apply in_map_iff in Hin. destruct Hin as ([[i stype] html] & <- & Hin).
  assert (Hi : 0 <= i).
  { destruct (rendered_indices os) as [Hincl _].
    destruct (enumerate_fst_bounds l 1) as [_ Hb].
    rewrite <- (outcomes_fst _ _ _ _ _ _ Hos) in Hb.
    rewrite Forall_forall in Hb.
    specialize (Hb i (Hincl i (in_map rendered_index _ _ Hin))). lia. }
  exists (slide_fname i stype), i.
  split; [reflexivity|]. split; [reflexivity|].
  unfold slide_fname. rewrite before_dash_pad2 by exact Hi.
  split; [apply pad2_length; exact Hi|apply read_pad2; exact Hi].
Qed.

End ReadBack.

Lemma file_name_reads_back_index_witness :
  exists w,
    Sample.run plan_gap = (w, Next tt) /\
    In (manifest_entry 2 "CONTENT" "02-content.html") (manifest_slides w) /\
    exists f i,
      subscript (manifest_entry 2 "CONTENT" "02-content.html") "file"
      = Ok (PStr f) /\
      subscript (manifest_entry 2 "CONTENT" "02-content.html") "index"
      = Ok (PInt i) /\
      (2 <= String.length (before_dash f))%nat /\
      read_int (before_dash f) = Some i.
Proof.
  eexists. split; [vm_compute; reflexivity|].
  split; [left; reflexivity|].
  eapply (file_name_reads_back_index Sample.repr Sample.set_order ascii_upper
            Sample.resolve "slides-plan.json" plan_gap).
  - vm_compute. reflexivity.
  - left. reflexivity.
Defined.
